(** * Weekly status report pipeline of the Jira MCP server (server.py)

    A shallow embedding of the report-generation core of [server.py]:
    week-window derivation, report cache, configuration merge, the two
    collaborator calls with their failure isolation, the summary block and
    persistence.  Python's effects are kept explicit: a state monad over a
    [World] (file system, environment variables, clock, log) whose outcomes
    are a value, an early [return] of the tool reply, or a raised exception. *)

From Stdlib Require Import ZArith Lia Ascii.
From stdpp Require Import gmap strings list pretty.

Local Open Scope Z_scope.

(** ** Python exceptions *)

Inductive exn_class :=
  | ValueError | TypeError | AttributeError | OverflowError
  | OSError | ImportError | KeyError | IndexError.

Record exn := Exn { exn_cls : exn_class; exn_msg : string }.

Global Instance exn_class_eq_dec : EqDecision exn_class.
Proof. solve_decision. Defined.

(** [Ok]/[Err] results of the pure library functions that may raise. *)
Inductive result (A : Type) :=
  | Ok (a : A)
  | Err (e : exn).
Arguments Ok {A} a.
Arguments Err {A} e.

(** ** Text helpers *)

Module PyStr.

Definition digit_char (d : Z) : ascii :=
  Ascii.ascii_of_nat (48 + Z.to_nat (d mod 10)).

Definition is_digit (c : ascii) : bool :=
  let n := Z.of_nat (Ascii.nat_of_ascii c) in (48 <=? n) && (n <=? 57).

Definition digit_val (c : ascii) : Z := Z.of_nat (Ascii.nat_of_ascii c) - 48.

(** ["%02d"] for a value in 0..99. *)
Definition pad2 (n : Z) : string :=
  String (digit_char (n / 10)) (String (digit_char n) EmptyString).

(** ["%04d"] for a value in 0..9999. *)
Definition pad4 (n : Z) : string :=
  String (digit_char (n / 1000)) (String (digit_char (n / 100)) EmptyString)
  +:+ pad2 (n mod 100).

(** [sep.join(l)] *)
Fixpoint join (sep : string) (l : list string) : string :=
  match l with
  | [] => EmptyString
  | [x] => x
  | x :: rest => x +:+ sep +:+ join sep rest
  end.

(** [repr(s)] of a string without quotes, backslashes or control
    characters: the text between single quotes. *)
Definition repr (s : string) : string := "'" +:+ s +:+ "'".

(** [repr] of a list of such strings, as [list(d.keys())] prints. *)
Definition repr_list (l : list string) : string :=
  "[" +:+ join ", " (map repr l) +:+ "]".

(** [str(len(s))] *)
Definition len (s : string) : string := pretty (String.length s).

Definition newline : string := String (Ascii.ascii_of_nat 10) EmptyString.

Definition LF : ascii := Ascii.ascii_of_nat 10.
Definition CR : ascii := Ascii.ascii_of_nat 13.

(** What [f.read()] of a file opened in text mode makes of the stored
    text (universal newlines): a carriage return followed by a line feed,
    and a carriage return alone, are read as one line feed. *)
Fixpoint universal_newlines (s : string) : string :=
  match s with
  | EmptyString => EmptyString
  | String c rest =>
      if Ascii.eqb c CR then
        match rest with
        | String c' rest' =>
            if Ascii.eqb c' LF then String LF (universal_newlines rest')
            else String LF (universal_newlines rest)
        | EmptyString => String LF EmptyString
        end
      else String c (universal_newlines rest)
  end.

(** No carriage return in a text. *)
Fixpoint no_cr (s : string) : bool :=
  match s with
  | EmptyString => true
  | String c rest => negb (Ascii.eqb c CR) && no_cr rest
  end.

End PyStr.

(** [s.startswith(p)] *)
Fixpoint starts_with (p s : string) : bool :=
  match p, s with
  | EmptyString, _ => true
  | String a p', String b s' => Ascii.eqb a b && starts_with p' s'
  | String _ _, EmptyString => false
  end.

(** [needle in hay] *)
Fixpoint contains (needle hay : string) : bool :=
  starts_with needle hay
  || match hay with
     | EmptyString => false
     | String _ rest => contains needle rest
     end.

(** ** The [datetime] library: proleptic Gregorian calendar

    A [datetime] is kept as its ordinal (day 1 is 0001-01-01, as
    [date.toordinal]) and a time of day.  [ymd2ord] and [ord2ymd] are the
    conversions of CPython's [datetime] module. *)

Module Calendar.

Definition MINORD : Z := 1.
Definition MAXORD : Z := 3652059.  (* 9999-12-31 *)

Definition is_leap (y : Z) : bool :=
  (y mod 4 =? 0) && (negb (y mod 100 =? 0) || (y mod 400 =? 0)).

Definition days_in_month (y m : Z) : Z :=
  if m =? 2 then (if is_leap y then 29 else 28)
  else if (m =? 4) || (m =? 6) || (m =? 9) || (m =? 11) then 30
  else 31.

(** Days in the year before the first of month [m], leap day aside. *)
Definition DAYS_BEFORE_MONTH (m : Z) : Z :=
  match m with
  | 1 => 0 | 2 => 31 | 3 => 59 | 4 => 90 | 5 => 120 | 6 => 151
  | 7 => 181 | 8 => 212 | 9 => 243 | 10 => 273 | 11 => 304 | 12 => 334
  | _ => 0
  end.

Definition days_before_year (y : Z) : Z :=
  let y1 := y - 1 in y1 * 365 + y1 / 4 - y1 / 100 + y1 / 400.

Definition days_before_month (y m : Z) : Z :=
  DAYS_BEFORE_MONTH m + (if (2 <? m) && is_leap y then 1 else 0).

Definition ymd2ord (y m d : Z) : Z :=
  days_before_year y + days_before_month y m + d.

Definition DI400Y : Z := 146097.
Definition DI100Y : Z := 36524.
Definition DI4Y : Z := 1461.

Definition ord2ymd (n : Z) : Z * Z * Z :=
  let n := n - 1 in
  let n400 := n / DI400Y in let n := n mod DI400Y in
  let year := n400 * 400 + 1 in
  let n100 := n / DI100Y in let n := n mod DI100Y in
  let n4 := n / DI4Y in let n := n mod DI4Y in
  let n1 := n / 365 in let n := n mod 365 in
  let year := year + n100 * 100 + n4 * 4 + n1 in
  if (n1 =? 4) || (n100 =? 4) then (year - 1, 12, 31)
  else
    let leapyear := (n1 =? 3) && (negb (n4 =? 24) || (n100 =? 3)) in
    let month := Z.shiftr (n + 50) 5 in
    let preceding :=
      DAYS_BEFORE_MONTH month + (if (2 <? month) && leapyear then 1 else 0) in
    if n <? preceding then
      let month := month - 1 in
      let preceding :=
        preceding - (days_in_month 1 month
                     + (if (month =? 2) && leapyear then 1 else 0)) in
      (year, month, n - preceding + 1)
    else (year, month, n - preceding + 1).

Record datetime := DateTime {
  ordinal : Z;
  hour : Z;
  minute : Z;
  second : Z
}.

(** [dt.weekday()]: Monday is 0, Wednesday 2, Sunday 6. *)
Definition weekday (dt : datetime) : Z := (ordinal dt + 6) mod 7.

Definition WEDNESDAY : Z := 2.
Definition TUESDAY : Z := 1.

(** [dt - timedelta(days=k)] *)
Definition sub_days (dt : datetime) (k : Z) : result datetime :=
  let n := ordinal dt - k in
  if (MINORD <=? n) && (n <=? MAXORD)
  then Ok (DateTime n (hour dt) (minute dt) (second dt))
  else Err (Exn OverflowError "date value out of range").

(** [dt.strftime("%Y-%m-%d")] *)
Definition strftime_ymd (dt : datetime) : string :=
  let '(y, m, d) := ord2ymd (ordinal dt) in
  PyStr.pad4 y +:+ "-" +:+ PyStr.pad2 m +:+ "-" +:+ PyStr.pad2 d.

(** [dt.strftime("%Y-%m-%d %H:%M:%S")] *)
Definition strftime_ymd_hms (dt : datetime) : string :=
  strftime_ymd dt +:+ " " +:+ PyStr.pad2 (hour dt) +:+ ":"
  +:+ PyStr.pad2 (minute dt) +:+ ":" +:+ PyStr.pad2 (second dt).

(** [dt.strftime("%A")] *)
Definition strftime_A (dt : datetime) : string :=
  match weekday dt with
  | 0 => "Monday" | 1 => "Tuesday" | 2 => "Wednesday" | 3 => "Thursday"
  | 4 => "Friday" | 5 => "Saturday" | _ => "Sunday"
  end.

Definition in_range (lo hi : Z) (c : ascii) : bool :=
  PyStr.is_digit c && (lo <=? PyStr.digit_val c) && (PyStr.digit_val c <=? hi).

(** The month directive [%m]: [1[0-2]|0[1-9]|[1-9]], alternatives in
    this order; returns the month and the rest of the text. *)
Definition parse_month (s : string) : option (Z * string) :=
  match s with
  | String c1 rest =>
      let two :=
        match rest with
        | String c2 rest2 =>
            if (PyStr.digit_val c1 =? 1) && PyStr.is_digit c1 && in_range 0 2 c2
            then Some (10 + PyStr.digit_val c2, rest2)
            else if (PyStr.digit_val c1 =? 0) && PyStr.is_digit c1 && in_range 1 9 c2
            then Some (PyStr.digit_val c2, rest2)
            else None
        | EmptyString => None
        end in
      match two with
      | Some r => Some r
      | None => if in_range 1 9 c1 then Some (PyStr.digit_val c1, rest) else None
      end
  | EmptyString => None
  end.

(** The day directive [%d]: [3[0-1]|[1-2]\d|0[1-9]|[1-9]| [1-9]]. *)
Definition parse_day (s : string) : option (Z * string) :=
  match s with
  | String c1 rest =>
      let two :=
        match rest with
        | String c2 rest2 =>
            if (PyStr.digit_val c1 =? 3) && PyStr.is_digit c1 && in_range 0 1 c2
            then Some (30 + PyStr.digit_val c2, rest2)
            else if in_range 1 2 c1 && PyStr.is_digit c2
            then Some (10 * PyStr.digit_val c1 + PyStr.digit_val c2, rest2)
            else if (PyStr.digit_val c1 =? 0) && PyStr.is_digit c1 && in_range 1 9 c2
            then Some (PyStr.digit_val c2, rest2)
            else None
        | EmptyString => None
        end in
      match two with
      | Some r => Some r
      | None =>
          if in_range 1 9 c1 then Some (PyStr.digit_val c1, rest)
          else match rest with
               | String c2 rest2 =>
                   if Ascii.eqb c1 " " && in_range 1 9 c2
                   then Some (PyStr.digit_val c2, rest2) else None
               | EmptyString => None
               end
      end
  | EmptyString => None
  end.

(** The year directive [%Y]: exactly four digits. *)
Definition parse_year (s : string) : option (Z * string) :=
  match s with
  | String a (String b (String c (String d rest))) =>
      if PyStr.is_digit a && PyStr.is_digit b && PyStr.is_digit c && PyStr.is_digit d
      then Some (1000 * PyStr.digit_val a + 100 * PyStr.digit_val b
                 + 10 * PyStr.digit_val c + PyStr.digit_val d, rest)
      else None
  | _ => None
  end.

Definition expect_dash (s : string) : option string :=
  match s with
  | String c rest => if Ascii.eqb c "-" then Some rest else None
  | EmptyString => None
  end.

(** The regular expression of the format ["%Y-%m-%d"] matched at the
    start of the text: the fields and the unmatched rest. *)
Definition match_ymd (s : string) : option (Z * Z * Z * string) :=
  '(y, s1) ← parse_year s;
  s2 ← expect_dash s1;
  '(m, s3) ← parse_month s2;
  s4 ← expect_dash s3;
  '(d, s5) ← parse_day s4;
  Some (y, m, d, s5).

(** [datetime.strptime(s, "%Y-%m-%d")] *)
Definition strptime_ymd (s : string) : result datetime :=
  match match_ymd s with
  | None =>
      Err (Exn ValueError
             ("time data " +:+ PyStr.repr s +:+ " does not match format '%Y-%m-%d'"))
  | Some (y, m, d, rest) =>
      match rest with
      | String _ _ => Err (Exn ValueError ("unconverted data remains: " +:+ rest))
      | EmptyString =>
          if y =? 0 then Err (Exn ValueError "year 0 is out of range")
          else if days_in_month y m <? d
          then Err (Exn ValueError "day is out of range for month")
          else Ok (DateTime (ymd2ord y m d) 0 0 0)
      end
  end.

End Calendar.

(** ** [pathlib] paths

    A path is kept as its text.  [base / segment] splits the segment at
    the separators, drops the empty and the [.] parts and joins what is
    left to [base]; a segment that starts with a separator replaces
    [base]. *)

Module PyPath.

Fixpoint parts (cur s : string) : list string :=
  match s with
  | EmptyString => [cur]
  | String c rest =>
      if Ascii.eqb c "/" then cur :: parts EmptyString rest
      else parts (cur +:+ String c EmptyString) rest
  end.

Definition keep (part : string) : bool :=
  negb (String.eqb part EmptyString) && negb (String.eqb part ".").

Definition is_absolute (s : string) : bool :=
  match s with
  | String c _ => Ascii.eqb c "/"
  | EmptyString => false
  end.

(** [str(Path(base) / segment)] *)
Definition join (base segment : string) : string :=
  match List.filter keep (parts EmptyString segment) with
  | [] => if is_absolute segment then "/" else base
  | ps =>
      if is_absolute segment then "/" +:+ PyStr.join "/" ps
      else base +:+ "/" +:+ PyStr.join "/" ps
  end.

(** The text before the last separator, if there is a separator. *)
Fixpoint before_last_sep (s : string) : option string :=
  match s with
  | EmptyString => None
  | String c rest =>
      match before_last_sep rest with
      | Some d => Some (String c d)
      | None => if Ascii.eqb c "/" then Some EmptyString else None
      end
  end.

(** [str(Path(p).parent)] for a path as [join] writes it: the root for a
    name directly under the root, [.] for a name without a directory. *)
Definition parent (p : string) : string :=
  match before_last_sep p with
  | None => "."
  | Some EmptyString => "/"
  | Some d => d
  end.

End PyPath.

(** ** Configuration values

    What [yaml.safe_load] and the JSON tool arguments produce: scalars,
    lists and mappings keyed by strings.  A mapping keeps its insertion
    order, as a Python [dict] does.

    Values are trees: no mapping is held under two keys.  A YAML document
    with anchors and aliases loads into mappings that are shared, and
    [deep_update], which changes its [base] in place, then changes a
    shared mapping under every key that holds it; such documents are
    outside this model. *)

#[local] Set Warnings "-register-all".

Inductive value :=
  | VNone
  | VBool (b : bool)
  | VInt (n : Z)
  | VStr (s : string)
  | VList (l : list value)
  | VDict (d : list (string * value)).

Abbreviation dict := (list (string * value)).

(** Python truthiness, as in [x or {}] and [if x:]. *)
Definition truthy (v : value) : bool :=
  match v with
  | VNone => false
  | VBool b => b
  | VInt n => negb (n =? 0)
  | VStr s => negb (String.eqb s EmptyString)
  | VList l => match l with [] => false | _ => true end
  | VDict d => match d with [] => false | _ => true end
  end.

Definition is_dict (v : value) : bool :=
  match v with VDict _ => true | _ => false end.

(** [type(v).__name__] *)
Definition type_name (v : value) : string :=
  match v with
  | VNone => "NoneType" | VBool _ => "bool" | VInt _ => "int"
  | VStr _ => "str" | VList _ => "list" | VDict _ => "dict"
  end.

(** [d.get(k)] *)
Fixpoint dict_get (k : string) (d : dict) : option value :=
  match d with
  | [] => None
  | (k', v) :: rest => if String.eqb k k' then Some v else dict_get k rest
  end.

(** [k in d] *)
Definition dict_mem (k : string) (d : dict) : bool :=
  match dict_get k d with Some _ => true | None => false end.

(** [d[k] = v]: an existing key keeps its position, a new key goes last. *)
Fixpoint dict_set (k : string) (v : value) (d : dict) : dict :=
  match d with
  | [] => [(k, v)]
  | (k', v') :: rest =>
      if String.eqb k k' then (k, v) :: rest else (k', v') :: dict_set k v rest
  end.

Definition dict_keys (d : dict) : list string := map fst d.

(** [deep_update(base, updates)] of [merge_config_with_defaults], for a
    mapping [base]; the recursion is on the structure of [updates]. *)
Fixpoint deep_update_value (base : dict) (updates : value) {struct updates} : dict :=
  match updates with
  | VDict us =>
      (fix loop (base : dict) (us : dict) {struct us} : dict :=
         match us with
         | [] => base
         | (key, value) :: rest =>
             loop
               (match value, dict_get key base with
                | VDict _, Some (VDict b) =>
                    dict_set key (VDict (deep_update_value b value)) base
                | _, _ => dict_set key value base
                end) rest
         end) base us
  | _ => base
  end.

Definition deep_update_dict (base updates : dict) : dict :=
  deep_update_value base (VDict updates).

(** The text of the [TypeError] the first round of [deep_update] raises
    on a [base] that is not a mapping, in the wording of CPython 3.11 to
    3.13.  When the value is a mapping, [key in base] is evaluated first:
    it raises on a number, a boolean and [None], and when it holds for a
    text (the key is part of the text) [base[key]] raises.  Otherwise
    [base[key] = value] raises. *)
Definition item_error (base : value) (key : string) (value : value) : string :=
  match base with
  | VList _ => "list indices must be integers or slices, not str"
  | VStr s =>
      if is_dict value && contains key s
      then "string indices must be integers, not 'str'"
      else "'str' object does not support item assignment"
  | _ =>
      if is_dict value
      then "argument of type '" +:+ type_name base +:+ "' is not iterable"
      else "'" +:+ type_name base +:+ "' object does not support item assignment"
  end.

(** [deep_update] on whatever the defaults file held.  On a [base] that is
    not a mapping the first item raises a [TypeError]. *)
Definition deep_update (base : value) (updates : dict) : result value :=
  match base with
  | VDict b => Ok (VDict (deep_update_dict b updates))
  | _ =>
      match updates with
      | [] => Ok base
      | item :: _ => Err (Exn TypeError (item_error base item.1 item.2))
      end
  end.

(** ** The platform and the world

    [Platform] holds what the run cannot change: the clock, the failures
    the operating system injects, the YAML library and the two report
    generators of [team_reports].  [World] is the state a run reads and
    writes. *)

Inductive log_level := INFO | WARNING | ERROR.

Inductive event :=
  | EvLog (lvl : log_level) (msg : string)
  | EvMkstemp (path : string)
  | EvUnlink (path : string)
  | EvJira (config_file jira_server jira_email jira_token start_date end_date : string)
  | EvGitHub (config_file github_token start_date end_date : string).

Record Platform := {
  (** [datetime.now()] at the n-th reading of the clock *)
  clock : nat → Calendar.datetime;
  (** [Path(__file__).parent.absolute()] *)
  server_dir : string;
  (** [tempfile.gettempdir()] *)
  tempdir : string;
  (** the directories that cannot be searched: [os.stat] and [open] of a
      path directly in one of them fail with [PermissionError] *)
  unsearchable : string → bool;
  (** failure of opening a file for reading or of reading it, in a
      directory that can be searched *)
  file_read_error : string → option exn;
  (** failure of [open(path, 'w')]: the file is neither made nor emptied *)
  open_error : string → option exn;
  (** failure of [write], or of the flush when the file is closed, once
      the file is open for writing *)
  write_error : string → option exn;
  (** failures of [os.unlink] and [mkdir] on a path *)
  unlink_error : string → option exn;
  mkdir_error : string → option exn;
  (** [yaml.safe_load(f)] for a stream on a file, by the text the file
      holds, and [yaml.dump] of a value *)
  yaml_safe_load : string → result value;
  yaml_dump : value → string;
  (** [dict.update] with a non-empty list argument *)
  update_from_items : dict → list value → result dict;
  (** [str.format] on a template outside the plain fragment *)
  format_other : string → string → result string;
  (** [from team_reports import ...]: the exception it raises, if any *)
  team_reports_import : option exn;
  (** [WeeklyJiraSummary(config_file, server, email, token)
        .generate_weekly_summary(start_date, end_date)]: the report text;
      the generator reads its configuration from the files on disk *)
  WeeklyJiraSummary :
    gmap string string → string → string → string → string → string → string →
    result string;
  (** [WeeklyGitHubSummary(config_file, github_token)
        .generate_report(start_date, end_date, config_file)] *)
  WeeklyGitHubSummary :
    gmap string string → string → string → string → string → result string
}.

Record World := {
  (** regular files: path to contents *)
  files : gmap string string;
  (** directories *)
  dirs : gset string;
  (** [os.environ] *)
  environ : gmap string string;
  (** the candidate names [tempfile] will draw *)
  temp_names : list string;
  (** how often the clock has been read *)
  ticks : nat;
  (** log records and calls to the outside, oldest first *)
  trace : list event;
  (** the local list [temp_files_to_cleanup] of [_generate_weekly_status],
      written inside its [try] block and read in its [finally] block *)
  temp_files_to_cleanup : list string
}.

(** [PermissionError] for a path. *)
Definition permission_denied (p : string) : exn :=
  Exn OSError ("[Errno 13] Permission denied: " +:+ PyStr.repr p).

(** What keeps a file from being read: its directory cannot be searched,
    or the file itself cannot be opened or read. *)
Definition read_error (P : Platform) (p : string) : option exn :=
  if unsearchable P (PyPath.parent p) then Some (permission_denied p)
  else file_read_error P p.

Definition set_files (f : gmap string string → gmap string string) (w : World) : World :=
  {| files := f (files w); dirs := dirs w; environ := environ w;
     temp_names := temp_names w; ticks := ticks w; trace := trace w;
     temp_files_to_cleanup := temp_files_to_cleanup w |}.

Definition set_dirs (f : gset string → gset string) (w : World) : World :=
  {| files := files w; dirs := f (dirs w); environ := environ w;
     temp_names := temp_names w; ticks := ticks w; trace := trace w;
     temp_files_to_cleanup := temp_files_to_cleanup w |}.

Definition set_temp_names (l : list string) (w : World) : World :=
  {| files := files w; dirs := dirs w; environ := environ w;
     temp_names := l; ticks := ticks w; trace := trace w;
     temp_files_to_cleanup := temp_files_to_cleanup w |}.

Definition set_ticks (n : nat) (w : World) : World :=
  {| files := files w; dirs := dirs w; environ := environ w;
     temp_names := temp_names w; ticks := n; trace := trace w;
     temp_files_to_cleanup := temp_files_to_cleanup w |}.

Definition add_event (e : event) (w : World) : World :=
  {| files := files w; dirs := dirs w; environ := environ w;
     temp_names := temp_names w; ticks := ticks w; trace := trace w ++ [e];
     temp_files_to_cleanup := temp_files_to_cleanup w |}.

Definition set_cleanup (l : list string) (w : World) : World :=
  {| files := files w; dirs := dirs w; environ := environ w;
     temp_names := temp_names w; ticks := ticks w; trace := trace w;
     temp_files_to_cleanup := l |}.

(** ** The monad

    A computation ends with a value, with a [return] of the enclosing
    function (the text of the tool reply), or with a raised exception. *)

Inductive outcome (A : Type) :=
  | Val (a : A)
  | Return (reply : string)
  | Raise (e : exn).
Arguments Val {A} a.
Arguments Return {A} reply.
Arguments Raise {A} e.

Definition M (A : Type) : Type := World → outcome A * World.

Global Instance M_ret : MRet M := λ A a w, (Val a, w).

Global Instance M_bind : MBind M := λ A B k m w,
  match m w with
  | (Val a, w') => k a w'
  | (Return r, w') => (Return r, w')
  | (Raise e, w') => (Raise e, w')
  end.

Definition raise {A} (e : exn) : M A := λ w, (Raise e, w).

(** [return [TextContent(type="text", text=reply)]] *)
Definition return_ {A} (reply : string) : M A := λ w, (Return reply, w).

Definition lift {A} (r : result A) : M A :=
  match r with Ok a => mret a | Err e => raise e end.

(** [try: body  except Exception as e: handler e] *)
Definition try_except {A} (body : M A) (handler : exn → M A) : M A := λ w,
  match body w with
  | (Raise e, w') => handler e w'
  | r => r
  end.

(** [try: body  except cls as e: handler e] *)
Definition try_except_cls {A} (cls : exn_class) (body : M A) (handler : exn → M A)
  : M A := λ w,
  match body w with
  | (Raise e, w') =>
      if decide (exn_cls e = cls) then handler e w' else (Raise e, w')
  | r => r
  end.

(** [try: body  finally: final] *)
Definition try_finally {A} (body : M A) (final : M unit) : M A := λ w,
  match body w with
  | (o, w') =>
      match final w' with
      | (Val _, w'') => (o, w'')
      | (Return r, w'') => (Return r, w'')
      | (Raise e, w'') => (Raise e, w'')
      end
  end.

(** [for x in l: body x] *)
Fixpoint for_each {A} (l : list A) (body : A → M unit) : M unit :=
  match l with
  | [] => mret ()
  | x :: rest => body x;; for_each rest body
  end.

(** The body of a function: a [return] inside it is its result. *)
Definition call (body : M string) : M string := λ w,
  match body w with
  | (Return r, w') => (Val r, w')
  | r => r
  end.

Definition nonempty (o : option string) : option string :=
  match o with
  | Some (String c s) => Some (String c s)
  | _ => None
  end.

(** ** Primitive operations *)

Section Server.

Variable P : Platform.

Definition log (lvl : log_level) (msg : string) : M unit := λ w,
  (Val (), add_event (EvLog lvl msg) w).

(** [datetime.now()] *)
Definition now : M Calendar.datetime := λ w,
  (Val (clock P (ticks w)), set_ticks (S (ticks w)) w).

(** [os.getenv(name)] *)
Definition getenv (name : string) : M (option string) := λ w,
  (Val (environ w !! name), w).

(** [os.path.exists(p)]: never raises.  It is taken on the files and
    directories as they are stored: the temporary directory and the
    directories of the defaults files are taken to be searchable. *)
Definition path_exists (p : string) : M bool := λ w,
  (Val (bool_decide (is_Some (files w !! p)) || bool_decide (p ∈ dirs w)), w).

(** [Path(p).exists()], as CPython 3.8 to 3.13 have it: [os.stat] is
    called, a path that is not there gives [False], and any other error
    is raised to the caller.  Under a directory that cannot be searched
    that error is [PermissionError]. *)
Definition Path_exists (p : string) : M bool := λ w,
  if unsearchable P (PyPath.parent p) then (Raise (permission_denied p), w)
  else (Val (bool_decide (is_Some (files w !! p)) || bool_decide (p ∈ dirs w)), w).

(** [open(p, 'r')] and the text the file holds, as stored: what
    [yaml.safe_load(f)] is given to read.  [f.read()] is
    [PyStr.universal_newlines] of it. *)
Definition read_file (p : string) : M string := λ w,
  match files w !! p with
  | None => (Raise (Exn OSError ("[Errno 2] No such file or directory: " +:+ PyStr.repr p)), w)
  | Some content =>
      match read_error P p with
      | Some e => (Raise e, w)
      | None => (Val content, w)
      end
  end.

(** Whether the directory a path lies in is there.  The root and the
    working directory always are. *)
Definition parent_exists (p : string) (w : World) : bool :=
  String.eqb (PyPath.parent p) "/" || String.eqb (PyPath.parent p) "."
  || bool_decide (PyPath.parent p ∈ dirs w).

(** [with open(p, 'w') as f: f.write(content)] on a POSIX system, where
    writing translates no line ending.  [open] fails on a directory,
    under a directory that is not there and when [open_error] says so,
    and then nothing has changed.  Once [open] has succeeded the file is
    there and empty: a failure of the write leaves it so, and what the
    file held before is lost. *)
Definition write_file (p : string) (content : string) : M unit := λ w,
  if bool_decide (p ∈ dirs w)
  then (Raise (Exn OSError ("[Errno 21] Is a directory: " +:+ PyStr.repr p)), w)
  else if negb (parent_exists p w)
  then (Raise (Exn OSError ("[Errno 2] No such file or directory: " +:+ PyStr.repr p)), w)
  else match open_error P p with
       | Some e => (Raise e, w)
       | None =>
           match write_error P p with
           | Some e => (Raise e, set_files (insert p EmptyString) w)
           | None => (Val (), set_files (insert p content) w)
           end
       end.

(** [with os.fdopen(fd, 'w') as f: f.write(content)] on the descriptor
    of the file [p] that [mkstemp] has just made: nothing is opened by
    name, and a write that fails leaves the file as [mkstemp] made it. *)
Definition write_fd (p : string) (content : string) : M unit := λ w,
  match write_error P p with
  | Some e => (Raise e, w)
  | None => (Val (), set_files (insert p content) w)
  end.

(** [Path(p).mkdir(exist_ok=True)], for a directory beside [server.py]:
    the directory it is made in is there. *)
Definition mkdir_exist_ok (p : string) : M unit := λ w,
  if bool_decide (p ∈ dirs w) then (Val (), w)
  else if bool_decide (is_Some (files w !! p))
  then (Raise (Exn OSError ("[Errno 17] File exists: " +:+ PyStr.repr p)), w)
  else match mkdir_error P p with
       | Some e => (Raise e, w)
       | None => (Val (), set_dirs (λ d, {[p]} ∪ d) w)
       end.

(** [os.unlink(p)] *)
Definition unlink (p : string) : M unit := λ w,
  match files w !! p with
  | None => (Raise (Exn OSError ("[Errno 2] No such file or directory: " +:+ PyStr.repr p)), w)
  | Some _ =>
      match unlink_error P p with
      | Some e => (Raise e, w)
      | None => (Val (), add_event (EvUnlink p) (set_files (delete p) w))
      end
  end.

(** The search of [tempfile.mkstemp] for an unused name: the first
    candidate that names nothing yet is created empty. *)
Fixpoint mkstemp_search (suffix pre : string) (names : list string) (w : World)
  : outcome string * World :=
  match names with
  | [] => (Raise (Exn OSError "[Errno 17] No usable temporary file name found"),
           set_temp_names [] w)
  | name :: rest =>
      let file := tempdir P +:+ "/" +:+ pre +:+ name +:+ suffix in
      if bool_decide (is_Some (files w !! file)) || bool_decide (file ∈ dirs w)
      then mkstemp_search suffix pre rest w
      else (Val file,
            add_event (EvMkstemp file)
              (set_files (insert file EmptyString) (set_temp_names rest w)))
  end.

(** [tempfile.mkstemp(suffix=suffix, prefix=pre, text=True)] *)
Definition mkstemp (suffix pre : string) : M string := λ w,
  mkstemp_search suffix pre (temp_names w) w.

(** ** [get_week_range] (server.py, lines 56-88) *)

Definition get_week_range (start_date end_date : option string)
  : M (string * string) :=
  start ← match nonempty start_date with
          | Some start_date =>
              start ← lift (Calendar.strptime_ymd start_date);
              if negb (Calendar.weekday start =? 2)
              then raise (Exn ValueError
                            ("start_date must be a Wednesday. " +:+ start_date
                             +:+ " is a " +:+ Calendar.strftime_A start))
              else mret start
          | None => now
          end;
  end_ ← match nonempty end_date with
         | Some end_date =>
             end_ ← lift (Calendar.strptime_ymd end_date);
             if negb (Calendar.weekday end_ =? 1)
             then raise (Exn ValueError
                           ("end_date must be a Tuesday. " +:+ end_date
                            +:+ " is a " +:+ Calendar.strftime_A end_))
             else mret end_
         | None => lift (Calendar.sub_days start 7)
         end;
  mret (Calendar.strftime_ymd start, Calendar.strftime_ymd end_).

(** ** [load_config_with_overrides] (lines 91-149) *)

(** [base.update(arg)] for the values a configuration can hold. *)
Definition py_update (base arg : value) : result value :=
  match base with
  | VDict d =>
      match arg with
      | VDict u => Ok (VDict (fold_left (λ acc kv, dict_set kv.1 kv.2 acc) u d))
      | VStr EmptyString | VList [] => Ok base
      | VStr _ =>
          Err (Exn ValueError
                 "dictionary update sequence element #0 has length 1; 2 is required")
      | VList items =>
          match update_from_items P d items with
          | Ok d' => Ok (VDict d')
          | Err e => Err e
          end
      | _ => Err (Exn TypeError ("'" +:+ type_name arg +:+ "' object is not iterable"))
      end
  | _ => Err (Exn AttributeError
                ("'" +:+ type_name base +:+ "' object has no attribute 'update'"))
  end.

(** One of the three [if path.exists(): try: ... except ...] blocks. *)
Definition load_one (label key path : string) (config : dict) : M dict :=
  ex ← Path_exists path;
  if ex : bool then
    try_except
      (text ← read_file path;
       loaded ← lift (yaml_safe_load P text);
       let config := dict_set key (if truthy loaded then loaded else VDict []) config in
       log INFO ("Loaded " +:+ label +:+ " config from " +:+ path);;
       mret config)
      (λ e, log WARNING ("Failed to load " +:+ label +:+ " config: " +:+ exn_msg e);;
            mret config)
  else mret config.

Fixpoint apply_overrides (items : dict) (config : dict) : M dict :=
  match items with
  | [] => mret config
  | (key, value) :: rest =>
      config ← match dict_get key config with
               | Some base =>
                   updated ← lift (py_update base value);
                   mret (dict_set key updated config)
               | None => mret (dict_set key value config)
               end;
      apply_overrides rest config
  end.

Definition load_config_with_overrides (config_overrides : option dict) : M dict :=
  let config := [("jira", VDict []); ("github", VDict []); ("team", VDict [])] in
  let config_dir := "config" in
  config ← load_one "Jira" "jira" (PyPath.join config_dir "jira_config.yaml") config;
  config ← load_one "GitHub" "github" (PyPath.join config_dir "github_config.yaml") config;
  config ← load_one "team" "team" (PyPath.join config_dir "team_config.yaml") config;
  match config_overrides with
  | Some (item :: items) =>
      config ← apply_overrides (item :: items) config;
      log INFO ("Applied config overrides: "
                +:+ PyStr.repr_list (dict_keys (item :: items)));;
      mret config
  | _ => mret config
  end.

(** ** [get_report_path] (lines 152-168)

    The result is the text of the path. *)

Definition report_filename (start_date end_date : string) : string :=
  "Weekly_Report_" +:+ start_date +:+ "_to_" +:+ end_date +:+ ".md".

Definition get_report_path (start_date end_date : string) : M string :=
  let reports_dir := PyPath.join (server_dir P) "Reports" in
  mkdir_exist_ok reports_dir;;
  let filename := report_filename start_date end_date in
  mret (PyPath.join reports_dir filename).

(** ** [check_report_exists] (lines 171-194) *)

Definition check_report_exists (start_date end_date : string) : M (option string) :=
  report_path ← get_report_path start_date end_date;
  ex ← Path_exists report_path;
  if ex : bool then
    try_except
      (stored ← read_file report_path;
       let content := PyStr.universal_newlines stored in
       log INFO ("Found existing report: " +:+ report_path);;
       mret (Some content))
      (λ e, log WARNING ("Failed to read existing report: " +:+ exn_msg e);;
            mret None)
  else mret None.

(** ** [save_report] (lines 197-218) *)

Definition save_report (content start_date end_date : string) : M string :=
  report_path ← get_report_path start_date end_date;
  try_except
    (write_file report_path content;;
     log INFO ("Saved report to: " +:+ report_path);;
     mret report_path)
    (λ e, log ERROR ("Failed to save report: " +:+ exn_msg e);;
          raise e).

(** ** [create_temp_config_file] (lines 221-244) *)

Definition create_temp_config_file (config_dict : value) (pre : string) : M string :=
  try_except
    (temp_path ← mkstemp ".yaml" pre;
     write_fd temp_path (yaml_dump P config_dict);;
     log INFO ("Created temporary config file: " +:+ temp_path);;
     mret temp_path)
    (λ e, log ERROR ("Failed to create temp config file: " +:+ exn_msg e);;
          raise e).

(** ** [merge_config_with_defaults] (lines 247-289) *)

(** The defaults read from [default_config_path]: lines 264-271. *)
Definition load_defaults (default_config_path : string) : M value :=
  ex ← path_exists default_config_path;
  if ex : bool then
    try_except
      (text ← read_file default_config_path;
       loaded ← lift (yaml_safe_load P text);
       let config := if truthy loaded then loaded else VDict [] in
       log INFO ("Loaded default config from: " +:+ default_config_path);;
       mret config)
      (λ e, log WARNING ("Could not load default config from "
                         +:+ default_config_path +:+ ": " +:+ exn_msg e);;
            mret (VDict []))
  else mret (VDict []).

Definition merge_config_with_defaults
    (config_overrides : option dict) (default_config_path config_key : string)
  : M value :=
  config ← load_defaults default_config_path;
  match config_overrides with
  | Some (item :: items) =>
      match dict_get config_key (item :: items) with
      | Some (VDict override_values) =>
          config ← lift (deep_update config override_values);
          log INFO ("Applied config overrides for " +:+ config_key);;
          mret config
      | _ => mret config
      end
  | _ => mret config
  end.

(** ** [str.format]

    [template.format(report_content=content)] for a template made of
    literal text, the escapes [{{] and [}}] and the field
    [{report_content}].  [skip] counts the characters of the piece just
    recognised that are still to be passed over.  [None]: the template is
    outside this fragment. *)

Fixpoint plain_format (skip : nat) (template content : string) : option string :=
  match template with
  | EmptyString => Some EmptyString
  | String c rest =>
      match skip with
      | S k => plain_format k rest content
      | O =>
          if Ascii.eqb c "{" then
            if starts_with "{" rest
            then String c <$> plain_format 1 rest content
            else if starts_with "report_content}" rest
            then (λ r, content +:+ r) <$> plain_format 15 rest content
            else None
          else if Ascii.eqb c "}" then
            if starts_with "}" rest
            then String c <$> plain_format 1 rest content
            else None
          else String c <$> plain_format 0 rest content
      end
  end.

Definition str_format (template content : string) : result string :=
  match plain_format 0 template content with
  | Some r => Ok r
  | None => format_other P template content
  end.

(** ** [_generate_weekly_status] (lines 939-1165) *)

Record Args := {
  github_token : option string;
  start_date : option string;
  end_date : option string;
  regenerate : bool;
  generate_summary : bool;
  summary_prompt : option string;
  config_overrides : option dict
}.

Local Abbreviation nl := PyStr.newline.

Definition DEFAULT_SUMMARY_PROMPT : string :=
"Based on the following weekly team report, generate an executive summary highlighting:

1. Key Accomplishments: Major milestones and completed work
2. Team Velocity: Overall productivity and throughput metrics
3. Blockers & Risks: Issues requiring attention or escalation
4. Notable Trends: Patterns in team performance or workload

Keep the summary concise (3-5 paragraphs) and action-oriented.

---

{report_content}

---

Please provide the executive summary:".

(** Lines 965-970: the date range. *)
Definition resolve_window (a : Args) : M (string * string) :=
  try_except_cls ValueError
    ('(calc_start_date, calc_end_date) ← get_week_range (start_date a) (end_date a);
     log INFO ("Generating report for " +:+ calc_end_date +:+ " to " +:+ calc_start_date);;
     mret (calc_start_date, calc_end_date))
    (λ e, return_ ("Error: " +:+ exn_msg e)).

Definition found_existing_reply (report_path existing_report : string) : string :=
  "**Found existing report (use regenerate=true to recreate):**" +:+ nl +:+ nl
  +:+ "**File:** " +:+ report_path +:+ nl +:+ nl
  +:+ "---" +:+ nl +:+ nl +:+ existing_report.

(** Lines 972-982: the cache. *)
Definition check_cache (a : Args) (calc_start_date calc_end_date : string) : M unit :=
  if negb (regenerate a) then
    existing_report ← check_report_exists calc_start_date calc_end_date;
    match nonempty existing_report with
    | Some existing_report =>
        report_path ← get_report_path calc_start_date calc_end_date;
        return_ (found_existing_reply report_path existing_report)
    | None => mret ()
    end
  else mret ().

Definition missing_if (cred : option string) (name : string) : list string :=
  match nonempty cred with
  | None => [name]
  | Some _ => []
  end.

Definition missing_credentials_reply (missing_creds : list string) : string :=
  "Error: Missing required credentials: " +:+ PyStr.join ", " missing_creds
  +:+ nl +:+ nl
  +:+ "Please set these environment variables in your .env file or pass github_token as a parameter.".

(** Lines 987-1012: the four credentials. *)
Definition check_credentials (a : Args) : M (string * string * string * string) :=
  jira_server ← getenv "JIRA_SERVER";
  jira_email ← getenv "JIRA_EMAIL";
  jira_api_token ← getenv "JIRA_API_TOKEN";
  github_token ← match nonempty (github_token a) with
                 | Some t => mret (Some t)
                 | None => getenv "GITHUB_TOKEN"
                 end;
  let missing_creds :=
    missing_if jira_server "JIRA_SERVER" ++ missing_if jira_email "JIRA_EMAIL"
    ++ missing_if jira_api_token "JIRA_API_TOKEN"
    ++ missing_if github_token "GITHUB_TOKEN" in
  match missing_creds with
  | _ :: _ => return_ (missing_credentials_reply missing_creds)
  | [] => mret (default EmptyString jira_server, default EmptyString jira_email,
                default EmptyString jira_api_token, default EmptyString github_token)
  end.

(** Lines 1014-1021: the import of [team_reports]. *)
Definition import_team_reports : M unit :=
  try_except_cls ImportError
    (match team_reports_import P with
     | Some e => raise e
     | None => mret ()
     end)
    (λ e, return_ ("Error: Failed to import team-reports library. Please ensure it's installed: "
                   +:+ exn_msg e)).

(** [temp_files_to_cleanup.append(f)] *)
Definition register_temp (f : string) : M unit := λ w,
  (Val (), set_cleanup (temp_files_to_cleanup w ++ [f]) w).

(** One of the two merges of lines 1033-1051. *)
Definition prepare_config (a : Args) (config_file config_key pre : string) : M string :=
  merged ← merge_config_with_defaults (config_overrides a) config_file config_key;
  if truthy merged then
    temp ← create_temp_config_file merged pre;
    register_temp temp;;
    mret temp
  else mret config_file.

(** Lines 1031-1051: temporary configuration files when overrides are given. *)
Definition prepare_configs (a : Args) (jira_config_file github_config_file : string)
  : M (string * string) :=
  match config_overrides a with
  | Some (_ :: _) =>
      jira_config_file ← prepare_config a jira_config_file "jira" "jira_mcp_";
      github_config_file ← prepare_config a github_config_file "github" "github_mcp_";
      mret (jira_config_file, github_config_file)
  | _ => mret (jira_config_file, github_config_file)
  end.

Definition call_jira (config_file jira_server jira_email jira_token s e : string)
  : M string := λ w,
  let w := add_event (EvJira config_file jira_server jira_email jira_token s e) w in
  match WeeklyJiraSummary P (files w) config_file jira_server jira_email jira_token s e with
  | Ok text => (Val text, w)
  | Err ex => (Raise ex, w)
  end.

Definition call_github (config_file github_token s e : string) : M string := λ w,
  let w := add_event (EvGitHub config_file github_token s e) w in
  match WeeklyGitHubSummary P (files w) config_file github_token s e with
  | Ok text => (Val text, w)
  | Err ex => (Raise ex, w)
  end.

Definition jira_error_marker (e : exn) : string :=
  "**Error generating Jira report:** " +:+ exn_msg e +:+ nl +:+ nl.

Definition github_error_marker (e : exn) : string :=
  "**Error generating GitHub report:** " +:+ exn_msg e +:+ nl +:+ nl.

(** Lines 1053-1069: the Jira report. *)
Definition generate_jira
    (jira_config_file jira_server jira_email jira_api_token s e : string) : M string :=
  log INFO ("Generating Jira weekly report using config: " +:+ jira_config_file);;
  try_except
    (jira_report ← call_jira jira_config_file jira_server jira_email jira_api_token s e;
     log INFO ("Generated Jira report: " +:+ PyStr.len jira_report +:+ " characters");;
     mret jira_report)
    (λ ex, log ERROR ("Failed to generate Jira report: " +:+ exn_msg ex);;
           mret (jira_error_marker ex)).

(** Lines 1071-1086: the GitHub report. *)
Definition generate_github (github_config_file github_token s e : string) : M string :=
  log INFO ("Generating GitHub weekly report using config: " +:+ github_config_file);;
  try_except
    (github_report ← call_github github_config_file github_token s e;
     log INFO ("Generated GitHub report: " +:+ PyStr.len github_report +:+ " characters");;
     mret github_report)
    (λ ex, log ERROR ("Failed to generate GitHub report: " +:+ exn_msg ex);;
           mret (github_error_marker ex)).

(** Lines 1090-1096: one round of the cleanup loop. *)
Definition cleanup_one (temp_file : string) : M unit :=
  try_except
    (ex ← path_exists temp_file;
     if ex : bool then
       unlink temp_file;;
       log INFO ("Cleaned up temp config file: " +:+ temp_file)
     else mret ())
    (λ e, log WARNING ("Could not delete temp file " +:+ temp_file +:+ ": " +:+ exn_msg e)).

(** Lines 1088-1096: the [finally] block. *)
Definition cleanup_temp_files : M unit := λ w,
  for_each (temp_files_to_cleanup w) cleanup_one w.

(** Lines 1023-1096: configuration files and the two reports. *)
Definition aggregate (a : Args)
    (jira_server jira_email jira_api_token github_token s e : string)
  : M (string * string) :=
  let jira_config_file :=
    PyPath.join (PyPath.join (server_dir P) "config") "jira_config.yaml" in
  let github_config_file :=
    PyPath.join (PyPath.join (server_dir P) "config") "github_config.yaml" in
  (λ w, (Val (), set_cleanup [] w));;
  try_finally
    ('(jira_config_file, github_config_file) ←
        prepare_configs a jira_config_file github_config_file;
     jira_report ← generate_jira jira_config_file jira_server jira_email jira_api_token s e;
     github_report ← generate_github github_config_file github_token s e;
     mret (jira_report, github_report))
    cleanup_temp_files.

(** Lines 1099-1113: the text of the f-string, [generated] being the
    rendering of [datetime.now()]. *)
Definition combined_text (s e jira_report github_report generated : string) : string :=
  "# Weekly Team Status Report" +:+ nl
  +:+ "## Period: " +:+ s +:+ " to " +:+ e +:+ nl +:+ nl
  +:+ "---" +:+ nl +:+ nl
  +:+ jira_report +:+ nl +:+ nl
  +:+ "---" +:+ nl +:+ nl
  +:+ github_report +:+ nl +:+ nl
  +:+ "---" +:+ nl +:+ nl
  +:+ "*Report generated: " +:+ generated +:+ "*" +:+ nl.

(** Lines 1098-1113: the combined report. *)
Definition combine (s e jira_report github_report : string) : M string :=
  generated ← now;
  mret (combined_text s e jira_report github_report
          (Calendar.strftime_ymd_hms generated)).

Definition summary_section (prompt : string) : string :=
  nl +:+ nl +:+ "---" +:+ nl +:+ nl
  +:+ "## Executive Summary" +:+ nl +:+ nl
  +:+ "> **Note:** To generate an AI-powered executive summary, process the above report with the following prompt:"
  +:+ nl +:+ nl +:+ prompt +:+ nl +:+ nl.

(** Lines 1115-1140: the summary block. *)
Definition add_summary (a : Args) (combined_report : string) : M string :=
  if generate_summary a then
    log INFO "Generating AI summary...";;
    try_except
      (let prompt := match nonempty (summary_prompt a) with
                     | Some p => p
                     | None => DEFAULT_SUMMARY_PROMPT
                     end in
       prompt_with_report ← lift (str_format prompt combined_report);
       let summary_text := summary_section prompt in
       let combined_report := combined_report +:+ summary_text in
       log INFO "AI summary prompt added to report";;
       mret combined_report)
      (λ e, log WARNING ("Failed to add AI summary prompt: " +:+ exn_msg e);;
            mret combined_report)
  else mret combined_report.

Definition save_failed_reply (e : exn) (combined_report : string) : string :=
  "Error: Failed to save report: " +:+ exn_msg e +:+ nl +:+ nl
  +:+ "Report content:" +:+ nl +:+ nl +:+ combined_report.

Definition success_reply (s e report_path combined_report : string) : string :=
  "**Weekly status report generated successfully!**" +:+ nl +:+ nl
  +:+ "**Period:** " +:+ s +:+ " to " +:+ e +:+ nl
  +:+ "**File:** " +:+ report_path +:+ nl
  +:+ "**Size:** " +:+ PyStr.len combined_report +:+ " characters" +:+ nl +:+ nl
  +:+ "---" +:+ nl +:+ nl +:+ combined_report.

(** Lines 1142-1161: saving and the reply. *)
Definition persist (combined_report s e : string) : M string :=
  report_path ← try_except
                  (report_path ← save_report combined_report s e;
                   log INFO ("Report saved to: " +:+ report_path);;
                   mret report_path)
                  (λ ex, log ERROR ("Failed to save report: " +:+ exn_msg ex);;
                         return_ (save_failed_reply ex combined_report));
  return_ (success_reply s e report_path combined_report).

(** Lines 965-1021: everything before the configuration files are
    prepared and the report generators are called. *)
Definition before_aggregation (a : Args)
  : M (string * string * (string * string * string * string)) :=
  '(calc_start_date, calc_end_date) ← resolve_window a;
  check_cache a calc_start_date calc_end_date;;
  config ← load_config_with_overrides (config_overrides a);
  credentials ← check_credentials a;
  import_team_reports;;
  mret (calc_start_date, calc_end_date, credentials).

(** Everything up to the text that is to be saved: lines 965-1140. *)
Definition build_report (a : Args) : M (string * string * string) :=
  '(calc_start_date, calc_end_date, credentials) ← before_aggregation a;
  let '(jira_server, jira_email, jira_api_token, github_token) := credentials in
  '(jira_report, github_report) ←
     aggregate a jira_server jira_email jira_api_token github_token
       calc_start_date calc_end_date;
  combined_report ← combine calc_start_date calc_end_date jira_report github_report;
  combined_report ← add_summary a combined_report;
  mret (combined_report, calc_start_date, calc_end_date).

Definition generate_weekly_status_body (a : Args) : M string :=
  try_except
    ('(combined_report, calc_start_date, calc_end_date) ← build_report a;
     persist combined_report calc_start_date calc_end_date)
    (λ e, log ERROR ("Error generating weekly status: " +:+ exn_msg e);;
          return_ ("Error generating weekly status: " +:+ exn_msg e)).

Definition _generate_weekly_status (a : Args) : M string :=
  call (generate_weekly_status_body a).

End Server.

(** A platform that differs only in its clock. *)
Definition with_clock (P : Platform) (c : nat → Calendar.datetime) : Platform :=
  {| clock := c; server_dir := server_dir P; tempdir := tempdir P;
     unsearchable := unsearchable P; file_read_error := file_read_error P;
     open_error := open_error P; write_error := write_error P;
     unlink_error := unlink_error P; mkdir_error := mkdir_error P;
     yaml_safe_load := yaml_safe_load P; yaml_dump := yaml_dump P;
     update_from_items := update_from_items P; format_other := format_other P;
     team_reports_import := team_reports_import P;
     WeeklyJiraSummary := WeeklyJiraSummary P;
     WeeklyGitHubSummary := WeeklyGitHubSummary P |}.

(** The calls to the two report generators recorded in a trace. *)
Definition is_collaborator_call (ev : event) : bool :=
  match ev with
  | EvJira _ _ _ _ _ _ | EvGitHub _ _ _ _ => true
  | _ => false
  end.

Definition collaborator_calls (t : list event) : list event :=
  filter (λ ev, is_collaborator_call ev = true) t.

(** The temporary files a trace shows being made. *)
Definition is_mkstemp (ev : event) : bool :=
  match ev with EvMkstemp _ => true | _ => false end.

Definition temp_files_made (t : list event) : list event :=
  filter (λ ev, is_mkstemp ev = true) t.

(** No path separator in a name. *)
Fixpoint no_sep (s : string) : bool :=
  match s with
  | EmptyString => true
  | String c rest => negb (Ascii.eqb c "/") && no_sep rest
  end.

(** What [deep_update] leaves at a key: a mapping laid over a mapping is
    merged, anything else replaces what was there. *)
Definition merged_value (old : option value) (new : value) : value :=
  match new, old with
  | VDict u, Some (VDict b) => VDict (deep_update_dict b u)
  | _, _ => new
  end.

(** The overrides a caller gave for one source. *)
Definition override_for (config_key : string) (config_overrides : option dict)
  : option value :=
  match config_overrides with
  | Some items => dict_get config_key items
  | None => None
  end.

(** ** What a computation may touch

    [respects R m]: every run of [m] takes a world to one related to it by
    [R].  [quiet] relates a world to one with the same files, environment
    and pending temporary names, at least the same directories, and a
    trace longer by log records only: nothing was written, nothing was
    called.  [grows] only asks that the trace is extended. *)

Definition respects (R : relation World) {A} (m : M A) : Prop :=
  ∀ w o w', m w = (o, w') → R w w'.

Definition is_log (ev : event) : bool :=
  match ev with EvLog _ _ => true | _ => false end.

Definition quiet (w w' : World) : Prop :=
  files w' = files w
  ∧ environ w' = environ w
  ∧ temp_names w' = temp_names w
  ∧ dirs w ⊆ dirs w'
  ∧ ∃ t, trace w' = trace w ++ t ∧ Forall (λ ev, is_log ev = true) t.

Definition grows (w w' : World) : Prop :=
  ∃ t, trace w' = trace w ++ t.

(** The path [get_report_path] returns, without its [mkdir]. *)
Definition reports_dir (P : Platform) : string := PyPath.join (server_dir P) "Reports".

Definition report_path (P : Platform) (start_date end_date : string) : string :=
  PyPath.join (reports_dir P) (report_filename start_date end_date).

(** The log record of a report found in the cache. *)
Definition found_log (P : Platform) (start_date end_date : string) : event :=
  EvLog INFO ("Found existing report: " +:+ report_path P start_date end_date).

(** The GitHub token in force: the argument, else the environment. *)
Definition effective_github_token (a : Args) (env : gmap string string) : option string :=
  match nonempty (github_token a) with
  | Some t => Some t
  | None => env !! "GITHUB_TOKEN"
  end.

(** The list [missing_creds] of lines 997-1005. *)
Definition missing_credentials (a : Args) (env : gmap string string) : list string :=
  missing_if (env !! "JIRA_SERVER") "JIRA_SERVER"
  ++ missing_if (env !! "JIRA_EMAIL") "JIRA_EMAIL"
  ++ missing_if (env !! "JIRA_API_TOKEN") "JIRA_API_TOKEN"
  ++ missing_if (effective_github_token a env) "GITHUB_TOKEN".

(** The template of line 1121: the caller's, else the default. *)
Definition chosen_prompt (a : Args) : string :=
  match nonempty (summary_prompt a) with
  | Some p => p
  | None => DEFAULT_SUMMARY_PROMPT
  end.

(** A platform that differs only in what [yaml.safe_load] returns. *)
Definition with_yaml (P : Platform) (load : string → result value) : Platform :=
  {| clock := clock P; server_dir := server_dir P; tempdir := tempdir P;
     unsearchable := unsearchable P; file_read_error := file_read_error P;
     open_error := open_error P; write_error := write_error P;
     unlink_error := unlink_error P; mkdir_error := mkdir_error P;
     yaml_safe_load := load; yaml_dump := yaml_dump P;
     update_from_items := update_from_items P; format_other := format_other P;
     team_reports_import := team_reports_import P;
     WeeklyJiraSummary := WeeklyJiraSummary P;
     WeeklyGitHubSummary := WeeklyGitHubSummary P |}.

(** The text [build_report] produced, if it produced one. *)
Definition built_text (o : outcome (string * string * string)) : string :=
  match o with
  | Val (combined_report, _, _) => combined_report
  | _ => EmptyString
  end.

(** The first half of [load_config_with_overrides] (lines 101-138): the
    three sections as the files under [config] give them. *)
Definition load_config_files (P : Platform) : M dict :=
  let config := [("jira", VDict []); ("github", VDict []); ("team", VDict [])] in
  let config_dir := "config" in
  config ← load_one P "Jira" "jira" (PyPath.join config_dir "jira_config.yaml") config;
  config ← load_one P "GitHub" "github" (PyPath.join config_dir "github_config.yaml") config;
  load_one P "team" "team" (PyPath.join config_dir "team_config.yaml") config.

(** [d.update(u)] for two mappings, as [py_update] computes it. *)
Definition dict_update (d u : dict) : dict :=
  fold_left (λ acc kv, dict_set kv.1 kv.2 acc) u d.

(** The value a computation ended with, [d] if it ended otherwise. *)
Definition outcome_value {A} (d : A) (o : outcome A) : A :=
  match o with
  | Val a => a
  | _ => d
  end.

(** The text of a report section: what the generator returned, or the
    marker for what it raised. *)
Definition section_text (marker : exn → string) (r : result string) : string :=
  match r with
  | Ok text => text
  | Err ex => marker ex
  end.

(** The log record that closes a generator call. *)
Definition generated_log (label : string) (r : result string) : event :=
  match r with
  | Ok text =>
      EvLog INFO ("Generated " +:+ label +:+ " report: " +:+ PyStr.len text
                  +:+ " characters")
  | Err ex => EvLog ERROR ("Failed to generate " +:+ label +:+ " report: " +:+ exn_msg ex)
  end.

(** The warning the cleanup loop logs for a file it could not remove. *)
Definition cleanup_warning (temp_file msg : string) : event :=
  EvLog WARNING ("Could not delete temp file " +:+ temp_file +:+ ": " +:+ msg).

(** The default configuration files of lines 1026-1027. *)
Definition jira_config_path (P : Platform) : string :=
  PyPath.join (PyPath.join (server_dir P) "config") "jira_config.yaml".

Definition github_config_path (P : Platform) : string :=
  PyPath.join (PyPath.join (server_dir P) "config") "github_config.yaml".

(** The list [temp_files_to_cleanup] is as it was. *)
Definition keeps_cleanup (w w' : World) : Prop :=
  temp_files_to_cleanup w' = temp_files_to_cleanup w.

(** [replies Q m]: every reply that [m] ends the tool call with satisfies [Q]. *)
Definition replies (Q : string → Prop) {A} (m : M A) : Prop :=
  ∀ w r w', m w = (Return r, w') → Q r.

(** The first line of the success reply (line 1156). *)
Definition SUCCESS_HEADER : string :=
  "**Weekly status report generated successfully!**".

(** The replies given before a report is built: an error, or the cached
    report. *)
Definition early_reply (r : string) : Prop :=
  (starts_with "Error: " r = true ∨ starts_with "**Found existing report" r = true)
  ∧ starts_with SUCCESS_HEADER r = false.

(** ** [call_tool] and [_init_jira_client] (lines 548-638)

    The [jira] library and the eleven Jira tools of lines 640-937 are
    kept as they are seen from [call_tool]: a constructor that connects
    or raises, and for each tool a method of the server that is given the
    client and the arguments [call_tool] has read for it. *)

Record JiraBackend := {
  (** a connected [JIRA] object *)
  JiraClient : Type;
  (** [from jira.client import TokenAuth]: the exception it raises, if any *)
  token_auth_import : option exn;
  (** [JIRA(server=server, token_auth=api_token)] *)
  JIRA : string → string → result JiraClient;
  (** the Jira tool methods [_get_issue] to [_get_project_issues], by
      name, on the client and the arguments in the order of the call *)
  jira_tool : string → JiraClient → list value → M string;
  (** [_generate_weekly_status] on arguments that are not of the types
      the tool's schema gives them *)
  off_schema : dict → M string
}.

(** [arguments[key]]; [str] of the [KeyError] is the [repr] of the key. *)
Definition required (arguments : dict) (key : string) : M value :=
  match dict_get key arguments with
  | Some v => mret v
  | None => raise (Exn KeyError (PyStr.repr key))
  end.

(** [arguments.get(key, d)] *)
Definition optional (arguments : dict) (key : string) (d : value) : value :=
  default d (dict_get key arguments).

(** An argument [_generate_weekly_status] tests for truth and then uses
    as text: absent or falsy it counts as not given; [None] when it is
    truthy and not text. *)
Definition text_argument (arguments : dict) (key : string) : option (option string) :=
  match dict_get key arguments with
  | None => Some None
  | Some (VStr s) => Some (Some s)
  | Some v => if truthy v then None else Some None
  end.

(** An argument of which only the truth value is used. *)
Definition flag_argument (arguments : dict) (key : string) (d : bool) : bool :=
  match dict_get key arguments with
  | None => d
  | Some v => truthy v
  end.

Definition overrides_argument (arguments : dict) : option (option dict) :=
  match dict_get "config_overrides" arguments with
  | None => Some None
  | Some (VDict d) => Some (Some d)
  | Some v => if truthy v then None else Some None
  end.

(** The arguments of lines 603-611. *)
Definition weekly_status_args (arguments : dict) : option Args :=
  github_token ← text_argument arguments "github_token";
  start_date ← text_argument arguments "start_date";
  end_date ← text_argument arguments "end_date";
  summary_prompt ← text_argument arguments "summary_prompt";
  config_overrides ← overrides_argument arguments;
  Some {| github_token := github_token; start_date := start_date;
          end_date := end_date;
          regenerate := flag_argument arguments "regenerate" false;
          generate_summary := flag_argument arguments "generate_summary" true;
          summary_prompt := summary_prompt;
          config_overrides := config_overrides |}.

Section CallTool.

Variable P : Platform.
Variable B : JiraBackend.

(** Lines 619-638; the result is the client stored in [self.jira_client]. *)
Definition _init_jira_client : M (JiraClient B) :=
  try_except
    (server ← getenv "JIRA_SERVER";
     email ← getenv "JIRA_EMAIL";
     api_token ← getenv "JIRA_API_TOKEN";
     match nonempty server, nonempty email, nonempty api_token with
     | Some server, Some _, Some api_token =>
         lift (match token_auth_import B with Some e => Err e | None => Ok () end);;
         client ← lift (JIRA B server api_token);
         log INFO "Successfully connected to Jira";;
         mret client
     | _, _, _ =>
         raise (Exn ValueError
                  "Missing required environment variables: JIRA_SERVER, JIRA_EMAIL, JIRA_API_TOKEN")
     end)
    (λ e, log ERROR ("Failed to initialize Jira client: " +:+ exn_msg e);;
          raise e).

(** Lines 557-613: the chain of comparisons on the tool name. *)
Definition dispatch (client : JiraClient B) (name : string) (arguments : dict)
  : M string :=
  if String.eqb name "get_issue" then
    issue_key ← required arguments "issue_key";
    jira_tool B "_get_issue" client [issue_key]
  else if String.eqb name "search_issues" then
    jql ← required arguments "jql";
    jira_tool B "_search_issues" client
      [jql; optional arguments "max_results" (VInt 50)]
  else if String.eqb name "create_issue" then
    project_key ← required arguments "project_key";
    issue_type ← required arguments "issue_type";
    summary ← required arguments "summary";
    description ← required arguments "description";
    jira_tool B "_create_issue" client
      [project_key; issue_type; summary; description;
       optional arguments "priority" (VStr "Medium");
       optional arguments "due_date" VNone]
  else if String.eqb name "update_issue" then
    issue_key ← required arguments "issue_key";
    jira_tool B "_update_issue" client
      [issue_key; optional arguments "summary" VNone;
       optional arguments "description" VNone]
  else if String.eqb name "add_comment" then
    issue_key ← required arguments "issue_key";
    comment ← required arguments "comment";
    jira_tool B "_add_comment" client [issue_key; comment]
  else if String.eqb name "get_comments" then
    issue_key ← required arguments "issue_key";
    jira_tool B "_get_comments" client [issue_key]
  else if String.eqb name "transition_issue" then
    issue_key ← required arguments "issue_key";
    transition_name ← required arguments "transition_name";
    jira_tool B "_transition_issue" client [issue_key; transition_name]
  else if String.eqb name "get_project" then
    project_key ← required arguments "project_key";
    jira_tool B "_get_project" client [project_key]
  else if String.eqb name "get_issue_types" then
    project_key ← required arguments "project_key";
    jira_tool B "_get_issue_types" client [project_key]
  else if String.eqb name "get_my_issues" then
    jira_tool B "_get_my_issues" client [optional arguments "max_results" (VInt 20)]
  else if String.eqb name "get_project_issues" then
    project_key ← required arguments "project_key";
    jira_tool B "_get_project_issues" client
      [project_key; optional arguments "max_results" (VInt 50)]
  else if String.eqb name "generate_weekly_status" then
    match weekly_status_args arguments with
    | Some a => _generate_weekly_status P a
    | None => off_schema B arguments
    end
  else mret ("Unknown tool: " +:+ name).

(** Lines 548-617.  [jira_client] is [self.jira_client] before the call;
    the result is the client after it and the text of the reply. *)
Definition call_tool (jira_client : option (JiraClient B)) (name : string)
    (arguments : dict) : M (JiraClient B * string) :=
  client ← match jira_client with
           | Some client => mret client
           | None => _init_jira_client
           end;
  reply ← try_except
            (dispatch client name arguments)
            (λ e, log ERROR ("Error calling tool " +:+ name +:+ ": " +:+ exn_msg e);;
                  mret ("Error: " +:+ exn_msg e));
  mret (client, reply).

End CallTool.

(** For each tool that has one, the argument [call_tool] reads first with
    [arguments[...]]. *)
Definition first_required_argument : list (string * string) :=
  [("get_issue", "issue_key"); ("search_issues", "jql");
   ("create_issue", "project_key"); ("update_issue", "issue_key");
   ("add_comment", "issue_key"); ("get_comments", "issue_key");
   ("transition_issue", "issue_key"); ("get_project", "project_key");
   ("get_issue_types", "project_key"); ("get_project_issues", "project_key")].

(** The text of the [ValueError] of line 627. *)
Definition MISSING_JIRA_ENVIRONMENT : string :=
  "Missing required environment variables: JIRA_SERVER, JIRA_EMAIL, JIRA_API_TOKEN".

(** The reply a computation ended the call with, empty if it did not. *)
Definition outcome_reply {A} (o : outcome A) : string :=
  match o with
  | Return reply => reply
  | _ => EmptyString
  end.

(** ** Concrete platforms and worlds for the examples *)

Module Demo.

Import Calendar.

(** Thursday 2024-01-11, 09:05; a Jira generator that behaves as [jira],
    a GitHub generator that answers, and writes that fail as [werr]. *)
Definition platform (jira : result string) (werr : string → option exn) : Platform :=
  {| clock := λ n, DateTime 738896 9 5 (Z.of_nat n);
     server_dir := "/srv/mcp"; tempdir := "/tmp";
     unsearchable := λ _, false; file_read_error := λ _, None;
     open_error := λ _, None; write_error := werr;
     unlink_error := λ _, None; mkdir_error := λ _, None;
     yaml_safe_load := λ _, Ok (VDict [("base_jql", VStr "project = DEFAULT")]);
     yaml_dump := λ _, "base_jql: project = TEST";
     update_from_items := λ d _, Ok d;
     format_other := λ _ _, Err (Exn KeyError "'field'");
     team_reports_import := None;
     WeeklyJiraSummary := λ _ _ _ _ _ _ _, jira;
     WeeklyGitHubSummary := λ _ _ _ _ _, Ok "GitHub: 3 pull requests merged" |}.

Definition no_error : string → option exn := λ _, None.

Definition credentials : gmap string string :=
  <["JIRA_SERVER" := "https://jira.example.com"]>
    (<["JIRA_EMAIL" := "dev@example.com"]>
       (<["JIRA_API_TOKEN" := "jira-token"]>
          (<["GITHUB_TOKEN" := "github-token"]> ∅))).

Definition world (fs : gmap string string) (env : gmap string string) : World :=
  {| files := fs; dirs := ∅; environ := env; temp_names := ["k3x9"; "p0q7"];
     ticks := 0; trace := []; temp_files_to_cleanup := [] |}.

Definition args (overrides : option dict) : Args :=
  {| github_token := None; start_date := Some "2024-01-10"; end_date := None;
     regenerate := false; generate_summary := true; summary_prompt := None;
     config_overrides := overrides |}.

Definition report_path : string :=
  "/srv/mcp/Reports/Weekly_Report_2024-01-10_to_2024-01-03.md".

Definition jira_ok : result string := Ok "Jira: 5 issues closed".

Definition jira_down : result string := Err (Exn OSError "connection refused").

(** Every service answers and every write succeeds. *)
Definition healthy : Platform := platform jira_ok no_error.

(** The disk is full when the report is saved. *)
Definition disk_full_on (path : string) : string → option exn :=
  λ p, if String.eqb p path
       then Some (Exn OSError "[Errno 28] No space left on device")
       else None.

(** A world whose cache holds [content] for the window of [args]. *)
Definition cached_world (content : string) : World :=
  world {[report_path := content]} credentials.

(** The defaults and the overrides of the repository's deep-merge test. *)
Definition test_defaults : dict :=
  [("nested", VDict [("level1", VDict [("key1", VStr "default1");
                                       ("key2", VStr "default2")]);
                     ("level2", VStr "value2")])].

Definition test_overrides : dict :=
  [("test", VDict [("nested", VDict [("level1", VDict [("key1", VStr "override1")])])])].

Definition with_test_defaults : Platform :=
  with_yaml healthy (λ _, Ok (VDict test_defaults)).

Definition defaults_world : World :=
  world {["defaults.yaml" := "nested: ..."]} ∅.

(** The disk fills up when the report is written. *)
Definition disk_full : Platform := platform jira_ok (disk_full_on report_path).

(** The world of a first run: credentials set, nothing cached. *)
Definition fresh_world : World := world ∅ credentials.

(** A call for the window the caller names, everything else by default. *)
Definition args_for (start_date end_date : option string) : Args :=
  {| github_token := None; start_date := start_date; end_date := end_date;
     regenerate := false; generate_summary := true; summary_prompt := None;
     config_overrides := None |}.

(** A world in which the [Reports] directory is already there. *)
Definition ready_world (fs : gmap string string) : World :=
  {| files := fs; dirs := {["/srv/mcp/Reports"]}; environ := credentials;
     temp_names := ["k3x9"; "p0q7"]; ticks := 0; trace := [];
     temp_files_to_cleanup := [] |}.

(** A platform on which the cached report cannot be read. *)
Definition unreadable : Platform :=
  {| clock := clock healthy; server_dir := server_dir healthy;
     tempdir := tempdir healthy;
     unsearchable := unsearchable healthy;
     file_read_error := λ p, if String.eqb p report_path
                             then Some (Exn OSError "[Errno 13] Permission denied")
                             else None;
     open_error := open_error healthy; write_error := write_error healthy;
     unlink_error := unlink_error healthy; mkdir_error := mkdir_error healthy;
     yaml_safe_load := yaml_safe_load healthy; yaml_dump := yaml_dump healthy;
     update_from_items := update_from_items healthy;
     format_other := format_other healthy;
     team_reports_import := team_reports_import healthy;
     WeeklyJiraSummary := WeeklyJiraSummary healthy;
     WeeklyGitHubSummary := WeeklyGitHubSummary healthy |}.

(** A platform on which the [Reports] directory cannot be searched. *)
Definition locked_reports : Platform :=
  {| clock := clock healthy; server_dir := server_dir healthy;
     tempdir := tempdir healthy;
     unsearchable := λ d, String.eqb d "/srv/mcp/Reports";
     file_read_error := file_read_error healthy;
     open_error := open_error healthy; write_error := write_error healthy;
     unlink_error := unlink_error healthy; mkdir_error := mkdir_error healthy;
     yaml_safe_load := yaml_safe_load healthy; yaml_dump := yaml_dump healthy;
     update_from_items := update_from_items healthy;
     format_other := format_other healthy;
     team_reports_import := team_reports_import healthy;
     WeeklyJiraSummary := WeeklyJiraSummary healthy;
     WeeklyGitHubSummary := WeeklyGitHubSummary healthy |}.

(** A platform on which no configuration file is valid YAML. *)
Definition broken_yaml : Platform :=
  with_yaml healthy (λ _, Err (Exn ValueError "mapping values are not allowed here")).

(** A world with a Jira configuration file. *)
Definition configured_world : World :=
  world {["config/jira_config.yaml" := "nested: ..."]} credentials.

(** The temporary Jira configuration cannot be written. *)
Definition temp_disk_full : Platform :=
  platform jira_ok (disk_full_on "/tmp/jira_mcp_k3x9.yaml").

(** The temporary files cannot be removed. *)
Definition sticky_temp : Platform :=
  {| clock := clock healthy; server_dir := server_dir healthy;
     tempdir := tempdir healthy;
     unsearchable := unsearchable healthy; file_read_error := file_read_error healthy;
     open_error := open_error healthy; write_error := write_error healthy;
     unlink_error := λ _, Some (Exn OSError "[Errno 16] Device or resource busy");
     mkdir_error := mkdir_error healthy;
     yaml_safe_load := yaml_safe_load healthy; yaml_dump := yaml_dump healthy;
     update_from_items := update_from_items healthy;
     format_other := format_other healthy;
     team_reports_import := team_reports_import healthy;
     WeeklyJiraSummary := WeeklyJiraSummary healthy;
     WeeklyGitHubSummary := WeeklyGitHubSummary healthy |}.

(** Jira is down, GitHub answers. *)
Definition jira_is_down : Platform := platform jira_down no_error.

(** Overrides for the Jira section only. *)
Definition jira_override : option dict :=
  Some [("jira", VDict [("base_jql", VStr "project = TEST")])].

(** The first temporary name is taken. *)
Definition crowded_world : World :=
  world {["/tmp/jira_mcp_k3x9.yaml" := "kept"]} credentials.

(** A custom template with a field the call does not supply. *)
Definition custom_prompt_args : Args :=
  {| github_token := None; start_date := Some "2024-01-10"; end_date := None;
     regenerate := false; generate_summary := true;
     summary_prompt := Some "Summarise for {audience}: {report_content}";
     config_overrides := None |}.

(** Jira is down and the disk is full when the report is saved. *)
Definition jira_down_disk_full : Platform :=
  platform jira_down (disk_full_on report_path).


(** A temporary file is on the cleanup list. *)
Definition littered_world : World :=
  set_cleanup ["/tmp/jira_mcp_k3x9.yaml"] crowded_world.

(** A backend whose server accepts the connection and whose tools echo
    their name. *)
Definition backend : JiraBackend :=
  {| JiraClient := string;
     token_auth_import := None;
     JIRA := λ server _, Ok server;
     jira_tool := λ method _ _, mret method;
     off_schema := λ _, mret "off schema" |}.

(** The Jira variables are set, the GitHub token is not. *)
Definition jira_only_world : World :=
  world ∅ (delete "GITHUB_TOKEN" credentials).

(** Arguments of a weekly status call. *)
Definition weekly_arguments : dict :=
  [("start_date", VStr "2024-01-10"); ("regenerate", VBool false)].

(** The defaults file holds a list, not a mapping. *)
Definition list_defaults : Platform :=
  with_yaml healthy (λ _, Ok (VList [VStr "PROJ"])).


End Demo.

(** * Properties *)

(** ** The monad *)

Section MonadLaws.

Context {A B : Type}.

Lemma bind_val (m : M A) (k : A → M B) w a w' :
  m w = (Val a, w') → (m ≫= k) w = k a w'.
Proof. intros H. unfold mbind, M_bind. by rewrite H. Qed.

Lemma bind_return (m : M A) (k : A → M B) w r w' :
  m w = (Return r, w') → (m ≫= k) w = (Return r, w').
Proof. intros H. unfold mbind, M_bind. by rewrite H. Qed.

Lemma bind_raise (m : M A) (k : A → M B) w e w' :
  m w = (Raise e, w') → (m ≫= k) w = (Raise e, w').
Proof. intros H. unfold mbind, M_bind. by rewrite H. Qed.

Lemma bind_ret_l (a : A) (k : A → M B) w : (mret a ≫= k) w = k a w.
Proof. reflexivity. Qed.

End MonadLaws.

(** ** Calendar facts *)

Module CalendarFacts.

Import Calendar.

Lemma is_digit_val c : PyStr.is_digit c = true → 0 ≤ PyStr.digit_val c ≤ 9.
Proof. unfold PyStr.is_digit, PyStr.digit_val. lia. Qed.

Lemma in_range_val lo hi c :
  in_range lo hi c = true → lo ≤ PyStr.digit_val c ≤ hi.
Proof. unfold in_range. lia. Qed.

Lemma parse_year_range s y r : parse_year s = Some (y, r) → 0 ≤ y ≤ 9999.
Proof.
  destruct s as [|a [|b [|c [|d rest]]]]; simpl; try discriminate.
  destruct (PyStr.is_digit a) eqn:Ha; simpl; [|discriminate].
  destruct (PyStr.is_digit b) eqn:Hb; simpl; [|discriminate].
  destruct (PyStr.is_digit c) eqn:Hc; simpl; [|discriminate].
  destruct (PyStr.is_digit d) eqn:Hd; simpl; [|discriminate].
  intros [= <- _].
  apply is_digit_val in Ha, Hb, Hc, Hd. lia.
Qed.

Lemma parse_month_range s m r : parse_month s = Some (m, r) → 1 ≤ m ≤ 12.
Proof.
  unfold parse_month. destruct s as [|c1 rest]; [discriminate|].
  destruct rest as [|c2 rest2].
  - destruct (in_range 1 9 c1) eqn:H1; [|discriminate].
    intros [= <- _]. apply in_range_val in H1. lia.
  - destruct ((PyStr.digit_val c1 =? 1) && PyStr.is_digit c1 && in_range 0 2 c2) eqn:E1.
    { intros [= <- _]. apply andb_prop in E1 as [_ E1].
      apply in_range_val in E1. lia. }
    destruct ((PyStr.digit_val c1 =? 0) && PyStr.is_digit c1 && in_range 1 9 c2) eqn:E2.
    { intros [= <- _]. apply andb_prop in E2 as [_ E2].
      apply in_range_val in E2. lia. }
    destruct (in_range 1 9 c1) eqn:H1; [|discriminate].
    intros [= <- _]. apply in_range_val in H1. lia.
Qed.

Lemma parse_day_positive s d r : parse_day s = Some (d, r) → 1 ≤ d.
Proof.
  unfold parse_day. destruct s as [|c1 rest]; [discriminate|].
  destruct rest as [|c2 rest2].
  - destruct (in_range 1 9 c1) eqn:H1; [|discriminate].
    intros [= <- _]. apply in_range_val in H1. lia.
  - destruct ((PyStr.digit_val c1 =? 3) && PyStr.is_digit c1 && in_range 0 1 c2) eqn:E1.
    { intros [= <- _]. apply andb_prop in E1 as [_ E1].
      apply in_range_val in E1. lia. }
    destruct (in_range 1 2 c1 && PyStr.is_digit c2) eqn:E2.
    { intros [= <- _]. apply andb_prop in E2 as [E2 E3].
      apply in_range_val in E2. apply is_digit_val in E3. lia. }
    destruct ((PyStr.digit_val c1 =? 0) && PyStr.is_digit c1 && in_range 1 9 c2) eqn:E3.
    { intros [= <- _]. apply andb_prop in E3 as [_ E3].
      apply in_range_val in E3. lia. }
    destruct (in_range 1 9 c1) eqn:H1.
    { intros [= <- _]. apply in_range_val in H1. lia. }
    destruct (Ascii.eqb c1 " " && in_range 1 9 c2) eqn:E4; [|discriminate].
    intros [= <- _]. apply andb_prop in E4 as [_ E4].
    apply in_range_val in E4. lia.
Qed.

Lemma days_before_year_range y :
  1 ≤ y ≤ 9999 → 0 ≤ days_before_year y ≤ 3651694 - 365 * (9999 - y).
Proof.
  intros Hy. unfold days_before_year. cbv zeta.
  Z.to_euclidean_division_equations. lia.
Qed.

Lemma day_of_year_range y m d :
  1 ≤ m ≤ 12 → 1 ≤ d → d ≤ days_in_month y m →
  1 ≤ days_before_month y m + d ≤ (if is_leap y then 366 else 365).
Proof.
  intros Hm Hd1 Hd2. unfold days_before_month, days_in_month in *.
  assert (m = 1 ∨ m = 2 ∨ m = 3 ∨ m = 4 ∨ m = 5 ∨ m = 6 ∨ m = 7 ∨ m = 8
          ∨ m = 9 ∨ m = 10 ∨ m = 11 ∨ m = 12) as Hcases by lia.
  destruct (is_leap y);
    repeat (destruct Hcases as [-> | Hcases]); try subst m; simpl in *; lia.
Qed.

Lemma not_leap_9999 : is_leap 9999 = false.
Proof. reflexivity. Qed.

Lemma ymd2ord_range y m d :
  1 ≤ y ≤ 9999 → 1 ≤ m ≤ 12 → 1 ≤ d → d ≤ days_in_month y m →
  MINORD ≤ ymd2ord y m d ≤ MAXORD.
Proof.
  intros Hy Hm Hd1 Hd2. unfold ymd2ord, MINORD, MAXORD.
  pose proof (days_before_year_range y Hy) as Hdy.
  pose proof (day_of_year_range y m d Hm Hd1 Hd2) as Hdm.
  destruct (decide (y = 9999)) as [-> | Hne].
  - rewrite not_leap_9999 in Hdm. lia.
  - destruct (is_leap y); lia.
Qed.

(** What [strptime] accepts is a date of the years 1 to 9999. *)
Lemma strptime_ymd_range s dt :
  strptime_ymd s = Ok dt → MINORD ≤ ordinal dt ≤ MAXORD.
Proof.
  unfold strptime_ymd, match_ymd.
  destruct (parse_year s) as [[y s1]|] eqn:Hy; simpl; [|discriminate].
  destruct (expect_dash s1) as [s2|]; simpl; [|discriminate].
  destruct (parse_month s2) as [[m s3]|] eqn:Hm; simpl; [|discriminate].
  destruct (expect_dash s3) as [s4|]; simpl; [|discriminate].
  destruct (parse_day s4) as [[d s5]|] eqn:Hd; simpl; [|discriminate].
  destruct s5; [|discriminate].
  destruct (y =? 0) eqn:Hy0; [discriminate|].
  destruct (days_in_month y m <? d) eqn:Hdim; [discriminate|].
  intros [= <-]. simpl.
  apply parse_year_range in Hy. apply parse_month_range in Hm.
  apply parse_day_positive in Hd.
  apply ymd2ord_range; lia.
Qed.

Lemma strptime_ymd_nonempty s dt :
  strptime_ymd s = Ok dt → nonempty (Some s) = Some s.
Proof. destruct s; [discriminate | reflexivity]. Qed.

Lemma sub_days_ok dt k :
  MINORD ≤ ordinal dt - k ≤ MAXORD →
  sub_days dt k = Ok (DateTime (ordinal dt - k) (hour dt) (minute dt) (second dt)).
Proof.
  intros H. unfold sub_days. cbv zeta.
  destruct (_ && _) eqn:E; [reflexivity | lia].
Qed.

(** A week earlier is the same day of the week. *)
Lemma weekday_week_earlier dt e :
  sub_days dt 7 = Ok e → ordinal e = ordinal dt - 7 ∧ weekday e = weekday dt.
Proof.
  unfold sub_days. cbv zeta. destruct (_ && _); [|discriminate].
  intros [= <-]. split; [reflexivity|]. unfold weekday. simpl.
  replace (ordinal dt - 7 + 6) with (ordinal dt + 6 + (-1) * 7) by lia.
  apply Z.mod_add. lia.
Qed.

(** [strftime("%Y-%m-%d")] always gives ten characters with the two
    dashes in place. *)
Lemma strftime_ymd_shape dt :
  String.length (strftime_ymd dt) = 10%nat
  ∧ String.get 4 (strftime_ymd dt) = Some "-"%char
  ∧ String.get 7 (strftime_ymd dt) = Some "-"%char.
Proof.
  unfold strftime_ymd. destruct (ord2ymd (ordinal dt)) as [[y m] d].
  repeat split.
Qed.

End CalendarFacts.

(** ** The week window *)

Section WeekWindow.

Import Calendar CalendarFacts.

Variable P : Platform.

(** What [get_week_range] does with a start date it accepts and no end
    date: the window ends a week before the start, on the same weekday. *)
Lemma get_week_range_start_only s end_date dt w :
  strptime_ymd s = Ok dt →
  weekday dt = WEDNESDAY →
  nonempty end_date = None →
  get_week_range P (Some s) end_date w
  = match sub_days dt 7 with
    | Ok e => (Val (strftime_ymd dt, strftime_ymd e), w)
    | Err ex => (Raise ex, w)
    end.
Proof.
  intros Hparse Hwd Hend. unfold get_week_range.
  rewrite (strptime_ymd_nonempty _ _ Hparse), Hend, Hparse.
  unfold mbind, M_bind, lift. simpl. rewrite Hwd. simpl.
  destruct (sub_days dt 7); reflexivity.
Qed.

(** C1, as the code has it.  For a start date that is a Wednesday, on or
    after 0001-01-08, and no end date, [get_week_range] returns the start
    and the date seven days before it; that end date is again a
    Wednesday, not a Tuesday. *)
Theorem get_week_range_wednesday_start s end_date dt w :
  strptime_ymd s = Ok dt →
  weekday dt = WEDNESDAY →
  MINORD + 7 ≤ ordinal dt →
  nonempty end_date = None →
  ∃ e, sub_days dt 7 = Ok e
       ∧ ordinal e = ordinal dt - 7
       ∧ weekday e = WEDNESDAY
       ∧ get_week_range P (Some s) end_date w
         = (Val (strftime_ymd dt, strftime_ymd e), w).
Proof.
  intros Hparse Hwd Hlo Hend.
  pose proof (strptime_ymd_range _ _ Hparse) as Hrange.
  assert (sub_days dt 7 = Ok (DateTime (ordinal dt - 7) (hour dt) (minute dt) (second dt)))
    as Hsub by (apply sub_days_ok; unfold MINORD, MAXORD in *; lia).
  eexists. split; [exact Hsub|].
  destruct (weekday_week_earlier _ _ Hsub) as [Hord Hsame].
  split; [exact Hord|]. split; [by rewrite Hsame|].
  rewrite (get_week_range_start_only s end_date dt w Hparse Hwd Hend).
  by rewrite Hsub.
Qed.

(** C10.  With both dates absent [get_week_range] does not raise: it
    returns today and the day a week before, both rendered as
    YYYY-MM-DD, and validates no weekday; the clock only has to show a
    date from which a week can be subtracted.  Every weekday occurs as
    the weekday of such a start. *)
Theorem get_week_range_defaulted :
  (∀ start_date end_date w,
     nonempty start_date = None →
     nonempty end_date = None →
     MINORD + 7 ≤ ordinal (clock P (ticks w)) ≤ MAXORD →
     ∃ e, sub_days (clock P (ticks w)) 7 = Ok e
          ∧ ordinal e = ordinal (clock P (ticks w)) - 7
          ∧ get_week_range P start_date end_date w
            = (Val (strftime_ymd (clock P (ticks w)), strftime_ymd e),
               set_ticks (S (ticks w)) w)
          ∧ String.length (strftime_ymd (clock P (ticks w))) = 10%nat
          ∧ String.length (strftime_ymd e) = 10%nat)
  ∧ (∀ k w, 0 ≤ k < 7 →
       ∃ today e,
         weekday today = k
         ∧ get_week_range (with_clock P (λ _, today)) None None w
           = (Val (strftime_ymd today, strftime_ymd e), set_ticks (S (ticks w)) w)).
Proof.
  assert (∀ (Q : Platform) start_date end_date w,
            nonempty start_date = None → nonempty end_date = None →
            MINORD + 7 ≤ ordinal (clock Q (ticks w)) ≤ MAXORD →
            ∃ e, sub_days (clock Q (ticks w)) 7 = Ok e
                 ∧ ordinal e = ordinal (clock Q (ticks w)) - 7
                 ∧ get_week_range Q start_date end_date w
                   = (Val (strftime_ymd (clock Q (ticks w)), strftime_ymd e),
                      set_ticks (S (ticks w)) w)) as Hmain.
  { intros Q start_date end_date w Hs He Hclock.
    set (today := clock Q (ticks w)) in *.
    assert (sub_days today 7
            = Ok (DateTime (ordinal today - 7) (hour today) (minute today) (second today)))
      as Hsub by (apply sub_days_ok; unfold MINORD, MAXORD in *; lia).
    eexists. split; [exact Hsub|]. split; [reflexivity|].
    unfold get_week_range. rewrite Hs, He.
    unfold mbind, M_bind, now, lift. fold today. by rewrite Hsub. }
  split.
  - intros start_date end_date w Hs He Hclock.
    destruct (Hmain P start_date end_date w Hs He Hclock) as (e & Hsub & Hord & Hrun).
    exists e. repeat split; try done; apply strftime_ymd_shape.
  - intros k w Hk.
    set (today := DateTime (738893 + k) 0 0 0).
    destruct (Hmain (with_clock P (λ _, today)) None None w eq_refl eq_refl)
      as (e & _ & _ & Hrun).
    { simpl. unfold MINORD, MAXORD. lia. }
    exists today, e. split; [|exact Hrun].
    unfold weekday, today. simpl.
    replace (738893 + k + 6) with (k + 105557 * 7) by lia.
    rewrite Z.mod_add by lia. apply Z.mod_small. lia.
Qed.

End WeekWindow.

(** The defaulted window on Thursday 2024-01-11. *)
Lemma get_week_range_defaulted_witness :
  ∃ e, Calendar.sub_days (Calendar.DateTime 738896 9 5 0) 7 = Ok e
       ∧ get_week_range (Demo.platform (Ok EmptyString) Demo.no_error) None None (Demo.world ∅ ∅)
         = (Val ("2024-01-11", "2024-01-04"),
            set_ticks 1 (Demo.world ∅ ∅)).
Proof.
  destruct (proj1 (get_week_range_defaulted (Demo.platform (Ok EmptyString) Demo.no_error))
              None None (Demo.world ∅ ∅) eq_refl eq_refl)
    as (e & Hsub & _ & Hrun & _).
  { simpl. unfold Calendar.MINORD, Calendar.MAXORD. lia. }
  exists e. split; [exact Hsub|].
  rewrite Hrun. vm_compute in Hsub. injection Hsub as <-. reflexivity.
Defined.

(** The window of Wednesday 2024-01-10. *)
Lemma get_week_range_wednesday_start_witness :
  ∃ e, Calendar.weekday e = Calendar.WEDNESDAY
       ∧ get_week_range (Demo.platform (Ok EmptyString) Demo.no_error)
           (Some "2024-01-10") None (Demo.world ∅ ∅)
         = (Val ("2024-01-10", Calendar.strftime_ymd e), Demo.world ∅ ∅).
Proof.
  destruct (get_week_range_wednesday_start (Demo.platform (Ok EmptyString) Demo.no_error)
              "2024-01-10" None (Calendar.DateTime 738895 0 0 0) (Demo.world ∅ ∅))
    as (e & _ & _ & Hwd & Hrun).
  - reflexivity.
  - reflexivity.
  - simpl. unfold Calendar.MINORD. lia.
  - reflexivity.
  - exists e. split; [exact Hwd | exact Hrun].
Defined.

(** C1 as stated fails.  The start 2024-01-10 is a Wednesday; the end
    [get_week_range] returns for it is 2024-01-03, seven days earlier,
    and that day is a Wednesday, not a Tuesday. *)
Lemma get_week_range_end_not_tuesday :
  Calendar.strptime_ymd "2024-01-10" = Ok (Calendar.DateTime 738895 0 0 0)
  ∧ Calendar.weekday (Calendar.DateTime 738895 0 0 0) = Calendar.WEDNESDAY
  ∧ get_week_range (Demo.platform (Ok EmptyString) Demo.no_error)
      (Some "2024-01-10") None (Demo.world ∅ ∅)
    = (Val ("2024-01-10", "2024-01-03"), Demo.world ∅ ∅)
  ∧ Calendar.strptime_ymd "2024-01-03" = Ok (Calendar.DateTime (738895 - 7) 0 0 0)
  ∧ Calendar.weekday (Calendar.DateTime (738895 - 7) 0 0 0) ≠ Calendar.TUESDAY.
Proof. repeat split. vm_compute. discriminate. Qed.

(** The earliest Wednesday has no date a week before it: the subtraction
    overflows. *)
Lemma get_week_range_first_wednesday :
  Calendar.weekday (Calendar.DateTime 3 0 0 0) = Calendar.WEDNESDAY
  ∧ get_week_range (Demo.platform (Ok EmptyString) Demo.no_error)
      (Some "0001-01-03") None (Demo.world ∅ ∅)
    = (Raise (Exn OverflowError "date value out of range"), Demo.world ∅ ∅).
Proof. split; reflexivity. Qed.

(** ** Paths and the report file name *)

Module PathFacts.

Lemma append_cons (c : ascii) (s t : string) :
  String c s +:+ t = String c (s +:+ t).
Proof. reflexivity. Qed.

Lemma append_nil_r (s : string) : s +:+ EmptyString = s.
Proof.
  induction s as [|c s IH]; [reflexivity|].
  by rewrite append_cons, IH.
Qed.

Lemma append_assoc (a b c : string) : (a +:+ b) +:+ c = a +:+ (b +:+ c).
Proof.
  induction a as [|x a IH]; [reflexivity|].
  by rewrite !append_cons, IH.
Qed.

Lemma no_sep_app (a b : string) : no_sep (a +:+ b) = no_sep a && no_sep b.
Proof.
  induction a as [|c a IH]; [reflexivity|].
  rewrite append_cons. cbn [no_sep]. rewrite IH. by rewrite andb_assoc.
Qed.

Lemma parts_no_sep (cur s : string) :
  no_sep s = true → PyPath.parts cur s = [cur +:+ s].
Proof.
  revert cur. induction s as [|c s IH]; intros cur Hs.
  - cbn [PyPath.parts]. by rewrite append_nil_r.
  - cbn [PyPath.parts no_sep] in *. apply andb_prop in Hs as [Hc Hs].
    destruct (Ascii.eqb c "/"); [discriminate|].
    rewrite IH by done. by rewrite append_assoc.
Qed.

(** A single name that is neither empty nor [.] is joined as it is. *)
Lemma join_plain (base name : string) :
  no_sep name = true → PyPath.keep name = true →
  PyPath.join base name = base +:+ "/" +:+ name.
Proof.
  intros Hsep Hkeep. unfold PyPath.join.
  rewrite (parts_no_sep EmptyString name Hsep).
  change (EmptyString +:+ name) with name.
  cbn [List.filter]. rewrite Hkeep.
  destruct name as [|c name]; [discriminate|].
  cbn [no_sep] in Hsep. unfold PyPath.is_absolute.
  destruct (Ascii.eqb c "/"); [discriminate | reflexivity].
Qed.

Lemma report_filename_plain (s e : string) :
  no_sep s = true → no_sep e = true →
  no_sep (report_filename s e) = true ∧ PyPath.keep (report_filename s e) = true.
Proof.
  intros Hs He. split; [|reflexivity].
  unfold report_filename. rewrite !no_sep_app, Hs, He. reflexivity.
Qed.

Lemma before_last_sep_no_sep (name : string) :
  no_sep name = true → PyPath.before_last_sep name = None.
Proof.
  induction name as [|c name IH]; [reflexivity|].
  cbn [no_sep PyPath.before_last_sep]. intros [Hc Hname]%andb_prop.
  rewrite (IH Hname). by destruct (Ascii.eqb c "/").
Qed.

Lemma before_last_sep_app (d name : string) :
  no_sep name = true → PyPath.before_last_sep (d +:+ "/" +:+ name) = Some d.
Proof.
  intros Hname. induction d as [|c d IH].
  - change (EmptyString +:+ "/" +:+ name) with (String "/" name).
    cbn [PyPath.before_last_sep]. by rewrite (before_last_sep_no_sep name Hname).
  - rewrite append_cons. cbn [PyPath.before_last_sep]. by rewrite IH.
Qed.

(** The parent of a name in a directory is that directory. *)
Lemma parent_app (d name : string) :
  no_sep name = true → d ≠ EmptyString → PyPath.parent (d +:+ "/" +:+ name) = d.
Proof.
  intros Hname Hd. unfold PyPath.parent. rewrite (before_last_sep_app d name Hname).
  by destruct d.
Qed.

End PathFacts.

(** ** Line endings *)

Module NewlineFacts.

(** A text without carriage returns is read as it is stored. *)
Lemma universal_newlines_no_cr (s : string) :
  PyStr.no_cr s = true → PyStr.universal_newlines s = s.
Proof.
  induction s as [|c s IH]; [reflexivity|].
  cbn [PyStr.no_cr PyStr.universal_newlines]. intros [Hc Hs]%andb_prop.
  apply negb_true_iff in Hc. rewrite Hc. by rewrite (IH Hs).
Qed.

(** Only the empty file is read as the empty text. *)
Lemma universal_newlines_empty (s : string) :
  PyStr.universal_newlines s = EmptyString ↔ s = EmptyString.
Proof.
  split; [|by intros ->].
  destruct s as [|c s]; [done|]. cbn [PyStr.universal_newlines].
  destruct (Ascii.eqb c PyStr.CR); [|discriminate].
  destruct s as [|c' s]; [discriminate|]. by destruct (Ascii.eqb c' PyStr.LF).
Qed.

End NewlineFacts.

Section ReportPath.

Variable P : Platform.

(** For dates without a separator the report file lies directly in the
    [Reports] directory. *)
Lemma parent_report_path s e :
  no_sep s = true → no_sep e = true →
  PyPath.parent (report_path P s e) = reports_dir P.
Proof.
  intros Hs He. destruct (PathFacts.report_filename_plain s e Hs He) as [Hsep Hkeep].
  unfold report_path. rewrite PathFacts.join_plain by done.
  apply PathFacts.parent_app; [done|].
  change (reports_dir P) with (server_dir P +:+ "/Reports").
  by destruct (server_dir P).
Qed.

Lemma read_error_searchable p :
  read_error P p = None → unsearchable P (PyPath.parent p) = false.
Proof. unfold read_error. by destruct (unsearchable P _). Qed.

Lemma mkdir_exist_ok_again p w w' :
  mkdir_exist_ok P p w = (Val (), w') →
  p ∈ dirs w' ∧ mkdir_exist_ok P p w' = (Val (), w').
Proof.
  unfold mkdir_exist_ok. case_bool_decide as Hin.
  - intros [= <-]. split; [done|]. by rewrite bool_decide_true.
  - case_bool_decide; [discriminate|].
    destruct (mkdir_error P p); [discriminate|].
    intros [= <-]. simpl. split; [set_solver|].
    rewrite bool_decide_true; [done | set_solver].
Qed.

Lemma get_report_path_unfold s e w :
  get_report_path P s e w
  = match mkdir_exist_ok P (PyPath.join (server_dir P) "Reports") w with
    | (Val _, w') =>
        (Val (PyPath.join (PyPath.join (server_dir P) "Reports") (report_filename s e)), w')
    | (Return r, w') => (Return r, w')
    | (Raise ex, w') => (Raise ex, w')
    end.
Proof. reflexivity. Qed.

(** C7.  For dates without a path separator the report path is the file
    [Weekly_Report_<start>_to_<end>.md], start first, in the [Reports]
    directory beside the server; a second call gives the same path and
    changes nothing; the call returns whenever the directory is there or
    can be made; the window 2024-01-10 / 2024-01-03 gives
    [Weekly_Report_2024-01-10_to_2024-01-03.md]. *)
Theorem get_report_path_deterministic s e :
  no_sep s = true → no_sep e = true →
  let reports_dir := server_dir P +:+ "/Reports" in
  let path := reports_dir +:+ "/" +:+ "Weekly_Report_" +:+ s +:+ "_to_" +:+ e +:+ ".md" in
  (∀ w p w', get_report_path P s e w = (Val p, w') →
             p = path ∧ get_report_path P s e w' = (Val p, w'))
  ∧ (∀ w, reports_dir ∈ dirs w → get_report_path P s e w = (Val path, w))
  ∧ (∀ w, files w !! reports_dir = None → mkdir_error P reports_dir = None →
          ∃ w', get_report_path P s e w = (Val path, w'))
  ∧ report_filename "2024-01-10" "2024-01-03"
    = "Weekly_Report_2024-01-10_to_2024-01-03.md".
Proof.
  intros Hs He reports_dir path.
  destruct (PathFacts.report_filename_plain s e Hs He) as [Hsep Hkeep].
  assert (PyPath.join (server_dir P) "Reports" = reports_dir) as Hdir by reflexivity.
  assert (PyPath.join reports_dir (report_filename s e) = path) as Hpath
    by (by rewrite PathFacts.join_plain).
  repeat split.
  - rewrite get_report_path_unfold, Hdir, Hpath in H.
    destruct (mkdir_exist_ok P reports_dir w) as [[[]|?|?] w1]; by inversion H.
  - rewrite get_report_path_unfold, Hdir, Hpath in H.
    destruct (mkdir_exist_ok P reports_dir w) as [[[]|?|?] w1] eqn:Hmk;
      inversion H; subst.
    rewrite get_report_path_unfold, Hdir, Hpath.
    by rewrite (proj2 (mkdir_exist_ok_again _ _ _ Hmk)).
  - intros w Hin. rewrite get_report_path_unfold, Hdir, Hpath.
    unfold mkdir_exist_ok. by rewrite bool_decide_true.
  - intros w Hfile Hmk. rewrite get_report_path_unfold, Hdir, Hpath.
    unfold mkdir_exist_ok. case_bool_decide; [by eexists|].
    rewrite bool_decide_false by (rewrite Hfile; by intros [? ?]).
    rewrite Hmk. by eexists.
Qed.

End ReportPath.

(** The report path of the window 2024-01-10 / 2024-01-03. *)
Lemma get_report_path_deterministic_witness :
  get_report_path (Demo.platform (Ok EmptyString) Demo.no_error) "2024-01-10" "2024-01-03"
    (Demo.world ∅ ∅)
  = (Val Demo.report_path,
     set_dirs (λ d, {["/srv/mcp/Reports"]} ∪ d) (Demo.world ∅ ∅))
  ∧ get_report_path (Demo.platform (Ok EmptyString) Demo.no_error) "2024-01-10" "2024-01-03"
      (set_dirs (λ d, {["/srv/mcp/Reports"]} ∪ d) (Demo.world ∅ ∅))
    = (Val Demo.report_path,
       set_dirs (λ d, {["/srv/mcp/Reports"]} ∪ d) (Demo.world ∅ ∅)).
Proof.
  assert (get_report_path (Demo.platform (Ok EmptyString) Demo.no_error) "2024-01-10" "2024-01-03"
            (Demo.world ∅ ∅)
          = (Val Demo.report_path,
             set_dirs (λ d, {["/srv/mcp/Reports"]} ∪ d) (Demo.world ∅ ∅))) as Hrun
    by reflexivity.
  split; [exact Hrun|].
  exact (proj2 (proj1 (get_report_path_deterministic
                         (Demo.platform (Ok EmptyString) Demo.no_error)
                         "2024-01-10" "2024-01-03" eq_refl eq_refl) _ _ _ Hrun)).
Defined.


(** ** Dictionaries and the deep merge *)

Module DictFacts.

Lemma dict_get_set_eq k v d : dict_get k (dict_set k v d) = Some v.
Proof.
  induction d as [|[k' v'] d IH]; simpl.
  - by rewrite String.eqb_refl.
  - destruct (String.eqb k k') eqn:E; simpl; rewrite ?String.eqb_refl, ?E; done.
Qed.

Lemma dict_get_set_ne k k' v d :
  k ≠ k' → dict_get k' (dict_set k v d) = dict_get k' d.
Proof.
  intros Hne. induction d as [|[k0 v0] d IH]; simpl.
  - by rewrite (proj2 (String.eqb_neq k' k)).
  - destruct (String.eqb k k0) eqn:E; simpl.
    + apply String.eqb_eq in E as <-.
      by rewrite (proj2 (String.eqb_neq k' k)).
    + destruct (String.eqb k' k0); done.
Qed.

Lemma dict_get_absent k d : k ∉ dict_keys d → dict_get k d = None.
Proof.
  induction d as [|[k' v'] d IH]; simpl; [done|].
  intros Hnot. apply not_elem_of_cons in Hnot as [Hne Hnot].
  destruct (String.eqb k k') eqn:E.
  - by apply String.eqb_eq in E.
  - by apply IH.
Qed.

Lemma deep_update_dict_nil base : deep_update_dict base [] = base.
Proof. reflexivity. Qed.

(** One round of the loop of [deep_update]. *)
Lemma deep_update_dict_cons base key value rest :
  deep_update_dict base ((key, value) :: rest)
  = deep_update_dict (dict_set key (merged_value (dict_get key base) value) base) rest.
Proof.
  unfold deep_update_dict, merged_value. simpl.
  destruct value; try reflexivity.
  destruct (dict_get key base) as [[]|]; reflexivity.
Qed.

(** The merged mapping, key by key. *)
Lemma deep_update_dict_get updates : ∀ base k,
  NoDup (dict_keys updates) →
  dict_get k (deep_update_dict base updates)
  = match dict_get k updates with
    | Some v => Some (merged_value (dict_get k base) v)
    | None => dict_get k base
    end.
Proof.
  induction updates as [|[k0 v0] rest IH]; intros base k Hnodup.
  - reflexivity.
  - rewrite deep_update_dict_cons. simpl in Hnodup.
    apply NoDup_cons in Hnodup as [Hfresh Hnodup].
    rewrite IH by done. simpl.
    destruct (String.eqb k k0) eqn:E.
    + apply String.eqb_eq in E as ->.
      rewrite (dict_get_absent k0 rest Hfresh).
      by rewrite dict_get_set_eq.
    + apply String.eqb_neq in E.
      rewrite dict_get_set_ne by done. reflexivity.
Qed.

End DictFacts.

Section MergeConfig.

Variable P : Platform.

(** [load_defaults] always returns, and writes nothing: a file that is
    missing, unreadable or not YAML gives the empty mapping. *)
Lemma load_defaults_total path w :
  ∃ v w', load_defaults P path w = (Val v, w') ∧ files w' = files w.
Proof.
  unfold load_defaults, path_exists, mbind, M_bind.
  destruct (_ || _); [|by eexists _, _].
  unfold try_except, read_file.
  destruct (files w !! path) as [text|]; [|by eexists _, _].
  destruct (read_error P path); [by eexists _, _|].
  unfold lift. destruct (yaml_safe_load P text); by eexists _, _.
Qed.

Lemma load_defaults_absent path w :
  files w !! path = None → path ∉ dirs w →
  load_defaults P path w = (Val (VDict []), w).
Proof.
  intros Hfile Hdir. unfold load_defaults, path_exists, mbind, M_bind.
  rewrite Hfile. rewrite bool_decide_false by (by intros [? ?]).
  by rewrite bool_decide_false.
Qed.

Lemma load_defaults_read path w text :
  files w !! path = Some text →
  load_defaults P path w
  = match read_error P path with
    | Some ex =>
        (Val (VDict []),
         add_event (EvLog WARNING ("Could not load default config from "
                                   +:+ path +:+ ": " +:+ exn_msg ex)) w)
    | None =>
        match yaml_safe_load P text with
        | Ok loaded =>
            (Val (if truthy loaded then loaded else VDict []),
             add_event (EvLog INFO ("Loaded default config from: " +:+ path)) w)
        | Err ex =>
            (Val (VDict []),
             add_event (EvLog WARNING ("Could not load default config from "
                                       +:+ path +:+ ": " +:+ exn_msg ex)) w)
        end
    end.
Proof.
  intros Hfile. unfold load_defaults, path_exists, mbind, M_bind.
  rewrite Hfile. rewrite bool_decide_true by eauto. cbn [orb].
  unfold try_except, read_file. rewrite Hfile.
  destruct (read_error P path); [reflexivity|].
  unfold lift. destruct (yaml_safe_load P text); reflexivity.
Qed.

(** C6, as the code has it.  The defaults are what the file gives: the
    empty mapping when the file is missing, unreadable or not YAML, and
    otherwise the loaded value, or the empty mapping in place of a value
    that counts as false; loading never raises and writes nothing.
    Without a mapping of overrides for the source
    [merge_config_with_defaults] returns these defaults as they are.
    With one, laid over defaults that are a mapping, the result is the
    deep merge: at each key of the override a mapping over a mapping is
    merged by the same rule, any other value replaces what was there, and
    a key the override does not name keeps its default. *)
Theorem merge_config_with_defaults_deep_merge path config_key w :
  (files w !! path = None → (path ∉ dirs w) →
   load_defaults P path w = (Val (VDict []), w))
  ∧ (∀ text loaded,
       files w !! path = Some text → read_error P path = None →
       yaml_safe_load P text = Ok loaded →
       load_defaults P path w
       = (Val (if truthy loaded then loaded else VDict []),
          add_event (EvLog INFO ("Loaded default config from: " +:+ path)) w))
  ∧ (∀ text ex,
       files w !! path = Some text → read_error P path = None →
       yaml_safe_load P text = Err ex →
       load_defaults P path w
       = (Val (VDict []),
          add_event (EvLog WARNING ("Could not load default config from "
                                    +:+ path +:+ ": " +:+ exn_msg ex)) w))
  ∧ (∀ text ex,
       files w !! path = Some text → read_error P path = Some ex →
       ∃ w1, load_defaults P path w = (Val (VDict []), w1))
  ∧ (∃ defaults w1, load_defaults P path w = (Val defaults, w1) ∧ files w1 = files w)
  ∧ (∀ config_overrides defaults w1,
       load_defaults P path w = (Val defaults, w1) →
       ((∀ u, override_for config_key config_overrides ≠ Some (VDict u)) →
        merge_config_with_defaults P config_overrides path config_key w
        = (Val defaults, w1))
       ∧ (∀ override_values d,
            override_for config_key config_overrides = Some (VDict override_values) →
            defaults = VDict d →
            merge_config_with_defaults P config_overrides path config_key w
            = (Val (VDict (deep_update_dict d override_values)),
               add_event (EvLog INFO ("Applied config overrides for " +:+ config_key))
                 w1)))
  ∧ (∀ d u, NoDup (dict_keys u) →
            ∀ k, dict_get k (deep_update_dict d u)
                 = match dict_get k u with
                   | Some v => Some (merged_value (dict_get k d) v)
                   | None => dict_get k d
                   end).
Proof.
  split; [apply load_defaults_absent|].
  split. { intros text loaded Hfile Hread Hyaml.
           by rewrite (load_defaults_read _ _ _ Hfile), Hread, Hyaml. }
  split. { intros text ex Hfile Hread Hyaml.
           by rewrite (load_defaults_read _ _ _ Hfile), Hread, Hyaml. }
  split. { intros text ex Hfile Hread.
           rewrite (load_defaults_read _ _ _ Hfile), Hread. by eexists. }
  split; [apply load_defaults_total|].
  split.
  - intros ov defaults w1 Hload. split.
    + intros Hnone. unfold merge_config_with_defaults, mbind, M_bind. rewrite Hload.
      destruct ov as [[|item items]|]; try reflexivity.
      unfold override_for in Hnone.
      destruct (dict_get config_key (item :: items)) as [[]|] eqn:Hget; try reflexivity.
      by destruct (Hnone d).
    + intros u d Hov ->.
      unfold merge_config_with_defaults, mbind, M_bind. rewrite Hload.
      destruct ov as [[|item items]|]; [discriminate Hov| |discriminate Hov].
      unfold override_for in Hov. rewrite Hov. reflexivity.
  - intros d u Hnodup k. by apply DictFacts.deep_update_dict_get.
Qed.

End MergeConfig.


(** ** Frame rules *)

Section Respects.

Context (R : relation World) `{!PreOrder R}.

Lemma respects_ret {A} (a : A) : respects R (mret a).
Proof. intros w o w' [= <- <-]. reflexivity. Qed.

Lemma respects_raise {A} (e : exn) : respects R (@raise A e).
Proof. intros w o w' [= <- <-]. reflexivity. Qed.

Lemma respects_return {A} (r : string) : respects R (@return_ A r).
Proof. intros w o w' [= <- <-]. reflexivity. Qed.

Lemma respects_lift {A} (r : result A) : respects R (lift r).
Proof. destruct r; [apply respects_ret | apply respects_raise]. Qed.

Lemma respects_bind {A B} (m : M A) (k : A → M B) :
  respects R m → (∀ a, respects R (k a)) → respects R (m ≫= k).
Proof.
  intros Hm Hk w o w'. unfold mbind, M_bind.
  destruct (m w) as [[a|r|e] w1] eqn:E; specialize (Hm _ _ _ E).
  - intros Hrun. etrans; [exact Hm | exact (Hk _ _ _ _ Hrun)].
  - by intros [= <- <-].
  - by intros [= <- <-].
Qed.

Lemma respects_try_except {A} (body : M A) (handler : exn → M A) :
  respects R body → (∀ e, respects R (handler e)) →
  respects R (try_except body handler).
Proof.
  intros Hb Hh w o w'. unfold try_except.
  destruct (body w) as [[a|r|e] w1] eqn:E; specialize (Hb _ _ _ E).
  - by intros [= <- <-].
  - by intros [= <- <-].
  - intros Hrun. etrans; [exact Hb | exact (Hh _ _ _ _ Hrun)].
Qed.

Lemma respects_try_except_cls {A} cls (body : M A) (handler : exn → M A) :
  respects R body → (∀ e, respects R (handler e)) →
  respects R (try_except_cls cls body handler).
Proof.
  intros Hb Hh w o w'. unfold try_except_cls.
  destruct (body w) as [[a|r|e] w1] eqn:E; specialize (Hb _ _ _ E).
  - by intros [= <- <-].
  - by intros [= <- <-].
  - case_decide.
    + intros Hrun. etrans; [exact Hb | exact (Hh _ _ _ _ Hrun)].
    + by intros [= <- <-].
Qed.

Lemma respects_try_finally {A} (body : M A) (final : M unit) :
  respects R body → respects R final → respects R (try_finally body final).
Proof.
  intros Hb Hf w o w'. unfold try_finally.
  destruct (body w) as [o1 w1] eqn:E. specialize (Hb _ _ _ E).
  destruct (final w1) as [[[]|r|e] w2] eqn:E2; specialize (Hf _ _ _ E2);
    intros [= <- <-]; by etrans.
Qed.

Lemma respects_for_each {A} (l : list A) (body : A → M unit) :
  (∀ x, respects R (body x)) → respects R (for_each l body).
Proof.
  intros Hbody. induction l as [|x l IH]; simpl.
  - apply respects_ret.
  - apply respects_bind; [apply Hbody | intros _; exact IH].
Qed.

Lemma respects_call (body : M string) : respects R body → respects R (call body).
Proof.
  intros Hb w o w'. unfold call.
  destruct (body w) as [[a|r|e] w1] eqn:E; specialize (Hb _ _ _ E);
    by intros [= <- <-].
Qed.

End Respects.

Ltac respects_step :=
  lazymatch goal with
  | |- respects ?R (mbind _ _) => apply (respects_bind R); [|intros ?]
  | |- respects ?R (mret _) => apply (respects_ret R)
  | |- respects ?R (raise _) => apply (respects_raise R)
  | |- respects ?R (return_ _) => apply (respects_return R)
  | |- respects ?R (lift _) => apply (respects_lift R)
  | |- respects ?R (try_except _ _) => apply (respects_try_except R); [|intros ?]
  | |- respects ?R (try_except_cls _ _ _) =>
      apply (respects_try_except_cls R); [|intros ?]
  | |- respects ?R (try_finally _ _) => apply (respects_try_finally R)
  | |- respects ?R (for_each _ _) => apply (respects_for_each R); intros ?
  | |- respects ?R (call _) => apply (respects_call R)
  | |- respects _ (match ?x with _ => _ end) => destruct x
  | |- _ => solve [eauto with respects]
  end.

Ltac respects_auto := repeat respects_step.

Create HintDb respects.

Global Instance quiet_preorder : PreOrder quiet.
Proof.
  split.
  - intros w. repeat split; try done. exists []. by rewrite app_nil_r.
  - intros w1 w2 w3 (Hf1 & He1 & Hn1 & Hd1 & t1 & Ht1 & Hl1)
                    (Hf2 & He2 & Hn2 & Hd2 & t2 & Ht2 & Hl2).
    repeat split; try congruence; [set_solver|].
    exists (t1 ++ t2). split; [by rewrite Ht2, Ht1, app_assoc|].
    by apply Forall_app.
Qed.

Global Instance grows_preorder : PreOrder grows.
Proof.
  split.
  - intros w. exists []. by rewrite app_nil_r.
  - intros w1 w2 w3 [t1 Ht1] [t2 Ht2]. exists (t1 ++ t2).
    by rewrite Ht2, Ht1, app_assoc.
Qed.

Lemma quiet_grows w w' : quiet w w' → grows w w'.
Proof. intros (_ & _ & _ & _ & t & Ht & _). by exists t. Qed.

(** Log records are neither calls to a report generator nor new files. *)
Lemma quiet_collaborator_calls w w' :
  quiet w w' → collaborator_calls (trace w') = collaborator_calls (trace w).
Proof.
  intros (_ & _ & _ & _ & t & -> & Hlog). unfold collaborator_calls.
  rewrite filter_app. rewrite <- (app_nil_r (filter _ (trace w))) at 2. f_equal.
  induction Hlog as [|ev t Hev _ IH]; [done|].
  rewrite filter_cons_False; [done|]. by destruct ev.
Qed.

Lemma quiet_temp_files_made w w' :
  quiet w w' → temp_files_made (trace w') = temp_files_made (trace w).
Proof.
  intros (_ & _ & _ & _ & t & -> & Hlog). unfold temp_files_made.
  rewrite filter_app. rewrite <- (app_nil_r (filter _ (trace w))) at 2. f_equal.
  induction Hlog as [|ev t Hev _ IH]; [done|].
  rewrite filter_cons_False; [done|]. by destruct ev.
Qed.

Section Quiet.

Variable P : Platform.

Lemma quiet_add_log lvl msg w : quiet w (add_event (EvLog lvl msg) w).
Proof. repeat split; try done. exists [EvLog lvl msg]. split; [done|]. by repeat constructor. Qed.

Lemma quiet_log lvl msg : respects quiet (log lvl msg).
Proof. intros w o w' [= <- <-]. apply quiet_add_log. Qed.

Lemma quiet_now : respects quiet (now P).
Proof.
  intros w o w' [= <- <-]. repeat split; try done.
  exists []. by rewrite app_nil_r.
Qed.

Lemma quiet_getenv name : respects quiet (getenv name).
Proof. intros w o w' [= <- <-]. reflexivity. Qed.

Lemma quiet_path_exists p : respects quiet (path_exists p).
Proof. intros w o w' [= <- <-]. reflexivity. Qed.

Lemma quiet_Path_exists p : respects quiet (Path_exists P p).
Proof.
  intros w o w'. unfold Path_exists.
  destruct (unsearchable P _); intros [= <- <-]; reflexivity.
Qed.

Lemma quiet_read_file p : respects quiet (read_file P p).
Proof.
  intros w o w'. unfold read_file.
  destruct (files w !! p); [destruct (read_error P p)|];
    intros [= <- <-]; reflexivity.
Qed.

Lemma quiet_mkdir_exist_ok p : respects quiet (mkdir_exist_ok P p).
Proof.
  intros w o w'. unfold mkdir_exist_ok.
  repeat case_bool_decide; [| |destruct (mkdir_error P p)];
    intros [= <- <-]; try reflexivity.
  repeat split; try done; [set_solver|]. exists []. by rewrite app_nil_r.
Qed.

Hint Resolve quiet_log quiet_now quiet_getenv quiet_path_exists quiet_Path_exists
  quiet_read_file quiet_mkdir_exist_ok : respects.

Lemma quiet_get_week_range s e : respects quiet (get_week_range P s e).
Proof. unfold get_week_range. respects_auto. Qed.

Lemma quiet_resolve_window a : respects quiet (resolve_window P a).
Proof.
  unfold resolve_window. pose proof quiet_get_week_range. respects_auto.
Qed.

Lemma quiet_get_report_path s e : respects quiet (get_report_path P s e).
Proof. unfold get_report_path. respects_auto. Qed.

Lemma quiet_check_report_exists s e : respects quiet (check_report_exists P s e).
Proof.
  unfold check_report_exists. pose proof quiet_get_report_path. respects_auto.
Qed.

Lemma quiet_check_cache a s e : respects quiet (check_cache P a s e).
Proof.
  unfold check_cache.
  pose proof quiet_get_report_path. pose proof quiet_check_report_exists.
  respects_auto.
Qed.

Lemma quiet_load_one label key path config :
  respects quiet (load_one P label key path config).
Proof. unfold load_one. respects_auto. Qed.

Lemma quiet_apply_overrides items : ∀ config,
  respects quiet (apply_overrides P items config).
Proof.
  induction items as [|[key value] rest IH]; intros config; simpl.
  - apply (respects_ret quiet).
  - respects_auto; apply IH.
Qed.

Lemma quiet_load_config_with_overrides ov :
  respects quiet (load_config_with_overrides P ov).
Proof.
  unfold load_config_with_overrides.
  pose proof quiet_load_one. pose proof quiet_apply_overrides.
  respects_auto.
Qed.

Lemma quiet_check_credentials a : respects quiet (check_credentials a).
Proof. unfold check_credentials. respects_auto. Qed.

Lemma quiet_import_team_reports : respects quiet (import_team_reports P).
Proof. unfold import_team_reports. respects_auto. Qed.

Lemma quiet_before_aggregation a : respects quiet (before_aggregation P a).
Proof.
  unfold before_aggregation.
  pose proof quiet_resolve_window. pose proof quiet_check_cache.
  pose proof quiet_load_config_with_overrides. pose proof quiet_check_credentials.
  pose proof quiet_import_team_reports.
  respects_auto.
Qed.

End Quiet.


(** ** The report cache *)

Section Cache.

Variable P : Platform.

Lemma get_report_path_val s e w p w' :
  get_report_path P s e w = (Val p, w') →
  p = report_path P s e ∧ reports_dir P ∈ dirs w'
  ∧ get_report_path P s e w' = (Val p, w').
Proof.
  rewrite get_report_path_unfold. fold (reports_dir P). fold (report_path P s e).
  destruct (mkdir_exist_ok P (reports_dir P) w) as [[[]|?|?] w1] eqn:Hmk;
    intros [= <- <-].
  destruct (mkdir_exist_ok_again _ _ _ _ Hmk) as [Hin Hagain].
  repeat split; [done|].
  rewrite get_report_path_unfold. fold (reports_dir P). by rewrite Hagain.
Qed.

Lemma get_report_path_ready s e w :
  reports_dir P ∈ dirs w → get_report_path P s e w = (Val (report_path P s e), w).
Proof.
  intros Hin. rewrite get_report_path_unfold. fold (reports_dir P).
  unfold mkdir_exist_ok. by rewrite bool_decide_true.
Qed.

(** What a hit of [check_report_exists] says about the world. *)
Lemma check_report_exists_hit_inv s e w c w' :
  check_report_exists P s e w = (Val (Some c), w') →
  reports_dir P ∈ dirs w'
  ∧ (∃ stored, files w !! report_path P s e = Some stored
               ∧ c = PyStr.universal_newlines stored)
  ∧ read_error P (report_path P s e) = None.
Proof.
  unfold check_report_exists, mbind, M_bind.
  destruct (get_report_path P s e w) as [[p| |] w1] eqn:Hpath; try discriminate.
  destruct (get_report_path_val _ _ _ _ _ Hpath) as (-> & Hdir & _).
  pose proof (quiet_get_report_path P s e _ _ _ Hpath) as (Hfiles & _).
  unfold Path_exists.
  destruct (unsearchable P (PyPath.parent (report_path P s e))) eqn:Hsearch;
    [discriminate|].
  destruct (_ || _); [|discriminate].
  unfold try_except, read_file, read_error. rewrite Hfiles, Hsearch.
  destruct (files w !! report_path P s e) as [stored|]; [|discriminate].
  destruct (file_read_error P (report_path P s e)); [discriminate|].
  intros [= <- <-]. eauto.
Qed.

Lemma check_report_exists_hit s e w stored :
  reports_dir P ∈ dirs w →
  files w !! report_path P s e = Some stored →
  read_error P (report_path P s e) = None →
  check_report_exists P s e w
  = (Val (Some (PyStr.universal_newlines stored)),
     add_event (EvLog INFO ("Found existing report: " +:+ report_path P s e)) w).
Proof.
  intros Hdir Hfile Hread. unfold check_report_exists, mbind, M_bind.
  rewrite (get_report_path_ready s e w Hdir).
  unfold Path_exists. rewrite (read_error_searchable P _ Hread), Hfile.
  rewrite bool_decide_true by eauto. simpl.
  unfold try_except, read_file. by rewrite Hfile, Hread.
Qed.

(** The whole call when the cache answers. *)
Lemma generate_weekly_status_hit a w s e w1 c w2 :
  regenerate a = false →
  resolve_window P a w = (Val (s, e), w1) →
  check_report_exists P s e w1 = (Val (Some c), w2) →
  c ≠ EmptyString →
  _generate_weekly_status P a w
  = (Val (found_existing_reply (report_path P s e) c), w2).
Proof.
  intros Hregen Hwin Hhit Hc.
  destruct (check_report_exists_hit_inv _ _ _ _ _ Hhit) as (Hdir & _ & _).
  assert (check_cache P a s e w1
          = (Return (found_existing_reply (report_path P s e) c), w2)) as Hcache.
  { unfold check_cache. rewrite Hregen. simpl.
    rewrite (bind_val _ _ _ _ _ Hhit).
    destruct c as [|ch c]; [done|]. simpl.
    by rewrite (bind_val _ _ _ _ _ (get_report_path_ready s e w2 Hdir)). }
  assert (build_report P a w
          = (Return (found_existing_reply (report_path P s e) c), w2)) as Hbuild.
  { unfold build_report. apply bind_return.
    unfold before_aggregation. rewrite (bind_val _ _ _ _ _ Hwin).
    by apply bind_return. }
  unfold _generate_weekly_status, call, generate_weekly_status_body, try_except.
  by rewrite (bind_return _ _ _ _ _ Hbuild).
Qed.

(** C3, as the code has it.  The cache holds the text [stored] for the
    window, in a file that can be read, and [regenerate] is off.  When
    the file is not empty the call returns, behind the header that names
    the file, the text as a text-mode read gives it (a carriage return
    with or without a line feed after it is read as a line feed, so a
    text without carriage returns comes back as it is stored); it writes
    nothing and calls no report generator, and a second call for the same
    window returns the same reply and again calls none.  When the file is
    empty the cache does not answer: the run goes on to load the
    configuration as it does when no report is cached. *)
Theorem cache_hit_is_idempotent a w s e w1 stored :
  regenerate a = false →
  resolve_window P a w = (Val (s, e), w1) →
  reports_dir P ∈ dirs w →
  files w !! report_path P s e = Some stored →
  read_error P (report_path P s e) = None →
  (stored ≠ EmptyString →
   _generate_weekly_status P a w
   = (Val (found_existing_reply (report_path P s e) (PyStr.universal_newlines stored)),
      add_event (found_log P s e) w1)
   ∧ files w1 = files w
   ∧ collaborator_calls (trace w1) = collaborator_calls (trace w)
   ∧ ∀ w3,
       resolve_window P a (add_event (found_log P s e) w1) = (Val (s, e), w3) →
       _generate_weekly_status P a (add_event (found_log P s e) w1)
       = (Val (found_existing_reply (report_path P s e)
                 (PyStr.universal_newlines stored)),
          add_event (found_log P s e) w3)
       ∧ files w3 = files w
       ∧ collaborator_calls (trace w3) = collaborator_calls (trace w))
  ∧ (PyStr.no_cr stored = true → PyStr.universal_newlines stored = stored)
  ∧ (stored = EmptyString →
     check_cache P a s e w1 = (Val (), add_event (found_log P s e) w1)
     ∧ before_aggregation P a w
       = (config ← load_config_with_overrides P (config_overrides a);
          credentials ← check_credentials a;
          import_team_reports P;;
          mret (s, e, credentials)) (add_event (found_log P s e) w1)).
Proof.
  intros Hregen Hwin Hdir Hfile Hread.
  pose proof (quiet_resolve_window P a _ _ _ Hwin) as Hq1.
  assert (reports_dir P ∈ dirs w1) as Hdir1.
  { destruct Hq1 as (_ & _ & _ & Hdirs & _). set_solver. }
  assert (files w1 !! report_path P s e = Some stored) as Hfile1
    by (by rewrite (proj1 Hq1)).
  pose proof (check_report_exists_hit s e w1 stored Hdir1 Hfile1 Hread) as Hhit.
  split; [|split].
  - intros Hstored.
    assert (PyStr.universal_newlines stored ≠ EmptyString) as Hc
      by (by rewrite NewlineFacts.universal_newlines_empty).
    split; [by eapply generate_weekly_status_hit|].
    split; [apply Hq1|]. split; [by apply quiet_collaborator_calls|].
    intros w3 Hwin'.
    pose proof (quiet_resolve_window P a _ _ _ Hwin') as Hq3.
    assert (quiet w w3) as Hq.
    { etrans; [exact Hq1|]. etrans; [apply quiet_add_log | exact Hq3]. }
    assert (reports_dir P ∈ dirs w3) as Hdir3.
    { destruct Hq as (_ & _ & _ & Hdirs & _). set_solver. }
    assert (files w3 !! report_path P s e = Some stored) as Hfile3
      by (by rewrite (proj1 Hq)).
    pose proof (check_report_exists_hit s e w3 stored Hdir3 Hfile3 Hread) as Hhit'.
    split; [by eapply generate_weekly_status_hit|].
    split; [apply Hq | by apply quiet_collaborator_calls].
  - apply NewlineFacts.universal_newlines_no_cr.
  - intros ->.
    assert (check_cache P a s e w1 = (Val (), add_event (found_log P s e) w1))
      as Hcache.
    { unfold check_cache. rewrite Hregen. simpl.
      by rewrite (bind_val _ _ _ _ _ Hhit). }
    split; [exact Hcache|].
    unfold before_aggregation.
    rewrite (bind_val _ _ _ _ _ Hwin). by rewrite (bind_val _ _ _ _ _ Hcache).
Qed.

(** A window whose start the caller gave does not depend on the clock:
    a second call resolves it again. *)
Lemma resolve_window_supplied a w r w1 start :
  nonempty (start_date a) = Some start →
  resolve_window P a w = (Val r, w1) →
  ∀ w', ∃ w1', resolve_window P a w' = (Val r, w1').
Proof.
  intros Hstart Hwin w'. revert Hwin.
  unfold resolve_window, try_except_cls, get_week_range, mbind, M_bind, lift.
  rewrite Hstart.
  destruct (Calendar.strptime_ymd start) as [dt|ex]; simpl.
  2: { case_decide; intros [= ]. }
  destruct (negb (Calendar.weekday dt =? 2)); simpl.
  { intros [=]. }
  destruct (nonempty (end_date a)) as [end_|]; simpl.
  - destruct (Calendar.strptime_ymd end_) as [dt'|ex]; simpl.
    2: { case_decide; intros [=]. }
    destruct (negb (Calendar.weekday dt' =? 1)); simpl.
    { intros [=]. }
    intros [= <- <-]. by eexists.
  - destruct (Calendar.sub_days dt 7) as [dt'|ex]; simpl.
    2: { case_decide; intros [=]. }
    intros [= <- <-]. by eexists.
Qed.

End Cache.


(** The cached report "# Old report" is served as it is. *)
Lemma cache_hit_is_idempotent_witness :
  _generate_weekly_status Demo.healthy (Demo.args None)
    (Demo.ready_world {[Demo.report_path := "# Old report"]})
  = (Val (found_existing_reply Demo.report_path "# Old report"),
     add_event (EvLog INFO ("Found existing report: " +:+ Demo.report_path))
       (resolve_window Demo.healthy (Demo.args None)
          (Demo.ready_world {[Demo.report_path := "# Old report"]})).2).
Proof.
  refine (proj1 (proj1 (cache_hit_is_idempotent Demo.healthy (Demo.args None)
                          (Demo.ready_world {[Demo.report_path := "# Old report"]})
                          "2024-01-10" "2024-01-03"
                          (resolve_window Demo.healthy (Demo.args None)
                             (Demo.ready_world {[Demo.report_path := "# Old report"]})).2
                          "# Old report" eq_refl _ _ eq_refl eq_refl) _)).
  - vm_compute. reflexivity.
  - vm_compute. reflexivity.
  - discriminate.
Defined.

(** A cached report stored with the line endings of another system is
    not served as stored: each carriage return and line feed pair is read
    as a line feed. *)
Lemma cached_report_line_endings :
  (_generate_weekly_status Demo.healthy (Demo.args None)
     (Demo.ready_world
        {[Demo.report_path :=
            "# Report" +:+ String PyStr.CR (String PyStr.LF EmptyString) +:+ "done"]})).1
  = Val (found_existing_reply Demo.report_path
           ("# Report" +:+ String PyStr.LF EmptyString +:+ "done")).
Proof. vm_compute. reflexivity. Qed.

(** C3 as stated fails.  The cache holds an empty file for the window:
    [check_report_exists] returns its (empty) text, yet the run does not
    answer from the cache; it calls both report generators and writes a
    new report. *)
Lemma empty_cached_report_is_regenerated :
  (check_report_exists Demo.healthy "2024-01-10" "2024-01-03"
     (Demo.cached_world EmptyString)).1 = Val (Some EmptyString)
  ∧ (_generate_weekly_status Demo.healthy (Demo.args None)
       (Demo.cached_world EmptyString)).1
    ≠ Val (found_existing_reply Demo.report_path EmptyString)
  ∧ collaborator_calls
      (trace (_generate_weekly_status Demo.healthy (Demo.args None)
                (Demo.cached_world EmptyString)).2)
    = [EvJira "/srv/mcp/config/jira_config.yaml" "https://jira.example.com"
         "dev@example.com" "jira-token" "2024-01-10" "2024-01-03";
       EvGitHub "/srv/mcp/config/github_config.yaml" "github-token"
         "2024-01-10" "2024-01-03"].
Proof.
  split; [by vm_compute|]. split; [|by vm_compute].
  vm_compute. discriminate.
Qed.

(** ** Credentials *)

Section Credentials.

Variable P : Platform.

Lemma check_credentials_unfold a w :
  check_credentials a w
  = match missing_credentials a (environ w) with
    | [] => (Val (default EmptyString (environ w !! "JIRA_SERVER"),
                  default EmptyString (environ w !! "JIRA_EMAIL"),
                  default EmptyString (environ w !! "JIRA_API_TOKEN"),
                  default EmptyString (effective_github_token a (environ w))), w)
    | missing_creds => (Return (missing_credentials_reply missing_creds), w)
    end.
Proof.
  unfold check_credentials, missing_credentials, effective_github_token,
    mbind, M_bind, getenv.
  destruct (nonempty (github_token a)); cbv [mret M_ret return_];
    match goal with
    | |- context [match ?l with [] => _ | _ :: _ => _ end] => destruct l
    end; reflexivity.
Qed.

(** The names listed are the credentials that are absent, no others. *)
Lemma missing_credentials_exact a env name :
  name ∈ missing_credentials a env ↔
    (name = "JIRA_SERVER" ∧ nonempty (env !! "JIRA_SERVER") = None)
    ∨ (name = "JIRA_EMAIL" ∧ nonempty (env !! "JIRA_EMAIL") = None)
    ∨ (name = "JIRA_API_TOKEN" ∧ nonempty (env !! "JIRA_API_TOKEN") = None)
    ∨ (name = "GITHUB_TOKEN" ∧ nonempty (effective_github_token a env) = None).
Proof.
  unfold missing_credentials, missing_if. rewrite !elem_of_app.
  destruct (nonempty (env !! "JIRA_SERVER")),
           (nonempty (env !! "JIRA_EMAIL")),
           (nonempty (env !! "JIRA_API_TOKEN")),
           (nonempty (effective_github_token a env));
    rewrite ?list_elem_of_singleton, ?elem_of_nil; intuition congruence.
Qed.

Lemma load_one_total label key path config w :
  unsearchable P (PyPath.parent path) = false →
  ∃ config' w', load_one P label key path config w = (Val config', w').
Proof.
  intros Hsearch. unfold load_one, Path_exists, mbind, M_bind. rewrite Hsearch.
  destruct (_ || _); [|by eexists _, _].
  unfold try_except, read_file.
  destruct (files w !! path) as [text|]; [|by eexists _, _].
  destruct (read_error P path); [by eexists _, _|].
  unfold lift. destruct (yaml_safe_load P text); by eexists _, _.
Qed.

(** Without overrides the configuration loads whenever the [config]
    directory can be searched. *)
Lemma load_config_without_overrides ov w :
  default [] ov = [] →
  unsearchable P "config" = false →
  ∃ config w', load_config_with_overrides P ov w = (Val config, w').
Proof.
  intros Hov Hsearch. unfold load_config_with_overrides. cbv zeta.
  destruct (load_one_total "Jira" "jira" (PyPath.join "config" "jira_config.yaml")
              [("jira", VDict []); ("github", VDict []); ("team", VDict [])] w Hsearch)
    as (c1 & w1 & H1).
  rewrite (bind_val _ _ _ _ _ H1).
  destruct (load_one_total "GitHub" "github" (PyPath.join "config" "github_config.yaml")
              c1 w1 Hsearch) as (c2 & w2 & H2).
  rewrite (bind_val _ _ _ _ _ H2).
  destruct (load_one_total "team" "team" (PyPath.join "config" "team_config.yaml")
              c2 w2 Hsearch) as (c3 & w3 & H3).
  rewrite (bind_val _ _ _ _ _ H3).
  destruct ov as [[|item items]|]; [by eexists _, _ | discriminate Hov | by eexists _, _].
Qed.

(** The run that finds a credential missing stops before the report
    generators are reached. *)
Lemma before_aggregation_missing a w s e w1 w2 :
  resolve_window P a w = (Val (s, e), w1) →
  check_cache P a s e w1 = (Val (), w2) →
  missing_credentials a (environ w) ≠ [] →
  match load_config_with_overrides P (config_overrides a) w2 with
  | (Val _, w3) =>
      before_aggregation P a w
      = (Return (missing_credentials_reply (missing_credentials a (environ w))), w3)
  | (Return r, w3) => before_aggregation P a w = (Return r, w3)
  | (Raise ex, w3) => before_aggregation P a w = (Raise ex, w3)
  end.
Proof.
  intros Hwin Hcache Hmissing.
  pose proof (quiet_resolve_window P a _ _ _ Hwin) as Hq1.
  pose proof (quiet_check_cache P a s e _ _ _ Hcache) as Hq2.
  unfold before_aggregation.
  rewrite (bind_val _ _ _ _ _ Hwin). rewrite (bind_val _ _ _ _ _ Hcache).
  destruct (load_config_with_overrides P (config_overrides a) w2)
    as [[config|r|ex] w3] eqn:Hload.
  - rewrite (bind_val _ _ _ _ _ Hload). apply bind_return.
    pose proof (quiet_load_config_with_overrides P _ _ _ _ Hload) as Hq3.
    rewrite check_credentials_unfold.
    assert (environ w3 = environ w) as ->.
    { destruct Hq1 as (_ & He1 & _), Hq2 as (_ & He2 & _), Hq3 as (_ & He3 & _).
      congruence. }
    by destruct (missing_credentials a (environ w)).
  - by apply bind_return.
  - by apply bind_raise.
Qed.

(** The credential check, as the code has it.  The configuration is
    loaded between the cache lookup and the credential check, so a run
    that misses the cache and lacks a credential answers in one of two
    ways.  When the load
    returns, the reply is the one error that lists the absent
    credentials, and only those.  When the load raises, the reply is the
    general error with the text of that exception, and the credentials
    are not looked at.  Either way no file is written, no temporary file
    is made and no report generator is called.  The load returns whenever
    no overrides are given and the [config] directory can be searched. *)
Theorem missing_credentials_reported a w s e w1 w2 :
  resolve_window P a w = (Val (s, e), w1) →
  check_cache P a s e w1 = (Val (), w2) →
  missing_credentials a (environ w) ≠ [] →
  (∀ config w3,
     load_config_with_overrides P (config_overrides a) w2 = (Val config, w3) →
     _generate_weekly_status P a w
     = (Val (missing_credentials_reply (missing_credentials a (environ w))), w3))
  ∧ (∀ ex w3,
       load_config_with_overrides P (config_overrides a) w2 = (Raise ex, w3) →
       _generate_weekly_status P a w
       = (Val ("Error generating weekly status: " +:+ exn_msg ex),
          add_event (EvLog ERROR ("Error generating weekly status: " +:+ exn_msg ex)) w3))
  ∧ (∃ reply w',
       _generate_weekly_status P a w = (Val reply, w')
       ∧ files w' = files w
       ∧ temp_files_made (trace w') = temp_files_made (trace w)
       ∧ collaborator_calls (trace w') = collaborator_calls (trace w))
  ∧ (default [] (config_overrides a) = [] → unsearchable P "config" = false →
     ∃ w', _generate_weekly_status P a w
           = (Val (missing_credentials_reply (missing_credentials a (environ w))), w'))
  ∧ (∀ name,
       name ∈ missing_credentials a (environ w) ↔
         (name = "JIRA_SERVER" ∧ nonempty (environ w !! "JIRA_SERVER") = None)
         ∨ (name = "JIRA_EMAIL" ∧ nonempty (environ w !! "JIRA_EMAIL") = None)
         ∨ (name = "JIRA_API_TOKEN" ∧ nonempty (environ w !! "JIRA_API_TOKEN") = None)
         ∨ (name = "GITHUB_TOKEN"
            ∧ nonempty (effective_github_token a (environ w)) = None)).
Proof.
  intros Hwin Hcache Hmissing.
  pose proof (before_aggregation_missing a w s e w1 w2 Hwin Hcache Hmissing) as Hbefore.
  pose proof (quiet_resolve_window P a _ _ _ Hwin) as Hq1.
  pose proof (quiet_check_cache P a s e _ _ _ Hcache) as Hq2.
  assert (quiet w w2) as Hq12 by (by etrans).
  assert (∀ o w3, load_config_with_overrides P (config_overrides a) w2 = (o, w3) →
                  quiet w w3) as Hq3.
  { intros o w3 Hload. etrans; [exact Hq12|].
    exact (quiet_load_config_with_overrides P _ _ _ _ Hload). }
  assert (∀ config w3,
            load_config_with_overrides P (config_overrides a) w2 = (Val config, w3) →
            _generate_weekly_status P a w
            = (Val (missing_credentials_reply (missing_credentials a (environ w))), w3))
    as Hval.
  { intros config w3 Hload. rewrite Hload in Hbefore.
    unfold _generate_weekly_status, call, generate_weekly_status_body, try_except,
      build_report.
    by rewrite (bind_return _ _ _ _ _ (bind_return _ _ _ _ _ Hbefore)). }
  assert (∀ ex w3,
            load_config_with_overrides P (config_overrides a) w2 = (Raise ex, w3) →
            _generate_weekly_status P a w
            = (Val ("Error generating weekly status: " +:+ exn_msg ex),
               add_event (EvLog ERROR ("Error generating weekly status: "
                                       +:+ exn_msg ex)) w3)) as Hraise.
  { intros ex w3 Hload. rewrite Hload in Hbefore.
    unfold _generate_weekly_status, call, generate_weekly_status_body, try_except,
      build_report.
    by rewrite (bind_raise _ _ _ _ _ (bind_raise _ _ _ _ _ Hbefore)). }
  split; [exact Hval|]. split; [exact Hraise|]. split; [|split].
  - assert (∃ reply w', _generate_weekly_status P a w = (Val reply, w') ∧ quiet w w')
      as (reply & w' & Hrun & Hq).
    { destruct (load_config_with_overrides P (config_overrides a) w2)
        as [[config|r|ex] w3] eqn:Hload; specialize (Hq3 _ _ eq_refl).
      - eexists _, _. split; [by eapply Hval | done].
      - unfold _generate_weekly_status, call, generate_weekly_status_body, try_except,
          build_report.
        rewrite (bind_return _ _ _ _ _ (bind_return _ _ _ _ _ Hbefore)).
        by eexists _, _.
      - eexists _, _. split; [by eapply Hraise|].
        etrans; [exact Hq3 | apply quiet_add_log]. }
    exists reply, w'. split; [done|]. split; [apply Hq|].
    split; [by apply quiet_temp_files_made | by apply quiet_collaborator_calls].
  - intros Hnone Hsearch.
    destruct (load_config_without_overrides (config_overrides a) w2 Hnone Hsearch)
      as (config & w3 & Hload).
    exists w3. by eapply Hval.
  - intros name. apply missing_credentials_exact.
Qed.

End Credentials.

(** With no credential set the reply lists the four names. *)
Lemma missing_credentials_reported_witness :
  (_generate_weekly_status Demo.healthy (Demo.args None) (Demo.world ∅ ∅)).1
  = Val (missing_credentials_reply
           ["JIRA_SERVER"; "JIRA_EMAIL"; "JIRA_API_TOKEN"; "GITHUB_TOKEN"]).
Proof.
  destruct (proj1 (proj2 (proj2 (proj2
              (missing_credentials_reported Demo.healthy (Demo.args None)
                 (Demo.world ∅ ∅) "2024-01-10" "2024-01-03"
                 (resolve_window Demo.healthy (Demo.args None) (Demo.world ∅ ∅)).2
                 (check_cache Demo.healthy (Demo.args None) "2024-01-10" "2024-01-03"
                    (resolve_window Demo.healthy (Demo.args None)
                       (Demo.world ∅ ∅)).2).2
                 ltac:(vm_compute; reflexivity)
                 ltac:(vm_compute; reflexivity)
                 ltac:(vm_compute; discriminate)))))
              eq_refl eq_refl) as [w' Hrun].
  rewrite Hrun. reflexivity.
Defined.

(** C4.  The run misses the cache and no credential is set, but the
    override for [jira] is a string: [load_config_with_overrides] lays it
    over the loaded section with [update], unguarded, and that raises
    before the credentials are looked at; the reply is the general error,
    not the list of missing credentials. *)
Lemma malformed_override_hides_missing_credentials :
  (check_cache Demo.healthy (Demo.args (Some [("jira", VStr "x")]))
     "2024-01-10" "2024-01-03"
     (resolve_window Demo.healthy (Demo.args (Some [("jira", VStr "x")]))
        (Demo.world ∅ ∅)).2).1 = Val ()
  ∧ missing_credentials (Demo.args (Some [("jira", VStr "x")])) ∅
    = ["JIRA_SERVER"; "JIRA_EMAIL"; "JIRA_API_TOKEN"; "GITHUB_TOKEN"]
  ∧ (_generate_weekly_status Demo.healthy (Demo.args (Some [("jira", VStr "x")]))
       (Demo.world ∅ ∅)).1
    = Val "Error generating weekly status: dictionary update sequence element #0 has length 1; 2 is required"
  ∧ (_generate_weekly_status Demo.healthy (Demo.args (Some [("jira", VStr "x")]))
       (Demo.world ∅ ∅)).1
    ≠ Val (missing_credentials_reply
             ["JIRA_SERVER"; "JIRA_EMAIL"; "JIRA_API_TOKEN"; "GITHUB_TOKEN"]).
Proof.
  split; [by vm_compute|]. split; [by vm_compute|]. split; [by vm_compute|].
  vm_compute. discriminate.
Qed.


(** The repository's deep-merge test: [key1] is overridden, [key2] and
    [level2] keep their defaults. *)
Lemma merge_config_with_defaults_deep_merge_witness :
  merge_config_with_defaults Demo.with_test_defaults (Some Demo.test_overrides)
    "defaults.yaml" "test" Demo.defaults_world
  = (Val (VDict [("nested",
                  VDict [("level1", VDict [("key1", VStr "override1");
                                           ("key2", VStr "default2")]);
                         ("level2", VStr "value2")])]),
     add_event (EvLog INFO "Applied config overrides for test")
       (add_event (EvLog INFO "Loaded default config from: defaults.yaml")
          Demo.defaults_world)).
Proof.
  exact (proj2 (proj1 (proj2 (proj2 (proj2 (proj2 (proj2
                  (merge_config_with_defaults_deep_merge Demo.with_test_defaults
                     "defaults.yaml" "test" Demo.defaults_world))))))
                  (Some Demo.test_overrides) (VDict Demo.test_defaults)
                  (add_event (EvLog INFO "Loaded default config from: defaults.yaml")
                     Demo.defaults_world)
                  ltac:(vm_compute; reflexivity))
           [("nested", VDict [("level1", VDict [("key1", VStr "override1")])])]
           Demo.test_defaults eq_refl eq_refl).
Defined.

(** C6 as stated fails.  The defaults file holds a list, which loads as
    it is, and the caller gives a mapping of overrides for the source:
    the merge raises a [TypeError] instead of returning merged values. *)
Lemma list_defaults_take_no_override :
  (load_defaults Demo.list_defaults "defaults.yaml" Demo.defaults_world).1
  = Val (VList [VStr "PROJ"])
  ∧ override_for "jira" Demo.jira_override
    = Some (VDict [("base_jql", VStr "project = TEST")])
  ∧ ∃ ex,
      (merge_config_with_defaults Demo.list_defaults Demo.jira_override
         "defaults.yaml" "jira" Demo.defaults_world).1 = Raise ex
      ∧ exn_cls ex = TypeError.
Proof.
  split; [by vm_compute|]. split; [reflexivity|].
  eexists. split; [vm_compute; reflexivity | reflexivity].
Qed.

(** ** Saving the report *)

Section Persist.

Variable P : Platform.

(** What [open(p, 'w')] and the write have done when they return. *)
Lemma write_file_val p c w w' :
  write_file P p c w = (Val (), w') →
  w' = set_files (insert p c) w ∧ (p ∉ dirs w) ∧ parent_exists p w = true.
Proof.
  unfold write_file. case_bool_decide; [discriminate|].
  destruct (parent_exists p w); [|discriminate]. cbn [negb].
  destruct (open_error P p); [discriminate|].
  destruct (write_error P p); [discriminate|].
  by intros [= <-].
Qed.

(** A write that raises has failed in [open], and then nothing has
    changed, or after it, and then the file is there and empty. *)
Lemma write_file_raise p c w ex w' :
  write_file P p c w = (Raise ex, w') →
  w' = w
  ∨ (w' = set_files (insert p EmptyString) w
     ∧ open_error P p = None ∧ write_error P p = Some ex).
Proof.
  unfold write_file. case_bool_decide; [intros [= <- <-]; by left|].
  destruct (parent_exists p w); cbn [negb]; [|intros [= <- <-]; by left].
  destruct (open_error P p); [intros [= <- <-]; by left|].
  destruct (write_error P p); [|discriminate].
  intros [= <- <-]. by right.
Qed.

Lemma save_report_val c s e w p w' :
  save_report P c s e w = (Val p, w') →
  p = report_path P s e ∧ files w' !! p = Some c.
Proof.
  unfold save_report, mbind, M_bind.
  destruct (get_report_path P s e w) as [[p0| |] w1] eqn:Hpath; try discriminate.
  destruct (get_report_path_val _ _ _ _ _ _ Hpath) as (-> & _ & _).
  unfold try_except.
  destruct (write_file P (report_path P s e) c w1) as [[[]| |] w2] eqn:Hwrite;
    try discriminate.
  destruct (write_file_val _ _ _ _ Hwrite) as (-> & _).
  intros [= <- <-]. split; [done|]. simpl. apply lookup_insert_eq.
Qed.

(** A save that fails has touched no file but the report file. *)
Lemma save_report_raise c s e w ex w' :
  save_report P c s e w = (Raise ex, w') →
  ∀ q, q ≠ report_path P s e → files w' !! q = files w !! q.
Proof.
  unfold save_report, mbind, M_bind.
  destruct (get_report_path P s e w) as [[p0| |] w1] eqn:Hpath;
    pose proof (quiet_get_report_path P s e _ _ _ Hpath) as (Hfiles & _).
  - destruct (get_report_path_val _ _ _ _ _ _ Hpath) as (-> & _ & _).
    unfold try_except.
    destruct (write_file P (report_path P s e) c w1) as [[[]| |ex1] w2] eqn:Hwrite;
      try discriminate.
    intros [= <- <-] q Hq. cbn [files add_event].
    destruct (write_file_raise _ _ _ _ _ Hwrite) as [->|(-> & _)].
    + by rewrite Hfiles.
    + cbn [files set_files]. rewrite lookup_insert_ne by done. by rewrite Hfiles.
  - discriminate.
  - intros [= <- <-] q Hq. by rewrite Hfiles.
Qed.

Lemma persist_unfold c s e w :
  persist P c s e w
  = match save_report P c s e w with
    | (Val p, w') =>
        (Return (success_reply s e p c),
         add_event (EvLog INFO ("Report saved to: " +:+ p)) w')
    | (Return r, w') => (Return r, w')
    | (Raise ex, w') =>
        (Return (save_failed_reply ex c),
         add_event (EvLog ERROR ("Failed to save report: " +:+ exn_msg ex)) w')
    end.
Proof.
  unfold persist, try_except, mbind, M_bind.
  destruct (save_report P c s e w) as [[p| |] w']; reflexivity.
Qed.

Lemma generate_weekly_status_built a w c s e w1 :
  build_report P a w = (Val (c, s, e), w1) →
  _generate_weekly_status P a w
  = match persist P c s e w1 with
    | (Return r, w') => (Val r, w')
    | r => r
    end.
Proof.
  intros Hbuild.
  unfold _generate_weekly_status, call, generate_weekly_status_body, try_except.
  rewrite (bind_val _ _ _ _ _ Hbuild). rewrite persist_unfold.
  destruct (save_report P c s e w1) as [[p| |] w']; reflexivity.
Qed.

(** C8.  When saving fails, the caller gets the storage error, never the
    success reply; the reply carries the whole text that was to be saved,
    and no file other than the report file itself has been touched. *)
Theorem save_failure_keeps_report a w c s e w1 ex w2 :
  build_report P a w = (Val (c, s, e), w1) →
  save_report P c s e w1 = (Raise ex, w2) →
  _generate_weekly_status P a w
  = (Val ("Error: Failed to save report: " +:+ exn_msg ex
          +:+ PyStr.newline +:+ PyStr.newline
          +:+ "Report content:" +:+ PyStr.newline +:+ PyStr.newline +:+ c),
     add_event (EvLog ERROR ("Failed to save report: " +:+ exn_msg ex)) w2)
  ∧ (∀ p, "Error: Failed to save report: " +:+ exn_msg ex
          +:+ PyStr.newline +:+ PyStr.newline
          +:+ "Report content:" +:+ PyStr.newline +:+ PyStr.newline +:+ c
          ≠ success_reply s e p c)
  ∧ (∀ q, q ≠ report_path P s e → files w2 !! q = files w1 !! q).
Proof.
  intros Hbuild Hsave. split; [|split].
  - rewrite (generate_weekly_status_built _ _ _ _ _ _ Hbuild).
    rewrite persist_unfold, Hsave. reflexivity.
  - intros p. discriminate.
  - by eapply save_report_raise.
Qed.

End Persist.

(** A first run whose report cannot be written: the reply is the error
    and ends with the report. *)
Lemma save_failure_keeps_report_witness :
  (_generate_weekly_status Demo.disk_full (Demo.args None) Demo.fresh_world).1
  = Val ("Error: Failed to save report: [Errno 28] No space left on device"
         +:+ PyStr.newline +:+ PyStr.newline
         +:+ "Report content:" +:+ PyStr.newline +:+ PyStr.newline
         +:+ built_text (build_report Demo.disk_full (Demo.args None) Demo.fresh_world).1).
Proof.
  pose proof (proj1 (save_failure_keeps_report Demo.disk_full (Demo.args None)
                       Demo.fresh_world
                       (built_text (build_report Demo.disk_full (Demo.args None)
                                      Demo.fresh_world).1)
                       "2024-01-10" "2024-01-03"
                       (build_report Demo.disk_full (Demo.args None) Demo.fresh_world).2
                       (Exn OSError "[Errno 28] No space left on device")
                       (save_report Demo.disk_full
                          (built_text (build_report Demo.disk_full (Demo.args None)
                                         Demo.fresh_world).1)
                          "2024-01-10" "2024-01-03"
                          (build_report Demo.disk_full (Demo.args None)
                             Demo.fresh_world).2).2
                       ltac:(vm_compute; reflexivity)
                       ltac:(vm_compute; reflexivity))) as Hrun.
  rewrite Hrun. vm_compute. reflexivity.
Defined.

(** ** Early exits of the pipeline *)

Section EarlyExit.

Import Calendar CalendarFacts.

Variable P : Platform.

(** A [return] before the aggregation stage is the reply of the call. *)
Lemma generate_weekly_status_early_return a w r w' :
  before_aggregation P a w = (Return r, w') →
  _generate_weekly_status P a w = (Val r, w').
Proof.
  intros Hbefore.
  unfold _generate_weekly_status, call, generate_weekly_status_body, try_except,
    build_report.
  by rewrite (bind_return _ _ _ _ _ (bind_return _ _ _ _ _ Hbefore)).
Qed.

(** An exception before the aggregation stage is caught by the outer
    handler. *)
Lemma generate_weekly_status_early_raise a w ex w' :
  before_aggregation P a w = (Raise ex, w') →
  _generate_weekly_status P a w
  = (Val ("Error generating weekly status: " +:+ exn_msg ex),
     add_event (EvLog ERROR ("Error generating weekly status: " +:+ exn_msg ex)) w').
Proof.
  intros Hbefore.
  unfold _generate_weekly_status, call, generate_weekly_status_body, try_except,
    build_report.
  by rewrite (bind_raise _ _ _ _ _ (bind_raise _ _ _ _ _ Hbefore)).
Qed.

Lemma resolve_window_raise a w ex w' :
  get_week_range P (start_date a) (end_date a) w = (Raise ex, w') →
  resolve_window P a w
  = if decide (exn_cls ex = ValueError)
    then (Return ("Error: " +:+ exn_msg ex), w')
    else (Raise ex, w').
Proof.
  intros Hrange. unfold resolve_window, try_except_cls.
  rewrite (bind_raise _ _ _ _ _ Hrange). by case_decide.
Qed.

(** What [strptime] raises is a [ValueError]. *)
Lemma strptime_ymd_error s ex : strptime_ymd s = Err ex → exn_cls ex = ValueError.
Proof.
  unfold strptime_ymd.
  destruct (match_ymd s) as [[[[y m] d] rest]|]; [|by intros [= <-]].
  destruct rest; [|by intros [= <-]].
  destruct (y =? 0); [by intros [= <-]|].
  destruct (days_in_month y m <? d); [by intros [= <-] | discriminate].
Qed.

(** A start date that is not a Wednesday is refused before anything else
    is looked at: [get_week_range] raises a [ValueError] that names the
    day of the week the date falls on, and the tool replies with that
    message and leaves the world as it was. *)
Theorem start_not_wednesday_refused a w s dt :
  nonempty (start_date a) = Some s →
  strptime_ymd s = Ok dt →
  weekday dt ≠ WEDNESDAY →
  get_week_range P (start_date a) (end_date a) w
  = (Raise (Exn ValueError ("start_date must be a Wednesday. " +:+ s
                            +:+ " is a " +:+ strftime_A dt)), w)
  ∧ _generate_weekly_status P a w
    = (Val ("Error: start_date must be a Wednesday. " +:+ s
            +:+ " is a " +:+ strftime_A dt), w).
Proof.
  intros Hstart Hparse Hwd.
  assert (get_week_range P (start_date a) (end_date a) w
          = (Raise (Exn ValueError ("start_date must be a Wednesday. " +:+ s
                                    +:+ " is a " +:+ strftime_A dt)), w)) as Hrange.
  { unfold get_week_range. rewrite Hstart, Hparse.
    unfold mbind, M_bind, lift. simpl.
    destruct (weekday dt =? 2) eqn:E; [|reflexivity].
    apply Z.eqb_eq in E. done. }
  split; [exact Hrange|].
  apply generate_weekly_status_early_return.
  unfold before_aggregation. apply bind_return.
  by rewrite (resolve_window_raise _ _ _ _ Hrange).
Qed.

(** With both dates given, each is checked for its own weekday and
    nothing relates the two: any Wednesday and any Tuesday are accepted
    as a window, whatever the distance or the order between them. *)
Theorem both_dates_not_cross_checked s e ds de w :
  strptime_ymd s = Ok ds → weekday ds = WEDNESDAY →
  strptime_ymd e = Ok de → weekday de = TUESDAY →
  get_week_range P (Some s) (Some e) w
  = (Val (strftime_ymd ds, strftime_ymd de), w).
Proof.
  intros Hs Hws He Hwe. unfold get_week_range.
  rewrite (strptime_ymd_nonempty _ _ Hs), (strptime_ymd_nonempty _ _ He), Hs, He.
  unfold mbind, M_bind, lift. simpl. rewrite Hws, Hwe. reflexivity.
Qed.

(** An end date that is not a Tuesday is refused with a [ValueError]
    naming its weekday, once the start date has passed its own check. *)
Theorem end_not_tuesday_refused s e ds de w :
  strptime_ymd s = Ok ds → weekday ds = WEDNESDAY →
  strptime_ymd e = Ok de → weekday de ≠ TUESDAY →
  get_week_range P (Some s) (Some e) w
  = (Raise (Exn ValueError ("end_date must be a Tuesday. " +:+ e
                            +:+ " is a " +:+ strftime_A de)), w).
Proof.
  intros Hs Hws He Hwe. unfold get_week_range.
  rewrite (strptime_ymd_nonempty _ _ Hs), (strptime_ymd_nonempty _ _ He), Hs, He.
  unfold mbind, M_bind, lift. simpl. rewrite Hws. simpl.
  destruct (weekday de =? 1) eqn:E; [|reflexivity].
  apply Z.eqb_eq in E. done.
Qed.

(** A start date that does not parse makes the tool reply with the
    parser's message behind "Error: "; nothing is logged or written. *)
Theorem unparsable_start_reply a w s ex :
  nonempty (start_date a) = Some s →
  strptime_ymd s = Err ex →
  _generate_weekly_status P a w = (Val ("Error: " +:+ exn_msg ex), w).
Proof.
  intros Hstart Hparse.
  assert (get_week_range P (start_date a) (end_date a) w = (Raise ex, w)) as Hrange.
  { unfold get_week_range. rewrite Hstart, Hparse. reflexivity. }
  apply generate_weekly_status_early_return.
  unfold before_aggregation. apply bind_return.
  rewrite (resolve_window_raise _ _ _ _ Hrange).
  by rewrite decide_True by (by eapply strptime_ymd_error).
Qed.

(** A Wednesday in the first week of year 1 has no day a week before it:
    the subtraction raises [OverflowError], which is not the [ValueError]
    the window check handles, so the outer handler reports it. *)
Theorem first_week_start_overflows a w s dt :
  nonempty (start_date a) = Some s →
  nonempty (end_date a) = None →
  strptime_ymd s = Ok dt →
  weekday dt = WEDNESDAY →
  ordinal dt < MINORD + 7 →
  _generate_weekly_status P a w
  = (Val "Error generating weekly status: date value out of range",
     add_event (EvLog ERROR "Error generating weekly status: date value out of range") w).
Proof.
  intros Hstart Hend Hparse Hwd Hlow.
  assert (get_week_range P (start_date a) (end_date a) w
          = (Raise (Exn OverflowError "date value out of range"), w)) as Hrange.
  { unfold get_week_range. rewrite Hstart, Hend, Hparse.
    unfold mbind, M_bind, lift. simpl. rewrite Hwd. simpl.
    unfold sub_days. cbv zeta.
    destruct (_ && _) eqn:E; [unfold MINORD in *; lia | reflexivity]. }
  apply (generate_weekly_status_early_raise a w
           (Exn OverflowError "date value out of range") w).
  unfold before_aggregation. apply bind_raise.
  by rewrite (resolve_window_raise _ _ _ _ Hrange).
Qed.

End EarlyExit.


(** Thursday 2024-01-11 as the start. *)
Lemma start_not_wednesday_refused_witness :
  _generate_weekly_status Demo.healthy (Demo.args_for (Some "2024-01-11") None)
    Demo.fresh_world
  = (Val "Error: start_date must be a Wednesday. 2024-01-11 is a Thursday",
     Demo.fresh_world).
Proof.
  exact (proj2 (start_not_wednesday_refused Demo.healthy
                  (Demo.args_for (Some "2024-01-11") None) Demo.fresh_world
                  "2024-01-11" (Calendar.DateTime 738896 0 0 0) eq_refl eq_refl
                  ltac:(vm_compute; discriminate))).
Defined.

(** A Tuesday that lies after the start is accepted as the end. *)
Lemma both_dates_not_cross_checked_witness :
  get_week_range Demo.healthy (Some "2024-01-10") (Some "2024-02-06") Demo.fresh_world
  = (Val ("2024-01-10", "2024-02-06"), Demo.fresh_world).
Proof.
  exact (both_dates_not_cross_checked Demo.healthy "2024-01-10" "2024-02-06"
           (Calendar.DateTime 738895 0 0 0) (Calendar.DateTime 738922 0 0 0)
           Demo.fresh_world eq_refl eq_refl eq_refl eq_refl).
Defined.

(** The end that [get_week_range] itself computes for 2024-01-10 is
    refused when it is handed back as [end_date]. *)
Lemma end_not_tuesday_refused_witness :
  get_week_range Demo.healthy (Some "2024-01-10") (Some "2024-01-03") Demo.fresh_world
  = (Raise (Exn ValueError "end_date must be a Tuesday. 2024-01-03 is a Wednesday"),
     Demo.fresh_world).
Proof.
  exact (end_not_tuesday_refused Demo.healthy "2024-01-10" "2024-01-03"
           (Calendar.DateTime 738895 0 0 0) (Calendar.DateTime 738888 0 0 0)
           Demo.fresh_world eq_refl eq_refl eq_refl
           ltac:(vm_compute; discriminate)).
Defined.

(** A date written day first. *)
Lemma unparsable_start_reply_witness :
  _generate_weekly_status Demo.healthy (Demo.args_for (Some "10/01/2024") None)
    Demo.fresh_world
  = (Val "Error: time data '10/01/2024' does not match format '%Y-%m-%d'",
     Demo.fresh_world).
Proof.
  exact (unparsable_start_reply Demo.healthy
           (Demo.args_for (Some "10/01/2024") None) Demo.fresh_world "10/01/2024"
           (Exn ValueError "time data '10/01/2024' does not match format '%Y-%m-%d'")
           eq_refl eq_refl).
Defined.

(** The first Wednesday of the calendar. *)
Lemma first_week_start_overflows_witness :
  _generate_weekly_status Demo.healthy (Demo.args_for (Some "0001-01-03") None)
    Demo.fresh_world
  = (Val "Error generating weekly status: date value out of range",
     add_event (EvLog ERROR "Error generating weekly status: date value out of range")
       Demo.fresh_world).
Proof.
  exact (first_week_start_overflows Demo.healthy
           (Demo.args_for (Some "0001-01-03") None) Demo.fresh_world "0001-01-03"
           (Calendar.DateTime 3 0 0 0) eq_refl eq_refl eq_refl eq_refl
           ltac:(vm_compute; reflexivity)).
Defined.

(** ** The cache: reading, writing, and what is left alone *)

Section CacheMore.

Variable P : Platform.

Lemma save_report_val_dirs c s e w p w' :
  save_report P c s e w = (Val p, w') →
  p = report_path P s e ∧ reports_dir P ∈ dirs w'
  ∧ files w' = <[report_path P s e := c]> (files w).
Proof.
  unfold save_report, mbind, M_bind.
  destruct (get_report_path P s e w) as [[p0| |] w1] eqn:Hpath; try discriminate.
  destruct (get_report_path_val _ _ _ _ _ _ Hpath) as (-> & Hdir & _).
  pose proof (quiet_get_report_path P s e _ _ _ Hpath) as (Hfiles & _).
  unfold try_except.
  destruct (write_file P (report_path P s e) c w1) as [[[]| |] w2] eqn:Hwrite;
    try discriminate.
  destruct (write_file_val _ _ _ _ _ Hwrite) as (-> & _).
  intros [= <- <-]. simpl. by rewrite Hfiles.
Qed.

(** What [save_report] has written, [check_report_exists] reads back for
    the same window, as long as the file can be read: the text as a
    text-mode read gives it, every carriage return, with or without a
    line feed after it, read as a line feed.  A text without carriage
    returns comes back as it was saved. *)
Theorem save_then_check_round_trip c s e w p w' :
  save_report P c s e w = (Val p, w') →
  read_error P p = None →
  check_report_exists P s e w'
  = (Val (Some (PyStr.universal_newlines c)),
     add_event (EvLog INFO ("Found existing report: " +:+ p)) w')
  ∧ (PyStr.no_cr c = true → PyStr.universal_newlines c = c).
Proof.
  intros Hsave Hread.
  destruct (save_report_val_dirs _ _ _ _ _ _ Hsave) as (-> & Hdir & Hfiles).
  split; [|apply NewlineFacts.universal_newlines_no_cr].
  apply check_report_exists_hit; [done| |done].
  rewrite Hfiles. apply lookup_insert_eq.
Qed.

(** With the directory of the report file searchable, a window without a
    file is a miss, not an error, and a file that cannot be read is a
    miss with a warning in the log.  With the directory not searchable
    the existence test itself raises, outside the [try] block, and
    [check_report_exists] raises with it. *)
Theorem check_report_exists_miss s e w :
  reports_dir P ∈ dirs w →
  (unsearchable P (PyPath.parent (report_path P s e)) = false →
   files w !! report_path P s e = None → report_path P s e ∉ dirs w →
   check_report_exists P s e w = (Val None, w))
  ∧ (∀ c ex, unsearchable P (PyPath.parent (report_path P s e)) = false →
             files w !! report_path P s e = Some c →
             file_read_error P (report_path P s e) = Some ex →
             check_report_exists P s e w
             = (Val None,
                add_event (EvLog WARNING ("Failed to read existing report: "
                                          +:+ exn_msg ex)) w))
  ∧ (unsearchable P (PyPath.parent (report_path P s e)) = true →
     check_report_exists P s e w
     = (Raise (permission_denied (report_path P s e)), w)).
Proof.
  intros Hdir. split; [|split].
  - intros Hsearch Hnone Hnodir. unfold check_report_exists, mbind, M_bind.
    rewrite (get_report_path_ready P s e w Hdir).
    unfold Path_exists. rewrite Hsearch, Hnone.
    rewrite bool_decide_false by (by intros [? ?]).
    by rewrite bool_decide_false.
  - intros c ex Hsearch Hfile Hread. unfold check_report_exists, mbind, M_bind.
    rewrite (get_report_path_ready P s e w Hdir).
    unfold Path_exists. rewrite Hsearch, Hfile.
    rewrite bool_decide_true by eauto. simpl.
    unfold try_except, read_file, read_error. by rewrite Hfile, Hsearch, Hread.
  - intros Hsearch. unfold check_report_exists, mbind, M_bind.
    rewrite (get_report_path_ready P s e w Hdir).
    unfold Path_exists. by rewrite Hsearch.
Qed.

(** When the report cannot be written [save_report] logs the failure and
    raises the very exception it caught.  If it is [open] that fails,
    the file system is as it was.  If the write fails once the file is
    open, the report file is there afterwards, made or emptied by [open],
    and every other file is as it was.  The dates hold no path separator,
    as the dates of the pipeline never do. *)
Theorem save_report_reraises c s e w ex :
  reports_dir P ∈ dirs w →
  report_path P s e ∉ dirs w →
  no_sep s = true → no_sep e = true →
  (open_error P (report_path P s e) = Some ex →
   save_report P c s e w
   = (Raise ex, add_event (EvLog ERROR ("Failed to save report: " +:+ exn_msg ex)) w))
  ∧ (open_error P (report_path P s e) = None →
     write_error P (report_path P s e) = Some ex →
     ∃ w', save_report P c s e w = (Raise ex, w')
           ∧ trace w' = trace w ++ [EvLog ERROR ("Failed to save report: "
                                                 +:+ exn_msg ex)]
           ∧ is_Some (files w' !! report_path P s e)
           ∧ ∀ q, q ≠ report_path P s e → files w' !! q = files w !! q).
Proof.
  intros Hdir Hnodir Hs He.
  pose proof (parent_report_path P s e Hs He) as Hparent.
  assert (parent_exists (report_path P s e) w = true) as Hthere.
  { unfold parent_exists. rewrite Hparent, (bool_decide_true _ Hdir).
    by rewrite orb_true_r. }
  split.
  - intros Hopen. unfold save_report, mbind, M_bind.
    rewrite (get_report_path_ready P s e w Hdir).
    unfold try_except, write_file.
    rewrite bool_decide_false by done. by rewrite Hthere, Hopen.
  - intros Hopen Hwrite. eexists. split.
    + unfold save_report, mbind, M_bind.
      rewrite (get_report_path_ready P s e w Hdir).
      unfold try_except, write_file.
      rewrite bool_decide_false by done. by rewrite Hthere, Hopen, Hwrite.
    + cbn [trace files add_event set_files]. split; [done|]. split.
      * rewrite lookup_insert_eq. eauto.
      * intros q Hq. by rewrite lookup_insert_ne.
Qed.

(** Everything the call does before it prepares configuration files and
    calls the report generators (the window, the cache lookup, the
    configuration load, the credentials, the import) is read-only: however
    it ends, no file is written or removed, no temporary file is made, no
    report generator is called and the environment is untouched. *)
Theorem before_aggregation_read_only a w o w' :
  before_aggregation P a w = (o, w') →
  files w' = files w
  ∧ environ w' = environ w
  ∧ temp_names w' = temp_names w
  ∧ temp_files_made (trace w') = temp_files_made (trace w)
  ∧ collaborator_calls (trace w') = collaborator_calls (trace w).
Proof.
  intros Hrun. pose proof (quiet_before_aggregation P a _ _ _ Hrun) as Hq.
  split; [apply Hq|]. split; [apply Hq|]. split; [apply Hq|].
  split; [by apply quiet_temp_files_made | by apply quiet_collaborator_calls].
Qed.

End CacheMore.

(** A report saved for the window 2024-01-10 / 2024-01-03 is found. *)
Lemma save_then_check_round_trip_witness :
  check_report_exists Demo.healthy "2024-01-10" "2024-01-03"
    (save_report Demo.healthy "# Report" "2024-01-10" "2024-01-03" Demo.fresh_world).2
  = (Val (Some "# Report"),
     add_event (EvLog INFO ("Found existing report: " +:+ Demo.report_path))
       (save_report Demo.healthy "# Report" "2024-01-10" "2024-01-03"
          Demo.fresh_world).2).
Proof.
  refine (proj1 (save_then_check_round_trip Demo.healthy "# Report" "2024-01-10"
                   "2024-01-03" Demo.fresh_world Demo.report_path _ _ eq_refl)).
  vm_compute. reflexivity.
Defined.

(** A cached report that cannot be read is a miss with a warning. *)
Lemma check_report_exists_miss_witness :
  check_report_exists Demo.unreadable "2024-01-10" "2024-01-03"
    (Demo.ready_world {[Demo.report_path := "# Old report"]})
  = (Val None,
     add_event (EvLog WARNING "Failed to read existing report: [Errno 13] Permission denied")
       (Demo.ready_world {[Demo.report_path := "# Old report"]})).
Proof.
  refine (proj1 (proj2 (check_report_exists_miss Demo.unreadable "2024-01-10"
                          "2024-01-03"
                          (Demo.ready_world {[Demo.report_path := "# Old report"]}) _))
            "# Old report" (Exn OSError "[Errno 13] Permission denied")
            eq_refl eq_refl eq_refl).
  vm_compute. reflexivity.
Defined.

(** The [Reports] directory cannot be searched: the lookup of the cached
    report raises. *)
Lemma check_report_exists_unsearchable :
  check_report_exists Demo.locked_reports "2024-01-10" "2024-01-03"
    (Demo.ready_world {[Demo.report_path := "# Old report"]})
  = (Raise (Exn OSError
              ("[Errno 13] Permission denied: " +:+ PyStr.repr Demo.report_path)),
     Demo.ready_world {[Demo.report_path := "# Old report"]}).
Proof. vm_compute. reflexivity. Qed.

(** The disk is full when the report is written: the report of an
    earlier run is lost, the other file is kept. *)
Lemma save_report_reraises_witness :
  ∃ w', save_report Demo.disk_full "# Report" "2024-01-10" "2024-01-03"
          (Demo.ready_world {[Demo.report_path := "# Old report"]})
        = (Raise (Exn OSError "[Errno 28] No space left on device"), w')
        ∧ trace w'
          = trace (Demo.ready_world {[Demo.report_path := "# Old report"]})
            ++ [EvLog ERROR "Failed to save report: [Errno 28] No space left on device"]
        ∧ is_Some (files w' !! Demo.report_path)
        ∧ ∀ q, q ≠ Demo.report_path →
               files w' !! q
               = files (Demo.ready_world {[Demo.report_path := "# Old report"]}) !! q.
Proof.
  refine (proj2 (save_report_reraises Demo.disk_full "# Report" "2024-01-10"
                   "2024-01-03"
                   (Demo.ready_world {[Demo.report_path := "# Old report"]})
                   (Exn OSError "[Errno 28] No space left on device") _ _
                   eq_refl eq_refl)
            eq_refl eq_refl).
  - vm_compute. reflexivity.
  - intros Hin. vm_compute in Hin. discriminate Hin.
Defined.

(** What the failed write leaves of the earlier report: an empty file. *)
Lemma failed_save_empties_old_report :
  files (save_report Demo.disk_full "# Report" "2024-01-10" "2024-01-03"
           (Demo.ready_world {[Demo.report_path := "# Old report"]})).2
    !! Demo.report_path
  = Some EmptyString.
Proof. vm_compute. reflexivity. Qed.

(** A call that ends on the credential check has written nothing. *)
Lemma before_aggregation_read_only_witness :
  files (before_aggregation Demo.healthy (Demo.args None) (Demo.world ∅ ∅)).2
  = files (Demo.world ∅ ∅).
Proof.
  exact (proj1 (before_aggregation_read_only Demo.healthy (Demo.args None)
                  (Demo.world ∅ ∅) _ _ (surjective_pairing _))).
Defined.

(** ** Loading the configuration *)

Module ConfigFacts.

Lemma dict_mem_set_same k v d : dict_mem k (dict_set k v d) = true.
Proof. unfold dict_mem. by rewrite DictFacts.dict_get_set_eq. Qed.

Lemma dict_mem_set_keep k k' v d :
  dict_mem k' d = true → dict_mem k' (dict_set k v d) = true.
Proof.
  destruct (decide (k = k')) as [->|Hne]; [intros _; apply dict_mem_set_same|].
  unfold dict_mem. by rewrite DictFacts.dict_get_set_ne.
Qed.

Lemma dict_mem_keys k d : k ∈ dict_keys d → dict_mem k d = true.
Proof.
  unfold dict_mem. induction d as [|[k' v'] d IH]; simpl.
  - by intros ?%elem_of_nil.
  - intros [->|Hin]%elem_of_cons.
    + by rewrite String.eqb_refl.
    + destruct (String.eqb k k'); [done | by apply IH].
Qed.

(** [d.update(u)]: the keys of [u] take the values of [u], the other keys
    keep theirs. *)
Lemma dict_update_get u : ∀ d k,
  NoDup (dict_keys u) →
  dict_get k (dict_update d u)
  = match dict_get k u with
    | Some v => Some v
    | None => dict_get k d
    end.
Proof.
  unfold dict_update.
  induction u as [|[k0 v0] rest IH]; intros d k Hnodup; [reflexivity|].
  simpl in Hnodup. apply NoDup_cons in Hnodup as [Hfresh Hnodup].
  simpl. rewrite IH by done.
  destruct (String.eqb k k0) eqn:E.
  - apply String.eqb_eq in E as ->.
    rewrite (DictFacts.dict_get_absent k0 rest Hfresh).
    apply DictFacts.dict_get_set_eq.
  - apply String.eqb_neq in E.
    by rewrite DictFacts.dict_get_set_ne.
Qed.

End ConfigFacts.

Section LoadConfig.

Variable P : Platform.

Lemma load_config_with_overrides_unfold ov w :
  load_config_with_overrides P ov w
  = (load_config_files P ≫= λ config,
       match ov with
       | Some (item :: items) =>
           config ← apply_overrides P (item :: items) config;
           log INFO ("Applied config overrides: "
                     +:+ PyStr.repr_list (dict_keys (item :: items)));;
           mret config
       | _ => mret config
       end) w.
Proof.
  unfold load_config_with_overrides, load_config_files, mbind, M_bind. cbv zeta.
  destruct (load_one P "Jira" "jira" _ _ w) as [[c1| |] w1]; try reflexivity.
  destruct (load_one P "GitHub" "github" _ c1 w1) as [[c2| |] w2]; reflexivity.
Qed.

(** What [load_one] can return: the configuration as it was, or with the
    one section replaced. *)
Lemma load_one_val label key path config w config' w' :
  load_one P label key path config w = (Val config', w') →
  config' = config ∨ ∃ v, config' = dict_set key v config.
Proof.
  unfold load_one, Path_exists, mbind, M_bind.
  destruct (unsearchable P _); [discriminate|].
  destruct (_ || _); [|intros [= <- <-]; by left].
  unfold try_except, read_file.
  destruct (files w !! path) as [text|]; [|intros [= <- <-]; by left].
  destruct (read_error P path); [intros [= <- <-]; by left|].
  unfold lift. destruct (yaml_safe_load P text); intros [= <- <-]; [right | left]; eauto.
Qed.

Lemma load_one_keeps label key path config w config' w' k :
  load_one P label key path config w = (Val config', w') →
  dict_mem k config = true → dict_mem k config' = true.
Proof.
  intros [->|[v ->]]%load_one_val; [done|]. apply ConfigFacts.dict_mem_set_keep.
Qed.

Lemma load_config_files_sections w config w' :
  load_config_files P w = (Val config, w') →
  dict_mem "jira" config = true ∧ dict_mem "github" config = true
  ∧ dict_mem "team" config = true.
Proof.
  unfold load_config_files, mbind, M_bind. cbv zeta.
  destruct (load_one P "Jira" "jira" _ _ w) as [[c1| |] w1] eqn:H1; try discriminate.
  destruct (load_one P "GitHub" "github" _ c1 w1) as [[c2| |] w2] eqn:H2;
    try discriminate.
  intros H3.
  repeat split;
    (eapply load_one_keeps; [exact H3|]);
    (eapply load_one_keeps; [exact H2|]);
    (eapply load_one_keeps; [exact H1|]); reflexivity.
Qed.

Lemma apply_overrides_keeps items : ∀ config w cfg w',
  apply_overrides P items config w = (Val cfg, w') →
  (∀ k, dict_mem k config = true → dict_mem k cfg = true)
  ∧ (∀ k, k ∈ dict_keys items → dict_mem k cfg = true).
Proof.
  induction items as [|[key value] rest IH]; intros config w cfg w'; simpl.
  - intros [= <- <-]. split; [done|]. by intros k ?%elem_of_nil.
  - unfold mbind, M_bind.
    destruct (dict_get key config) as [base|] eqn:Hbase.
    + unfold lift. destruct (py_update P base value) as [updated|ex]; [|discriminate].
      simpl. intros Hrest. destruct (IH _ _ _ _ Hrest) as [Hkeep Hnew].
      split.
      * intros k Hk. apply Hkeep. by apply ConfigFacts.dict_mem_set_keep.
      * intros k [->|Hin]%elem_of_cons; [|by apply Hnew].
        apply Hkeep, ConfigFacts.dict_mem_set_same.
    + simpl. intros Hrest. destruct (IH _ _ _ _ Hrest) as [Hkeep Hnew].
      split.
      * intros k Hk. apply Hkeep. by apply ConfigFacts.dict_mem_set_keep.
      * intros k [->|Hin]%elem_of_cons; [|by apply Hnew].
        apply Hkeep, ConfigFacts.dict_mem_set_same.
Qed.

(** Whatever the files and the overrides, a configuration that
    [load_config_with_overrides] returns has the three sections [jira],
    [github] and [team], and every key the overrides name. *)
Theorem load_config_sections ov w cfg w' :
  load_config_with_overrides P ov w = (Val cfg, w') →
  dict_mem "jira" cfg = true ∧ dict_mem "github" cfg = true
  ∧ dict_mem "team" cfg = true
  ∧ ∀ k, k ∈ dict_keys (default [] ov) → dict_mem k cfg = true.
Proof.
  rewrite load_config_with_overrides_unfold. unfold mbind at 1. unfold M_bind at 1.
  destruct (load_config_files P w) as [[config| |] w0] eqn:Hfiles; try discriminate.
  destruct (load_config_files_sections _ _ _ Hfiles) as (Hj & Hg & Ht).
  destruct ov as [[|item items]|].
  - intros [= <- <-]. repeat split; try done. by intros k ?%elem_of_nil.
  - unfold mbind, M_bind.
    destruct (apply_overrides P (item :: items) config w0) as [[c1| |] w1] eqn:Happly;
      try discriminate.
    intros [= <- <-]. destruct (apply_overrides_keeps _ _ _ _ _ Happly) as [Hkeep Hnew].
    repeat split; auto.
  - intros [= <- <-]. repeat split; try done. by intros k ?%elem_of_nil.
Qed.

(** The override of a section is laid over it one level deep only: each
    top-level key of the override replaces the loaded value whole, a
    nested mapping included, and the other keys and the other sections
    stay as loaded. *)
Theorem load_config_override_is_shallow key u base d w w0 :
  load_config_files P w = (Val base, w0) →
  dict_get key base = Some (VDict d) →
  NoDup (dict_keys u) →
  ∃ cfg d',
    load_config_with_overrides P (Some [(key, VDict u)]) w
    = (Val cfg,
       add_event (EvLog INFO ("Applied config overrides: " +:+ PyStr.repr_list [key])) w0)
    ∧ dict_get key cfg = Some (VDict d')
    ∧ (∀ k, dict_get k d' = match dict_get k u with
                            | Some v => Some v
                            | None => dict_get k d
                            end)
    ∧ ∀ k', k' ≠ key → dict_get k' cfg = dict_get k' base.
Proof.
  intros Hfiles Hbase Hnodup.
  exists (dict_set key (VDict (dict_update d u)) base), (dict_update d u).
  split; [|split; [|split]].
  - rewrite load_config_with_overrides_unfold.
    rewrite (bind_val _ _ _ _ _ Hfiles).
    unfold apply_overrides, mbind, M_bind. rewrite Hbase. reflexivity.
  - apply DictFacts.dict_get_set_eq.
  - intros k. by apply ConfigFacts.dict_update_get.
  - intros k' Hne. by apply DictFacts.dict_get_set_ne.
Qed.

(** An override for a loaded section that is [None], a boolean or a
    number cannot be laid over it: [load_config_with_overrides] raises a
    [TypeError], or an [AttributeError] when the section itself is not a
    mapping. *)
Theorem load_config_scalar_override_raises key v base b w w0 :
  load_config_files P w = (Val base, w0) →
  dict_get key base = Some b →
  match v with VNone | VBool _ | VInt _ => True | _ => False end →
  ∃ ex, load_config_with_overrides P (Some [(key, v)]) w = (Raise ex, w0)
        ∧ (exn_cls ex = TypeError ∨ exn_cls ex = AttributeError).
Proof.
  intros Hfiles Hbase Hv.
  rewrite load_config_with_overrides_unfold.
  rewrite (bind_val _ _ _ _ _ Hfiles).
  unfold apply_overrides, mbind, M_bind. rewrite Hbase.
  destruct b, v; try done; simpl; eexists; (split; [reflexivity|]); simpl; auto.
Qed.

Lemma load_one_parse_error label key path config text ex w :
  files w !! path = Some text →
  read_error P path = None →
  yaml_safe_load P text = Err ex →
  load_one P label key path config w
  = (Val config,
     add_event (EvLog WARNING ("Failed to load " +:+ label +:+ " config: "
                               +:+ exn_msg ex)) w).
Proof.
  intros Hfile Hread Hyaml.
  unfold load_one, Path_exists, mbind, M_bind.
  rewrite (read_error_searchable P _ Hread), Hfile.
  rewrite bool_decide_true by eauto.
  unfold try_except, read_file, orb. rewrite Hfile, Hread.
  unfold lift. rewrite Hyaml. reflexivity.
Qed.

Lemma load_one_absent label key path config w :
  unsearchable P (PyPath.parent path) = false →
  files w !! path = None → path ∉ dirs w →
  load_one P label key path config w = (Val config, w).
Proof.
  intros Hsearch Hfile Hdir. unfold load_one, Path_exists, mbind, M_bind.
  rewrite Hsearch, Hfile. rewrite bool_decide_false by (by intros [? ?]).
  by rewrite bool_decide_false.
Qed.

(** A configuration file that is there but is not YAML costs only its
    section: the section stays empty, a warning is logged, and the load
    returns. *)
Theorem config_load_failure_degrades text ex w :
  files w !! "config/jira_config.yaml" = Some text →
  read_error P "config/jira_config.yaml" = None →
  yaml_safe_load P text = Err ex →
  files w !! "config/github_config.yaml" = None →
  "config/github_config.yaml" ∉ dirs w →
  files w !! "config/team_config.yaml" = None →
  "config/team_config.yaml" ∉ dirs w →
  load_config_with_overrides P None w
  = (Val [("jira", VDict []); ("github", VDict []); ("team", VDict [])],
     add_event (EvLog WARNING ("Failed to load Jira config: " +:+ exn_msg ex)) w).
Proof.
  intros Hjira Hread Hyaml Hgh Hghd Hteam Hteamd.
  pose proof (read_error_searchable P _ Hread) as Hsearch.
  rewrite load_config_with_overrides_unfold. unfold load_config_files. cbv zeta.
  change (PyPath.join "config" "jira_config.yaml") with "config/jira_config.yaml".
  change (PyPath.join "config" "github_config.yaml") with "config/github_config.yaml".
  change (PyPath.join "config" "team_config.yaml") with "config/team_config.yaml".
  erewrite bind_val; [reflexivity|].
  erewrite bind_val; [|by eapply load_one_parse_error].
  erewrite bind_val; [|by apply load_one_absent].
  by apply load_one_absent.
Qed.

End LoadConfig.

(** The three sections and an overriding key of the caller's own. *)
Lemma load_config_sections_witness :
  dict_mem "jira"
    (outcome_value []
       (load_config_with_overrides Demo.healthy (Some [("reports", VInt 1)])
          Demo.fresh_world).1) = true
  ∧ dict_mem "reports"
      (outcome_value []
         (load_config_with_overrides Demo.healthy (Some [("reports", VInt 1)])
            Demo.fresh_world).1) = true.
Proof.
  pose proof (load_config_sections Demo.healthy (Some [("reports", VInt 1)])
                Demo.fresh_world
                (outcome_value []
                   (load_config_with_overrides Demo.healthy (Some [("reports", VInt 1)])
                      Demo.fresh_world).1)
                (load_config_with_overrides Demo.healthy (Some [("reports", VInt 1)])
                   Demo.fresh_world).2
                ltac:(vm_compute; reflexivity)) as (Hjira & _ & _ & Hkeys).
  split; [exact Hjira|]. apply Hkeys. apply list_elem_of_singleton. reflexivity.
Defined.

(** The nested default [key2] and its sibling [level2] are lost when the
    override names [nested]: the section is replaced one level deep. *)
Lemma load_config_override_is_shallow_witness :
  ∃ cfg d',
    load_config_with_overrides Demo.with_test_defaults
      (Some [("jira", VDict [("nested", VDict [("level1", VStr "flat")])])])
      Demo.configured_world
    = (Val cfg,
       add_event (EvLog INFO ("Applied config overrides: " +:+ PyStr.repr_list ["jira"]))
         (load_config_files Demo.with_test_defaults Demo.configured_world).2)
    ∧ dict_get "jira" cfg = Some (VDict d')
    ∧ (∀ k, dict_get k d'
            = match dict_get k [("nested", VDict [("level1", VStr "flat")])] with
              | Some v => Some v
              | None => dict_get k Demo.test_defaults
              end)
    ∧ ∀ k', k' ≠ "jira" →
            dict_get k' cfg
            = dict_get k'
                (outcome_value []
                   (load_config_files Demo.with_test_defaults Demo.configured_world).1).
Proof.
  refine (load_config_override_is_shallow Demo.with_test_defaults "jira"
            [("nested", VDict [("level1", VStr "flat")])]
            (outcome_value []
               (load_config_files Demo.with_test_defaults Demo.configured_world).1)
            Demo.test_defaults Demo.configured_world
            (load_config_files Demo.with_test_defaults Demo.configured_world).2
            _ _ _).
  - vm_compute. reflexivity.
  - vm_compute. reflexivity.
  - apply NoDup_singleton.
Defined.

(** [null] given as the Jira override. *)
Lemma load_config_scalar_override_raises_witness :
  ∃ ex, load_config_with_overrides Demo.healthy (Some [("jira", VNone)]) Demo.fresh_world
        = (Raise ex, (load_config_files Demo.healthy Demo.fresh_world).2)
        ∧ (exn_cls ex = TypeError ∨ exn_cls ex = AttributeError).
Proof.
  refine (load_config_scalar_override_raises Demo.healthy "jira" VNone
            (outcome_value [] (load_config_files Demo.healthy Demo.fresh_world).1)
            (VDict []) Demo.fresh_world
            (load_config_files Demo.healthy Demo.fresh_world).2 _ _ I).
  - vm_compute. reflexivity.
  - vm_compute. reflexivity.
Defined.

(** A Jira configuration file that is not YAML. *)
Lemma config_load_failure_degrades_witness :
  load_config_with_overrides Demo.broken_yaml None Demo.configured_world
  = (Val [("jira", VDict []); ("github", VDict []); ("team", VDict [])],
     add_event (EvLog WARNING "Failed to load Jira config: mapping values are not allowed here")
       Demo.configured_world).
Proof.
  refine (config_load_failure_degrades Demo.broken_yaml "nested: ..."
            (Exn ValueError "mapping values are not allowed here")
            Demo.configured_world _ eq_refl eq_refl _ _ _ _).
  - vm_compute. reflexivity.
  - vm_compute. reflexivity.
  - intros Hin. vm_compute in Hin. discriminate Hin.
  - vm_compute. reflexivity.
  - intros Hin. vm_compute in Hin. discriminate Hin.
Defined.

(** ** Temporary configuration files *)

Global Instance keeps_cleanup_preorder : PreOrder keeps_cleanup.
Proof.
  split.
  - by intros w.
  - intros w1 w2 w3 H1 H2. unfold keeps_cleanup in *. congruence.
Qed.

Section TempFiles.

Variable P : Platform.

Lemma mkstemp_search_val suffix pre names : ∀ w p w',
  mkstemp_search P suffix pre names w = (Val p, w') →
  ∃ name rest,
    name ∈ names
    ∧ p = tempdir P +:+ "/" +:+ pre +:+ name +:+ suffix
    ∧ files w !! p = None ∧ (p ∉ dirs w)
    ∧ w' = add_event (EvMkstemp p)
             (set_files (insert p EmptyString) (set_temp_names rest w)).
Proof.
  induction names as [|name rest IH]; intros w p w'; simpl.
  - discriminate.
  - destruct (bool_decide _ || bool_decide _) eqn:E.
    + intros H. destruct (IH _ _ _ H) as (n & r & Hin & Hp & Hf & Hd & Hw).
      exists n, r. split; [apply elem_of_cons; by right|]. done.
    + intros [= <- <-]. apply orb_false_elim in E as [E1 E2].
      apply bool_decide_eq_false in E1, E2.
      exists name, rest. split; [apply elem_of_cons; by left|].
      repeat split; try done. by apply eq_None_not_Some.
Qed.

Lemma mkstemp_search_no_return suffix pre names : ∀ w r w',
  mkstemp_search P suffix pre names w ≠ (Return r, w').
Proof.
  induction names as [|name rest IH]; intros w r w'; simpl.
  - discriminate.
  - destruct (bool_decide _ || bool_decide _); [apply IH | discriminate].
Qed.

Lemma mkstemp_search_raise suffix pre names : ∀ w ex w',
  mkstemp_search P suffix pre names w = (Raise ex, w') →
  files w' = files w ∧ temp_files_to_cleanup w' = temp_files_to_cleanup w
  ∧ trace w' = trace w.
Proof.
  induction names as [|name rest IH]; intros w ex w'; simpl.
  - by intros [= <- <-].
  - destruct (bool_decide _ || bool_decide _); [apply IH | discriminate].
Qed.

(** A temporary configuration file never replaces a file that is there:
    the path [create_temp_config_file] returns named nothing before the
    call, lies in the temporary directory under the given prefix with the
    suffix [.yaml], and holds the YAML text of the configuration; every
    other file is as it was. *)
Theorem create_temp_config_file_fresh config_dict pre w p w' :
  create_temp_config_file P config_dict pre w = (Val p, w') →
  files w !! p = None ∧ (p ∉ dirs w)
  ∧ files w' = <[p := yaml_dump P config_dict]> (files w)
  ∧ dirs w' = dirs w
  ∧ trace w' = trace w ++ [EvMkstemp p;
                           EvLog INFO ("Created temporary config file: " +:+ p)]
  ∧ ∃ name, name ∈ temp_names w
            ∧ p = tempdir P +:+ "/" +:+ pre +:+ name +:+ ".yaml".
Proof.
  unfold create_temp_config_file, try_except, mbind, M_bind, mkstemp.
  destruct (mkstemp_search P ".yaml" pre (temp_names w) w) as [[p0|r|ex] w1] eqn:Hmk.
  - destruct (mkstemp_search_val _ _ _ _ _ _ Hmk)
      as (name & rest & Hin & -> & Hf & Hd & ->).
    unfold write_fd.
    destruct (write_error P _) as [ex|]; [discriminate|].
    intros [= <- <-]. cbn.
    repeat split; try done.
    + by rewrite insert_insert_eq.
    + by rewrite <- app_assoc.
    + eauto.
  - discriminate.
  - discriminate.
Qed.


(** One round of the cleanup loop. *)
Lemma cleanup_one_spec f w :
  ∃ w', cleanup_one P f w = (Val (), w')
    ∧ environ w' = environ w ∧ dirs w' = dirs w
    ∧ temp_files_to_cleanup w' = temp_files_to_cleanup w
    ∧ (∀ q, q ≠ f → files w' !! q = files w !! q)
    ∧ (∀ q, files w !! q = None → files w' !! q = None)
    ∧ (files w' !! f = None ∨ ∃ msg, cleanup_warning f msg ∈ trace w')
    ∧ ∃ t, trace w' = trace w ++ t
           ∧ collaborator_calls t = [] ∧ temp_files_made t = [].
Proof.
  unfold cleanup_one, try_except, mbind, M_bind, path_exists.
  destruct (files w !! f) as [c|] eqn:Hf.
  - rewrite bool_decide_true by eauto. cbn [orb]. unfold unlink. rewrite Hf.
    destruct (unlink_error P f) as [ex|].
    + eexists. split; [reflexivity|]. cbn. repeat split; try done.
      * right. exists (exn_msg ex). apply elem_of_app. right.
        by apply list_elem_of_singleton.
      * by eexists [_].
    + eexists. split; [reflexivity|]. cbn. repeat split; try done.
      * intros q Hq. by apply lookup_delete_ne.
      * intros q Hq. destruct (decide (q = f)) as [->|Hne];
          [apply lookup_delete_eq | by rewrite lookup_delete_ne].
      * left. apply lookup_delete_eq.
      * exists [EvUnlink f; EvLog INFO ("Cleaned up temp config file: " +:+ f)].
        split; [by rewrite <- app_assoc | done].
  - rewrite bool_decide_false by (by intros [? ?]). cbn [orb].
    destruct (bool_decide (f ∈ dirs w)).
    + unfold unlink. rewrite Hf.
      eexists. split; [reflexivity|]. cbn. repeat split; try done.
      * by left.
      * by eexists [_].
    + exists w. repeat split; try done; [by left|].
      exists []. by rewrite app_nil_r.
Qed.

(** The cleanup loop over a list of files. *)
Lemma cleanup_loop_spec l : ∀ w,
  ∃ w', for_each l (cleanup_one P) w = (Val (), w')
    ∧ environ w' = environ w ∧ dirs w' = dirs w
    ∧ temp_files_to_cleanup w' = temp_files_to_cleanup w
    ∧ (∀ q, q ∉ l → files w' !! q = files w !! q)
    ∧ (∀ q, files w !! q = None → files w' !! q = None)
    ∧ (∀ f, f ∈ l → files w' !! f = None ∨ ∃ msg, cleanup_warning f msg ∈ trace w')
    ∧ ∃ t, trace w' = trace w ++ t
           ∧ collaborator_calls t = [] ∧ temp_files_made t = [].
Proof.
  induction l as [|x l IH]; intros w.
  - exists w. repeat split; try done.
    + by intros f ?%elem_of_nil.
    + exists []. by rewrite app_nil_r.
  - destruct (cleanup_one_spec x w)
      as (w1 & Hrun1 & He1 & Hd1 & Hc1 & Hfr1 & Hmono1 & Hx & t1 & Ht1 & Hcc1 & Htm1).
    destruct (IH w1)
      as (w' & Hrun & He & Hd & Hc & Hfr & Hmono & Hl & t & Ht & Hcc & Htm).
    exists w'. split.
    { cbn [for_each]. by rewrite (bind_val _ _ _ _ _ Hrun1). }
    repeat split; try congruence.
    + intros q Hq. apply not_elem_of_cons in Hq as [Hne Hq].
      by rewrite Hfr, Hfr1.
    + intros q Hq. by apply Hmono, Hmono1.
    + intros f [->|Hin]%elem_of_cons; [|by apply Hl].
      destruct Hx as [Hgone|[msg Hmsg]]; [left; by apply Hmono|].
      right. exists msg. rewrite Ht. apply elem_of_app. by left.
    + exists (t1 ++ t). split; [by rewrite Ht, Ht1, app_assoc|].
      unfold collaborator_calls, temp_files_made in *.
      by rewrite !filter_app, Hcc1, Hcc, Htm1, Htm.
Qed.

(** The [finally] block of the aggregation never fails: it returns
    whatever the file system does, and for each file on the list either
    the file is gone afterwards or a warning naming it has been logged.
    No other file is touched, and a file that was not there is not
    made. *)
Theorem cleanup_removes_or_warns w :
  ∃ w', cleanup_temp_files P w = (Val (), w')
    ∧ (∀ f, f ∈ temp_files_to_cleanup w →
            files w' !! f = None ∨ ∃ msg, cleanup_warning f msg ∈ trace w')
    ∧ (∀ q, q ∉ temp_files_to_cleanup w → files w' !! q = files w !! q)
    ∧ (∀ q, files w !! q = None → files w' !! q = None)
    ∧ dirs w' = dirs w ∧ environ w' = environ w
    ∧ collaborator_calls (trace w') = collaborator_calls (trace w).
Proof.
  unfold cleanup_temp_files.
  destruct (cleanup_loop_spec (temp_files_to_cleanup w) w)
    as (w' & Hrun & He & Hd & Hc & Hfr & Hmono & Hl & t & Ht & Hcc & Htm).
  exists w'. repeat split; try done.
  rewrite Ht. unfold collaborator_calls in *. by rewrite filter_app, Hcc, app_nil_r.
Qed.

End TempFiles.

(** ** What leaves the cleanup list alone *)

Section KeepsCleanup.

Variable P : Platform.

Lemma keeps_cleanup_log lvl msg : respects keeps_cleanup (log lvl msg).
Proof. by intros w o w' [= <- <-]. Qed.

Lemma keeps_cleanup_path_exists p : respects keeps_cleanup (path_exists p).
Proof. by intros w o w' [= <- <-]. Qed.

Lemma keeps_cleanup_read_file p : respects keeps_cleanup (read_file P p).
Proof.
  intros w o w'. unfold read_file.
  destruct (files w !! p); [destruct (read_error P p)|]; by intros [= <- <-].
Qed.

Hint Resolve keeps_cleanup_log keeps_cleanup_path_exists keeps_cleanup_read_file
  quiet_log quiet_path_exists quiet_read_file : respects.

Lemma keeps_cleanup_merge ov path key :
  respects keeps_cleanup (merge_config_with_defaults P ov path key).
Proof. unfold merge_config_with_defaults, load_defaults. respects_auto. Qed.

Lemma quiet_merge_config_with_defaults ov path key :
  respects quiet (merge_config_with_defaults P ov path key).
Proof. unfold merge_config_with_defaults, load_defaults. respects_auto. Qed.

End KeepsCleanup.

(** ** The aggregation stage *)

Section Aggregate.

Variable P : Platform.

Lemma generate_jira_unfold cf js je jt s e w :
  generate_jira P cf js je jt s e w
  = (Val (section_text jira_error_marker (WeeklyJiraSummary P (files w) cf js je jt s e)),
     add_event (generated_log "Jira" (WeeklyJiraSummary P (files w) cf js je jt s e))
       (add_event (EvJira cf js je jt s e)
          (add_event (EvLog INFO ("Generating Jira weekly report using config: " +:+ cf))
             w))).
Proof.
  unfold generate_jira, try_except, call_jira, mbind, M_bind, log.
  cbn [files add_event].
  destruct (WeeklyJiraSummary P (files w) cf js je jt s e); reflexivity.
Qed.

Lemma generate_github_unfold cf gt s e w :
  generate_github P cf gt s e w
  = (Val (section_text github_error_marker (WeeklyGitHubSummary P (files w) cf gt s e)),
     add_event (generated_log "GitHub" (WeeklyGitHubSummary P (files w) cf gt s e))
       (add_event (EvGitHub cf gt s e)
          (add_event (EvLog INFO ("Generating GitHub weekly report using config: " +:+ cf))
             w))).
Proof.
  unfold generate_github, try_except, call_github, mbind, M_bind, log.
  cbn [files add_event].
  destruct (WeeklyGitHubSummary P (files w) cf gt s e); reflexivity.
Qed.

Lemma aggregate_unfold a js je jt gt s e w :
  aggregate P a js je jt gt s e w
  = try_finally
      ('(cj, cg) ← prepare_configs P a (jira_config_path P) (github_config_path P);
       jira_report ← generate_jira P cj js je jt s e;
       github_report ← generate_github P cg gt s e;
       mret (jira_report, github_report))
      (cleanup_temp_files P) (set_cleanup [] w).
Proof. reflexivity. Qed.

(** The two report generators once the configuration files are settled. *)
Lemma generators_run cj cg js je jt gt s e w1 :
  (jira_report ← generate_jira P cj js je jt s e;
   github_report ← generate_github P cg gt s e;
   mret (jira_report, github_report)) w1
  = (Val (section_text jira_error_marker (WeeklyJiraSummary P (files w1) cj js je jt s e),
          section_text github_error_marker (WeeklyGitHubSummary P (files w1) cg gt s e)),
     add_event (generated_log "GitHub" (WeeklyGitHubSummary P (files w1) cg gt s e))
       (add_event (EvGitHub cg gt s e)
          (add_event (EvLog INFO ("Generating GitHub weekly report using config: " +:+ cg))
             (add_event (generated_log "Jira" (WeeklyJiraSummary P (files w1) cj js je jt s e))
                (add_event (EvJira cj js je jt s e)
                   (add_event (EvLog INFO ("Generating Jira weekly report using config: "
                                           +:+ cj)) w1)))))).
Proof.
  rewrite (bind_val _ _ _ _ _ (generate_jira_unfold cj js je jt s e w1)).
  rewrite (bind_val _ _ _ _ _ (generate_github_unfold cg gt s e _)).
  reflexivity.
Qed.

Lemma generated_log_is_log label r : is_log (generated_log label r) = true.
Proof. by destruct r. Qed.

(** A failure of one report generator stays in its section.  Once the
    configuration files are settled both generators are called, Jira
    first and GitHub whatever Jira did, each exactly once and on the same
    files; a generator that raises gives its error marker as the text of
    its section and the other section is the other generator's text; the
    stage returns, and afterwards every temporary file on the cleanup list
    is gone or has a warning in the log. *)
Theorem aggregate_isolates_failures a js je jt gt s e w cj cg w1 :
  prepare_configs P a (jira_config_path P) (github_config_path P) (set_cleanup [] w)
  = (Val (cj, cg), w1) →
  ∃ w',
    aggregate P a js je jt gt s e w
    = (Val (section_text jira_error_marker
              (WeeklyJiraSummary P (files w1) cj js je jt s e),
            section_text github_error_marker
              (WeeklyGitHubSummary P (files w1) cg gt s e)), w')
    ∧ collaborator_calls (trace w')
      = collaborator_calls (trace w1) ++ [EvJira cj js je jt s e; EvGitHub cg gt s e]
    ∧ (∀ f, f ∈ temp_files_to_cleanup w1 →
            files w' !! f = None ∨ ∃ msg, cleanup_warning f msg ∈ trace w')
    ∧ (∀ q, q ∉ temp_files_to_cleanup w1 → files w' !! q = files w1 !! q).
Proof.
  intros Hprep. rewrite aggregate_unfold. unfold try_finally.
  rewrite (bind_val _ _ _ _ _ Hprep). cbv beta iota.
  rewrite generators_run.
  set (rj := WeeklyJiraSummary P (files w1) cj js je jt s e).
  set (rg := WeeklyGitHubSummary P (files w1) cg gt s e).
  match goal with
  | |- context [cleanup_temp_files P ?w3] =>
      destruct (cleanup_loop_spec P (temp_files_to_cleanup w3) w3)
        as (w' & Hrun & He & Hd & Hc & Hfr & Hmono & Hl & t & Ht & Hcc & Htm)
  end.
  unfold cleanup_temp_files. rewrite Hrun.
  exists w'. split; [reflexivity|]. split; [|split].
  - rewrite Ht. cbn [trace add_event]. unfold collaborator_calls in *.
    rewrite !filter_app, Hcc, app_nil_r.
    destruct rj, rg; cbn; rewrite <- ?app_assoc; reflexivity.
  - exact Hl.
  - exact Hfr.
Qed.

(** Without overrides the aggregation stage makes no temporary file and
    changes no file: both generators get the default configuration paths
    beside the server, Jira is called first and GitHub next, once each,
    whatever the first call did, and the stage returns the two section
    texts. *)
Theorem aggregate_without_overrides a js je jt gt s e w :
  default [] (config_overrides a) = [] →
  let rj := WeeklyJiraSummary P (files w) (jira_config_path P) js je jt s e in
  let rg := WeeklyGitHubSummary P (files w) (github_config_path P) gt s e in
  ∃ w',
    aggregate P a js je jt gt s e w
    = (Val (section_text jira_error_marker rj, section_text github_error_marker rg), w')
    ∧ files w' = files w
    ∧ trace w'
      = trace w
        ++ [EvLog INFO ("Generating Jira weekly report using config: "
                        +:+ jira_config_path P);
            EvJira (jira_config_path P) js je jt s e;
            generated_log "Jira" rj;
            EvLog INFO ("Generating GitHub weekly report using config: "
                        +:+ github_config_path P);
            EvGitHub (github_config_path P) gt s e;
            generated_log "GitHub" rg].
Proof.
  intros Hov rj rg.
  assert (prepare_configs P a (jira_config_path P) (github_config_path P)
            (set_cleanup [] w)
          = (Val (jira_config_path P, github_config_path P), set_cleanup [] w)) as Hprep.
  { unfold prepare_configs. by destruct (config_overrides a) as [[|item items]|]. }
  rewrite aggregate_unfold. unfold try_finally.
  rewrite (bind_val _ _ _ _ _ Hprep). cbv beta iota.
  rewrite generators_run. cbn [files set_cleanup]. fold rj rg.
  unfold cleanup_temp_files. cbn [temp_files_to_cleanup add_event set_cleanup for_each].
  eexists. split; [reflexivity|]. split; [reflexivity|].
  cbn [trace add_event set_cleanup]. by rewrite <- !app_assoc.
Qed.

(** A temporary configuration file whose contents cannot be written is
    left behind.  [mkstemp] has made the file when the write fails;
    [create_temp_config_file] logs and re-raises, so the path never
    reaches the cleanup list and the [finally] block has nothing to
    remove: the stage raises the write error, no report generator has
    been called, and the empty file stays in the temporary directory. *)
Theorem failed_temp_write_leaves_file a js je jt gt s e w merged w1 p w2 ex :
  default [] (config_overrides a) ≠ [] →
  merge_config_with_defaults P (config_overrides a) (jira_config_path P) "jira"
    (set_cleanup [] w) = (Val merged, w1) →
  truthy merged = true →
  mkstemp P ".yaml" "jira_mcp_" w1 = (Val p, w2) →
  write_error P p = Some ex →
  aggregate P a js je jt gt s e w
  = (Raise ex,
     add_event (EvLog ERROR ("Failed to create temp config file: " +:+ exn_msg ex)) w2)
  ∧ files w !! p = None
  ∧ files w2 = <[p := EmptyString]> (files w)
  ∧ temp_files_to_cleanup w2 = []
  ∧ collaborator_calls (trace w2) = collaborator_calls (trace w).
Proof.
  intros Hov Hmerge Htruthy Hmk Hwrite.
  pose proof (quiet_merge_config_with_defaults P _ _ _ _ _ _ Hmerge) as Hq.
  pose proof (keeps_cleanup_merge P _ _ _ _ _ _ Hmerge) as Hk.
  unfold keeps_cleanup in Hk. cbn [temp_files_to_cleanup set_cleanup] in Hk.
  destruct (mkstemp_search_val P _ _ _ _ _ _ Hmk)
    as (name & rest & Hin & Hp & Hf & Hd & Hw2).
  assert (create_temp_config_file P merged "jira_mcp_" w1
          = (Raise ex,
             add_event (EvLog ERROR ("Failed to create temp config file: "
                                     +:+ exn_msg ex)) w2)) as Hcreate.
  { unfold create_temp_config_file, try_except.
    rewrite (bind_val _ _ _ _ _ Hmk).
    unfold mbind, M_bind, write_fd.
    by rewrite Hwrite. }
  assert (prepare_configs P a (jira_config_path P) (github_config_path P)
            (set_cleanup [] w)
          = (Raise ex,
             add_event (EvLog ERROR ("Failed to create temp config file: "
                                     +:+ exn_msg ex)) w2)) as Hprep.
  { assert (prepare_config P a (jira_config_path P) "jira" "jira_mcp_"
              (set_cleanup [] w)
            = (Raise ex,
               add_event (EvLog ERROR ("Failed to create temp config file: "
                                       +:+ exn_msg ex)) w2)) as Hone.
    { unfold prepare_config. rewrite (bind_val _ _ _ _ _ Hmerge), Htruthy.
      by apply bind_raise. }
    unfold prepare_configs.
    destruct (config_overrides a) as [[|item items]|]; try done.
    by apply bind_raise. }
  assert (temp_files_to_cleanup w2 = []) as Hlist by (by rewrite Hw2).
  pose proof (proj1 Hq) as Hfiles. cbn [files set_cleanup] in Hfiles.
  split; [|split; [|split; [|split]]].
  - rewrite aggregate_unfold. unfold try_finally.
    rewrite (bind_raise _ _ _ _ _ Hprep).
    unfold cleanup_temp_files. cbn [temp_files_to_cleanup add_event].
    by rewrite Hlist.
  - by rewrite <- Hfiles.
  - rewrite Hw2. cbn [files add_event set_files set_temp_names].
    by rewrite Hfiles.
  - exact Hlist.
  - rewrite Hw2. cbn [trace add_event set_files set_temp_names].
    unfold collaborator_calls. rewrite filter_app.
    change (filter _ [EvMkstemp p]) with (@nil event). rewrite app_nil_r.
    by apply quiet_collaborator_calls in Hq.
Qed.

End Aggregate.

(** The first candidate name is taken: the second one is used and the
    file that was there is not touched. *)
Lemma create_temp_config_file_fresh_witness :
  files Demo.crowded_world !! "/tmp/jira_mcp_p0q7.yaml" = None
  ∧ files (create_temp_config_file Demo.healthy
             (VDict [("base_jql", VStr "project = TEST")]) "jira_mcp_"
             Demo.crowded_world).2
    = <["/tmp/jira_mcp_p0q7.yaml" := "base_jql: project = TEST"]>
        (files Demo.crowded_world).
Proof.
  pose proof (create_temp_config_file_fresh Demo.healthy
                (VDict [("base_jql", VStr "project = TEST")]) "jira_mcp_"
                Demo.crowded_world "/tmp/jira_mcp_p0q7.yaml"
                (create_temp_config_file Demo.healthy
                   (VDict [("base_jql", VStr "project = TEST")]) "jira_mcp_"
                   Demo.crowded_world).2
                ltac:(vm_compute; reflexivity)) as (Hnew & _ & Hfiles & _).
  split; [exact Hnew | exact Hfiles].
Defined.

(** Jira is down and the caller overrides the Jira configuration: the
    Jira section is the error marker, the GitHub section is the report,
    and the temporary Jira configuration is gone afterwards. *)
Lemma aggregate_isolates_failures_witness :
  ∃ w',
    aggregate Demo.jira_is_down (Demo.args Demo.jira_override)
      "https://jira.example.com" "dev@example.com" "jira-token" "github-token"
      "2024-01-10" "2024-01-03" Demo.fresh_world
    = (Val (jira_error_marker (Exn OSError "connection refused"),
            "GitHub: 3 pull requests merged"), w')
    ∧ collaborator_calls (trace w')
      = [EvJira "/tmp/jira_mcp_k3x9.yaml" "https://jira.example.com" "dev@example.com"
           "jira-token" "2024-01-10" "2024-01-03";
         EvGitHub "/srv/mcp/config/github_config.yaml" "github-token"
           "2024-01-10" "2024-01-03"].
Proof.
  destruct (aggregate_isolates_failures Demo.jira_is_down (Demo.args Demo.jira_override)
              "https://jira.example.com" "dev@example.com" "jira-token" "github-token"
              "2024-01-10" "2024-01-03" Demo.fresh_world
              "/tmp/jira_mcp_k3x9.yaml" "/srv/mcp/config/github_config.yaml"
              (prepare_configs Demo.jira_is_down (Demo.args Demo.jira_override)
                 (jira_config_path Demo.jira_is_down)
                 (github_config_path Demo.jira_is_down)
                 (set_cleanup [] Demo.fresh_world)).2
              ltac:(vm_compute; reflexivity))
    as (w' & Hrun & Hcalls & _).
  exists w'. split; [exact Hrun | exact Hcalls].
Defined.

(** Jira is down and no overrides are given. *)
Lemma aggregate_without_overrides_witness :
  ∃ w',
    aggregate Demo.jira_is_down (Demo.args None)
      "https://jira.example.com" "dev@example.com" "jira-token" "github-token"
      "2024-01-10" "2024-01-03" Demo.fresh_world
    = (Val (jira_error_marker (Exn OSError "connection refused"),
            "GitHub: 3 pull requests merged"), w')
    ∧ files w' = files Demo.fresh_world.
Proof.
  destruct (aggregate_without_overrides Demo.jira_is_down (Demo.args None)
              "https://jira.example.com" "dev@example.com" "jira-token" "github-token"
              "2024-01-10" "2024-01-03" Demo.fresh_world eq_refl)
    as (w' & Hrun & Hfiles & _).
  exists w'. split; [exact Hrun | exact Hfiles].
Defined.

(** The disk is full when the temporary Jira configuration is written:
    the stage raises and the empty file stays. *)
Lemma failed_temp_write_leaves_file_witness :
  (aggregate Demo.temp_disk_full (Demo.args Demo.jira_override)
     "https://jira.example.com" "dev@example.com" "jira-token" "github-token"
     "2024-01-10" "2024-01-03" Demo.fresh_world).1
  = Raise (Exn OSError "[Errno 28] No space left on device")
  ∧ files (aggregate Demo.temp_disk_full (Demo.args Demo.jira_override)
             "https://jira.example.com" "dev@example.com" "jira-token" "github-token"
             "2024-01-10" "2024-01-03" Demo.fresh_world).2
      !! "/tmp/jira_mcp_k3x9.yaml" = Some EmptyString.
Proof.
  destruct (failed_temp_write_leaves_file Demo.temp_disk_full
              (Demo.args Demo.jira_override)
              "https://jira.example.com" "dev@example.com" "jira-token" "github-token"
              "2024-01-10" "2024-01-03" Demo.fresh_world
              (VDict [("base_jql", VStr "project = TEST")])
              (merge_config_with_defaults Demo.temp_disk_full Demo.jira_override
                 (jira_config_path Demo.temp_disk_full) "jira"
                 (set_cleanup [] Demo.fresh_world)).2
              "/tmp/jira_mcp_k3x9.yaml"
              (mkstemp Demo.temp_disk_full ".yaml" "jira_mcp_"
                 (merge_config_with_defaults Demo.temp_disk_full Demo.jira_override
                    (jira_config_path Demo.temp_disk_full) "jira"
                    (set_cleanup [] Demo.fresh_world)).2).2
              (Exn OSError "[Errno 28] No space left on device")
              ltac:(discriminate)
              ltac:(vm_compute; reflexivity)
              eq_refl
              ltac:(vm_compute; reflexivity)
              eq_refl)
    as (Hrun & _ & Hfiles & _).
  rewrite Hrun. split; [reflexivity|].
  cbn [snd files add_event]. rewrite Hfiles. apply lookup_insert_eq.
Defined.

(** ** Where a reply can come from *)

Section Replies.

Context (Q : string → Prop).

Lemma replies_ret {A} (a : A) : replies Q (mret a).
Proof. by intros w r w' [=]. Qed.

Lemma replies_raise {A} (e : exn) : replies Q (@raise A e).
Proof. by intros w r w' [=]. Qed.

Lemma replies_return {A} (r : string) : Q r → replies Q (@return_ A r).
Proof. by intros HQ w r' w' [= <- <-]. Qed.

Lemma replies_lift {A} (r : result A) : replies Q (lift r).
Proof. destruct r; [apply replies_ret | apply replies_raise]. Qed.

Lemma replies_bind {A B} (m : M A) (k : A → M B) :
  replies Q m → (∀ a, replies Q (k a)) → replies Q (m ≫= k).
Proof.
  intros Hm Hk w r w'. unfold mbind, M_bind.
  destruct (m w) as [[a|r0|e] w1] eqn:E.
  - apply Hk.
  - intros [= <- <-]. by eapply Hm.
  - discriminate.
Qed.

Lemma replies_try_except {A} (body : M A) (handler : exn → M A) :
  replies Q body → (∀ e, replies Q (handler e)) →
  replies Q (try_except body handler).
Proof.
  intros Hb Hh w r w'. unfold try_except.
  destruct (body w) as [[a|r0|e] w1] eqn:E.
  - discriminate.
  - intros [= <- <-]. by eapply Hb.
  - apply Hh.
Qed.

Lemma replies_try_except_cls {A} cls (body : M A) (handler : exn → M A) :
  replies Q body → (∀ e, replies Q (handler e)) →
  replies Q (try_except_cls cls body handler).
Proof.
  intros Hb Hh w r w'. unfold try_except_cls.
  destruct (body w) as [[a|r0|e] w1] eqn:E.
  - discriminate.
  - intros [= <- <-]. by eapply Hb.
  - case_decide; [apply Hh | discriminate].
Qed.

Lemma replies_try_finally {A} (body : M A) (final : M unit) :
  replies Q body → replies Q final → replies Q (try_finally body final).
Proof.
  intros Hb Hf w r w'. unfold try_finally.
  destruct (body w) as [o w1] eqn:E.
  destruct (final w1) as [[[]|r0|e] w2] eqn:E2.
  - intros [= -> <-]. by eapply Hb.
  - intros [= <- <-]. by eapply Hf.
  - discriminate.
Qed.

Lemma replies_for_each {A} (l : list A) (body : A → M unit) :
  (∀ x, replies Q (body x)) → replies Q (for_each l body).
Proof.
  intros Hbody. induction l as [|x l IH]; simpl.
  - apply replies_ret.
  - apply replies_bind; [apply Hbody | intros _; exact IH].
Qed.

End Replies.

Create HintDb replies.

Ltac replies_step :=
  lazymatch goal with
  | |- replies _ (mbind _ _) => apply replies_bind; [|intros ?]
  | |- replies _ (mret _) => apply replies_ret
  | |- replies _ (raise _) => apply replies_raise
  | |- replies _ (return_ _) => apply replies_return
  | |- replies _ (lift _) => apply replies_lift
  | |- replies _ (try_except _ _) => apply replies_try_except; [|intros ?]
  | |- replies _ (try_except_cls _ _ _) => apply replies_try_except_cls; [|intros ?]
  | |- replies _ (try_finally _ _) => apply replies_try_finally
  | |- replies _ (for_each _ _) => apply replies_for_each; intros ?
  | |- replies _ (match ?x with _ => _ end) => destruct x
  | |- replies _ _ => first [solve [eauto with replies] | by intros ? ? ? [=]]
  end.

Ltac replies_auto := repeat replies_step.

Section RepliesServer.

Context (P : Platform) (Q : string → Prop).

Lemma replies_log lvl msg : replies Q (log lvl msg).
Proof. by intros w r w' [=]. Qed.

Lemma replies_now : replies Q (now P).
Proof. by intros w r w' [=]. Qed.

Lemma replies_getenv name : replies Q (getenv name).
Proof. by intros w r w' [=]. Qed.

Lemma replies_path_exists p : replies Q (path_exists p).
Proof. by intros w r w' [=]. Qed.

Lemma replies_Path_exists p : replies Q (Path_exists P p).
Proof.
  intros w r w'. unfold Path_exists. destruct (unsearchable P _); discriminate.
Qed.

Lemma replies_write_fd p c : replies Q (write_fd P p c).
Proof. intros w r w'. unfold write_fd. destruct (write_error P p); discriminate. Qed.

Lemma replies_read_file p : replies Q (read_file P p).
Proof.
  intros w r w'. unfold read_file.
  destruct (files w !! p); [destruct (read_error P p)|]; discriminate.
Qed.

Lemma replies_write_file p c : replies Q (write_file P p c).
Proof.
  intros w r w'. unfold write_file.
  case_bool_decide; [discriminate|].
  destruct (negb _); [discriminate|].
  destruct (open_error P p); [discriminate|].
  destruct (write_error P p); discriminate.
Qed.

Lemma replies_mkdir_exist_ok p : replies Q (mkdir_exist_ok P p).
Proof.
  intros w r w'. unfold mkdir_exist_ok.
  repeat case_bool_decide; [| |destruct (mkdir_error P p)]; discriminate.
Qed.

Lemma replies_unlink p : replies Q (unlink P p).
Proof.
  intros w r w'. unfold unlink.
  destruct (files w !! p); [destruct (unlink_error P p)|]; discriminate.
Qed.

Lemma replies_mkstemp suffix pre : replies Q (mkstemp P suffix pre).
Proof.
  intros w r w'. unfold mkstemp. generalize (temp_names w) as names.
  induction names as [|name rest IH]; simpl; [discriminate|].
  destruct (_ || _); [exact IH | discriminate].
Qed.

Lemma replies_register_temp f : replies Q (register_temp f).
Proof. by intros w r w' [=]. Qed.

Lemma replies_call_jira cf js je jt s e : replies Q (call_jira P cf js je jt s e).
Proof.
  intros w r w'. unfold call_jira. cbv zeta.
  destruct (WeeklyJiraSummary P _ _ _ _ _ _ _); discriminate.
Qed.

Lemma replies_call_github cf gt s e : replies Q (call_github P cf gt s e).
Proof.
  intros w r w'. unfold call_github. cbv zeta.
  destruct (WeeklyGitHubSummary P _ _ _ _ _); discriminate.
Qed.

Hint Resolve replies_log replies_now replies_getenv replies_path_exists
  replies_Path_exists replies_write_fd replies_read_file replies_write_file replies_mkdir_exist_ok replies_unlink
  replies_mkstemp replies_register_temp replies_call_jira replies_call_github
  : replies.

Lemma replies_get_week_range s e : replies Q (get_week_range P s e).
Proof. unfold get_week_range. replies_auto. Qed.

Lemma replies_get_report_path s e : replies Q (get_report_path P s e).
Proof. unfold get_report_path. replies_auto. Qed.

Lemma replies_check_report_exists s e : replies Q (check_report_exists P s e).
Proof.
  unfold check_report_exists. pose proof replies_get_report_path. replies_auto.
Qed.

Lemma replies_save_report c s e : replies Q (save_report P c s e).
Proof. unfold save_report. pose proof replies_get_report_path. replies_auto. Qed.

Lemma replies_apply_overrides items : ∀ config,
  replies Q (apply_overrides P items config).
Proof.
  induction items as [|[key value] rest IH]; intros config; simpl.
  - apply replies_ret.
  - replies_auto; apply IH.
Qed.

Lemma replies_load_config_with_overrides ov :
  replies Q (load_config_with_overrides P ov).
Proof.
  unfold load_config_with_overrides, load_one.
  pose proof replies_apply_overrides. replies_auto.
Qed.

Lemma replies_prepare_configs a cj cg : replies Q (prepare_configs P a cj cg).
Proof.
  unfold prepare_configs, prepare_config, merge_config_with_defaults, load_defaults,
    create_temp_config_file.
  replies_auto.
Qed.

Lemma replies_cleanup_temp_files : replies Q (cleanup_temp_files P).
Proof.
  intros w r w'. unfold cleanup_temp_files.
  apply (replies_for_each Q). intros f. unfold cleanup_one. replies_auto.
Qed.

Lemma replies_aggregate a js je jt gt s e : replies Q (aggregate P a js je jt gt s e).
Proof.
  unfold aggregate, generate_jira, generate_github.
  pose proof replies_prepare_configs. pose proof replies_cleanup_temp_files.
  replies_auto.
Qed.

Lemma replies_add_summary a c : replies Q (add_summary P a c).
Proof. unfold add_summary. replies_auto. Qed.

Lemma replies_combine s e j g : replies Q (combine P s e j g).
Proof. unfold combine. replies_auto. Qed.

End RepliesServer.

Section Classified.

Variable P : Platform.

Lemma early_reply_error msg : early_reply ("Error: " +:+ msg).
Proof. split; [by left | reflexivity]. Qed.

Lemma early_reply_found p c : early_reply (found_existing_reply p c).
Proof. split; [by right | reflexivity]. Qed.

(** Before the report is saved the only replies are errors and the cached
    report. *)
Lemma build_report_replies a : replies early_reply (build_report P a).
Proof.
  unfold build_report, before_aggregation, resolve_window, check_cache,
    check_credentials, import_team_reports.
  pose proof (replies_get_week_range P early_reply).
  pose proof (replies_check_report_exists P early_reply).
  pose proof (replies_get_report_path P early_reply).
  pose proof (replies_load_config_with_overrides P early_reply).
  pose proof (replies_aggregate P early_reply).
  pose proof (replies_combine P early_reply).
  pose proof (replies_add_summary P early_reply).
  replies_auto;
    first [apply early_reply_error | apply early_reply_found
          | apply (early_reply_error
                     ("Missing required credentials: " +:+ _))
          | apply (early_reply_error
                     ("Failed to import team-reports library. Please ensure it's installed: "
                      +:+ _))].
Qed.

(** The tool never raises and never answers with anything but one of
    four texts: an error of its own checks ("Error: ..."), the catch-all
    error ("Error generating weekly status: ..."), the cached report, or
    the success reply. *)
Theorem reply_is_classified a w :
  ∃ reply w',
    _generate_weekly_status P a w = (Val reply, w')
    ∧ (starts_with "Error: " reply = true
       ∨ starts_with "Error generating weekly status: " reply = true
       ∨ starts_with "**Found existing report" reply = true
       ∨ starts_with SUCCESS_HEADER reply = true).
Proof.
  unfold _generate_weekly_status, call, generate_weekly_status_body, try_except.
  destruct (build_report P a w) as [[[[c s] e]|r|ex] w1] eqn:Hbuild.
  - rewrite (bind_val _ _ _ _ _ Hbuild). rewrite persist_unfold.
    destruct (save_report P c s e w1) as [[p|r|ex] w2] eqn:Hsave.
    + eexists _, _. split; [reflexivity|]. by do 3 right.
    + by destruct (replies_save_report P (λ _, False) _ _ _ _ _ _ Hsave).
    + eexists _, _. split; [reflexivity|]. by left.
  - rewrite (bind_return _ _ _ _ _ Hbuild).
    eexists _, _. split; [reflexivity|].
    destruct (build_report_replies a w r w1 Hbuild) as [[Herr|Hfound] _];
      [left; exact Herr | right; right; left; exact Hfound].
  - rewrite (bind_raise _ _ _ _ _ Hbuild).
    eexists _, _. split; [reflexivity|]. right. by left.
Qed.

(** The success reply is given only after the report has been written:
    when the reply opens with the success header, it is the success text
    for the report that was built, and the file it names holds that
    report. *)
Theorem success_reply_means_saved a w reply w' :
  _generate_weekly_status P a w = (Val reply, w') →
  starts_with SUCCESS_HEADER reply = true →
  ∃ s e c w1,
    build_report P a w = (Val (c, s, e), w1)
    ∧ reply = success_reply s e (report_path P s e) c
    ∧ files w' !! report_path P s e = Some c.
Proof.
  unfold _generate_weekly_status, call, generate_weekly_status_body, try_except.
  destruct (build_report P a w) as [[[[c s] e]|r|ex] w1] eqn:Hbuild.
  - rewrite (bind_val _ _ _ _ _ Hbuild). rewrite persist_unfold.
    destruct (save_report P c s e w1) as [[p|r|ex] w2] eqn:Hsave.
    + intros [= <- <-] _.
      destruct (save_report_val P _ _ _ _ _ _ Hsave) as [-> Hfile].
      by exists s, e, c, w1.
    + by destruct (replies_save_report P (λ _, False) _ _ _ _ _ _ Hsave).
    + intros [= <- <-]. discriminate.
  - rewrite (bind_return _ _ _ _ _ Hbuild). intros [= <- <-] Hsuccess.
    destruct (build_report_replies a _ _ _ Hbuild) as [_ Hnot]. congruence.
  - rewrite (bind_raise _ _ _ _ _ Hbuild). intros [= <- <-]. discriminate.
Qed.

End Classified.

(** A first run with every service up. *)
Lemma success_reply_means_saved_witness :
  ∃ s e c w1,
    build_report Demo.healthy (Demo.args None) Demo.fresh_world = (Val (c, s, e), w1)
    ∧ outcome_value EmptyString
        (_generate_weekly_status Demo.healthy (Demo.args None) Demo.fresh_world).1
      = success_reply s e (report_path Demo.healthy s e) c
    ∧ files (_generate_weekly_status Demo.healthy (Demo.args None) Demo.fresh_world).2
        !! report_path Demo.healthy s e = Some c.
Proof.
  refine (success_reply_means_saved Demo.healthy (Demo.args None) Demo.fresh_world
            (outcome_value EmptyString
               (_generate_weekly_status Demo.healthy (Demo.args None)
                  Demo.fresh_world).1)
            (_generate_weekly_status Demo.healthy (Demo.args None) Demo.fresh_world).2
            _ _).
  - vm_compute. reflexivity.
  - vm_compute. reflexivity.
Defined.

(** ** The summary block *)

Section Summary.

Variable P : Platform.

Lemma bind_val_inv {A B} (m : M A) (k : A → M B) w b w' :
  (m ≫= k) w = (Val b, w') → ∃ a w1, m w = (Val a, w1) ∧ k a w1 = (Val b, w').
Proof.
  unfold mbind, M_bind. destruct (m w) as [[a|r|e] w1]; try discriminate.
  intros H. by exists a, w1.
Qed.

(** The default template is well formed: formatting it never fails. *)
Lemma str_format_default c : ∃ r, str_format P DEFAULT_SUMMARY_PROMPT c = Ok r.
Proof. unfold str_format. eexists. vm_compute. reflexivity. Qed.

Lemma add_summary_unfold a c w :
  add_summary P a c w
  = if generate_summary a then
      match str_format P (chosen_prompt a) c with
      | Ok _ =>
          (Val (c +:+ summary_section (chosen_prompt a)),
           add_event (EvLog INFO "AI summary prompt added to report")
             (add_event (EvLog INFO "Generating AI summary...") w))
      | Err ex =>
          (Val c,
           add_event (EvLog WARNING ("Failed to add AI summary prompt: " +:+ exn_msg ex))
             (add_event (EvLog INFO "Generating AI summary...") w))
      end
    else (Val c, w).
Proof.
  unfold add_summary, chosen_prompt, try_except, mbind, M_bind, log, lift.
  destruct (generate_summary a); [|reflexivity].
  destruct (str_format P _ c); reflexivity.
Qed.

(** The summary block never loses the report and never fills the
    template in: whatever the template and whatever [str.format] does
    with it, the block returns, and its result is the report as it was or
    the report followed by a section that depends on the template alone;
    with [generate_summary] off nothing happens at all. *)
Theorem summary_never_fills_template a c w :
  ∃ c' w',
    add_summary P a c w = (Val c', w')
    ∧ (c' = c ∨ c' = c +:+ summary_section (chosen_prompt a))
    ∧ files w' = files w
    ∧ (generate_summary a = false → c' = c ∧ w' = w).
Proof.
  rewrite add_summary_unfold.
  destruct (generate_summary a); [destruct (str_format P _ c)|];
    eexists _, _; (split; [reflexivity|]); repeat split; auto; discriminate.
Qed.

(** With the default template the section is always added, and what it
    shows is the template itself: the placeholder [{report_content}] is
    still in it, whatever the report. *)
Theorem default_summary_shows_placeholder a c w :
  generate_summary a = true →
  nonempty (summary_prompt a) = None →
  add_summary P a c w
  = (Val (c +:+ summary_section DEFAULT_SUMMARY_PROMPT),
     add_event (EvLog INFO "AI summary prompt added to report")
       (add_event (EvLog INFO "Generating AI summary...") w))
  ∧ contains "{report_content}" (summary_section DEFAULT_SUMMARY_PROMPT) = true.
Proof.
  intros Hgen Hprompt. split; [|by vm_compute].
  rewrite add_summary_unfold, Hgen. unfold chosen_prompt. rewrite Hprompt.
  destruct (str_format_default c) as [r ->]. reflexivity.
Qed.

(** A template [str.format] rejects costs the summary, not the report:
    a warning is logged and the report goes on unchanged. *)
Theorem rejected_template_drops_summary a c w t ex :
  generate_summary a = true →
  nonempty (summary_prompt a) = Some t →
  str_format P t c = Err ex →
  add_summary P a c w
  = (Val c,
     add_event (EvLog WARNING ("Failed to add AI summary prompt: " +:+ exn_msg ex))
       (add_event (EvLog INFO "Generating AI summary...") w)).
Proof.
  intros Hgen Hprompt Hformat.
  rewrite add_summary_unfold, Hgen. unfold chosen_prompt. by rewrite Hprompt, Hformat.
Qed.

End Summary.

(** ** The window the pipeline works on *)

Section Window.

Import Calendar.

Variable P : Platform.

Lemma digit_char_not_sep d : Ascii.eqb (PyStr.digit_char d) "/" = false.
Proof.
  unfold PyStr.digit_char.
  assert (0 ≤ d mod 10 < 10) as Hd by (apply Z.mod_pos_bound; lia).
  assert (d mod 10 = 0 ∨ d mod 10 = 1 ∨ d mod 10 = 2 ∨ d mod 10 = 3 ∨ d mod 10 = 4
          ∨ d mod 10 = 5 ∨ d mod 10 = 6 ∨ d mod 10 = 7 ∨ d mod 10 = 8 ∨ d mod 10 = 9)
    as Hcases by lia.
  destruct Hcases as [->|[->|[->|[->|[->|[->|[->|[->|[->| ->]]]]]]]]]; reflexivity.
Qed.

(** A date as [strftime] renders it has no path separator. *)
Lemma no_sep_strftime_ymd dt : no_sep (strftime_ymd dt) = true.
Proof.
  unfold strftime_ymd. destruct (ord2ymd (ordinal dt)) as [[y m] d].
  unfold PyStr.pad4, PyStr.pad2. rewrite !PathFacts.no_sep_app.
  cbn [no_sep]. rewrite !digit_char_not_sep. reflexivity.
Qed.

Lemma get_week_range_val sd ed w s e w' :
  get_week_range P sd ed w = (Val (s, e), w') →
  ∃ ds de, s = strftime_ymd ds ∧ e = strftime_ymd de.
Proof.
  unfold get_week_range. intros H.
  apply bind_val_inv in H as (ds & w1 & _ & H).
  apply bind_val_inv in H as (de & w2 & _ & H).
  injection H as <- <- _. by exists ds, de.
Qed.

Lemma resolve_window_val a w s e w' :
  resolve_window P a w = (Val (s, e), w') →
  ∃ w0, get_week_range P (start_date a) (end_date a) w = (Val (s, e), w0).
Proof.
  unfold resolve_window, try_except_cls, mbind, M_bind, log.
  destruct (get_week_range P (start_date a) (end_date a) w) as [[[s0 e0]|r|ex] w0].
  - intros [= <- <- <-]. by exists w0.
  - discriminate.
  - case_decide; discriminate.
Qed.

(** The dates the pipeline works with are never the caller's text: they
    are dates rendered again by [strftime], so they hold no path
    separator, and the report file they name lies directly in the
    [Reports] directory beside the server. *)
Theorem window_is_canonical a w s e w' :
  resolve_window P a w = (Val (s, e), w') →
  (∃ ds de, s = strftime_ymd ds ∧ e = strftime_ymd de)
  ∧ no_sep s = true ∧ no_sep e = true
  ∧ report_path P s e
    = (server_dir P +:+ "/Reports") +:+ "/"
      +:+ "Weekly_Report_" +:+ s +:+ "_to_" +:+ e +:+ ".md".
Proof.
  intros Hwin. destruct (resolve_window_val _ _ _ _ _ Hwin) as [w0 Hrange].
  destruct (get_week_range_val _ _ _ _ _ _ Hrange) as (ds & de & -> & ->).
  pose proof (no_sep_strftime_ymd ds) as Hs.
  pose proof (no_sep_strftime_ymd de) as He.
  split; [by exists ds, de|]. split; [done|]. split; [done|].
  destruct (PathFacts.report_filename_plain _ _ Hs He) as [Hsep Hkeep].
  unfold report_path. by rewrite PathFacts.join_plain.
Qed.

End Window.

(** A start date written without padding is rendered again. *)
Lemma window_is_canonical_witness :
  ∃ w', resolve_window Demo.healthy (Demo.args_for (Some "2024-1-10") None) Demo.fresh_world
        = (Val ("2024-01-10", "2024-01-03"), w')
        ∧ report_path Demo.healthy "2024-01-10" "2024-01-03" = Demo.report_path.
Proof.
  eexists. split; [vm_compute; reflexivity|].
  exact (proj2 (proj2 (proj2 (window_is_canonical Demo.healthy
                                (Demo.args_for (Some "2024-1-10") None)
                                Demo.fresh_world "2024-01-10" "2024-01-03" _
                                ltac:(vm_compute; reflexivity))))).
Defined.

(** A custom template with a field the call does not supply. *)
Lemma rejected_template_drops_summary_witness :
  add_summary Demo.healthy Demo.custom_prompt_args "# Report" Demo.fresh_world
  = (Val "# Report",
     add_event (EvLog WARNING "Failed to add AI summary prompt: 'field'")
       (add_event (EvLog INFO "Generating AI summary...") Demo.fresh_world)).
Proof.
  exact (rejected_template_drops_summary Demo.healthy Demo.custom_prompt_args "# Report"
           Demo.fresh_world "Summarise for {audience}: {report_content}"
           (Exn KeyError "'field'") eq_refl eq_refl eq_refl).
Defined.

Lemma default_summary_shows_placeholder_witness :
  (add_summary Demo.healthy (Demo.args None) "# Report" Demo.fresh_world).1
  = Val ("# Report" +:+ summary_section DEFAULT_SUMMARY_PROMPT).
Proof.
  rewrite (proj1 (default_summary_shows_placeholder Demo.healthy (Demo.args None)
                    "# Report" Demo.fresh_world eq_refl eq_refl)).
  reflexivity.
Defined.

(** ** From one call to the next *)

Section NextCall.

Variable P : Platform.

(** What a report that was built rests on: the window was resolved, and
    the text opens with the report title. *)
Lemma build_report_inv a w c s e w1 :
  build_report P a w = (Val (c, s, e), w1) →
  (∃ w0, resolve_window P a w = (Val (s, e), w0))
  ∧ starts_with "# Weekly Team Status Report" c = true.
Proof.
  unfold build_report. intros H.
  apply bind_val_inv in H as ([[s0 e0] [[[js je] jt] gt]] & wa & Hbefore & H).
  apply bind_val_inv in H as ([jr gr] & wb & _ & H).
  apply bind_val_inv in H as (c0 & wc & Hcombine & H).
  apply bind_val_inv in H as (c1 & wd & Hsummary & H).
  injection H as <- <- <- <-.
  split.
  - unfold before_aggregation in Hbefore.
    apply bind_val_inv in Hbefore as ([s1 e1] & w0 & Hwin & H).
    apply bind_val_inv in H as (? & ? & _ & H).
    apply bind_val_inv in H as (? & ? & _ & H).
    apply bind_val_inv in H as (? & ? & _ & H).
    apply bind_val_inv in H as (? & ? & _ & H).
    injection H as <- <- _ _. by exists w0.
  - unfold combine in Hcombine.
    apply bind_val_inv in Hcombine as (generated & ? & _ & H).
    injection H as <- _.
    rewrite add_summary_unfold in Hsummary.
    destruct (generate_summary a); [destruct (str_format P _ _)|];
      injection Hsummary as <- _; reflexivity.
Qed.

(** A report that was saved is what the next call answers with.  When a
    run has built and saved its report, the same call made again (start
    date given, [regenerate] off, the file readable) finds the report in
    the cache: the reply carries the text the first run saved as a
    text-mode read gives it, every carriage return, with or without a
    line feed after it, read as a line feed, so a report without carriage
    returns comes back exactly; no file changes and no report generator
    is called. *)
Theorem saved_report_is_served_again a w c s e w1 p w2 start :
  regenerate a = false →
  nonempty (start_date a) = Some start →
  build_report P a w = (Val (c, s, e), w1) →
  save_report P c s e w1 = (Val p, w2) →
  read_error P p = None →
  let w3 := add_event (EvLog INFO ("Report saved to: " +:+ p)) w2 in
  _generate_weekly_status P a w = (Val (success_reply s e p c), w3)
  ∧ (∃ w4,
       _generate_weekly_status P a w3
       = (Val (found_existing_reply p (PyStr.universal_newlines c)), w4)
       ∧ files w4 = files w3
       ∧ collaborator_calls (trace w4) = collaborator_calls (trace w3))
  ∧ (PyStr.no_cr c = true → PyStr.universal_newlines c = c).
Proof.
  intros Hregen Hstart Hbuild Hsave Hread w3.
  destruct (build_report_inv _ _ _ _ _ _ Hbuild) as [[w0 Hwin] Hc].
  split.
  { rewrite (generate_weekly_status_built P _ _ _ _ _ _ Hbuild).
    by rewrite persist_unfold, Hsave. }
  split; [|apply NewlineFacts.universal_newlines_no_cr].
  destruct (resolve_window_supplied P a w (s, e) w0 start Hstart Hwin w3)
    as [w0' Hwin'].
  destruct (save_report_val_dirs P _ _ _ _ _ _ Hsave) as (-> & Hdir & Hfiles).
  pose proof (quiet_resolve_window P a _ _ _ Hwin') as Hq.
  assert (check_report_exists P s e w0'
          = (Val (Some (PyStr.universal_newlines c)),
             add_event (EvLog INFO ("Found existing report: " +:+ report_path P s e)) w0'))
    as Hhit.
  { apply check_report_exists_hit; [| |done].
    - destruct Hq as (_ & _ & _ & Hdirs & _). apply Hdirs. exact Hdir.
    - rewrite (proj1 Hq). unfold w3. cbn [files add_event].
      rewrite Hfiles. apply lookup_insert_eq. }
  pose proof (quiet_check_report_exists P s e _ _ _ Hhit) as Hq'.
  assert (quiet w3 (add_event (EvLog INFO ("Found existing report: "
                                          +:+ report_path P s e)) w0')) as Hq3
    by (by etrans).
  eexists. split; [|split].
  - eapply generate_weekly_status_hit; [done|exact Hwin'|exact Hhit|].
    rewrite NewlineFacts.universal_newlines_empty. intros ->. discriminate.
  - apply Hq3.
  - by apply quiet_collaborator_calls.
Qed.

End NextCall.

(** A first run with every service up, and the same call again. *)
Lemma saved_report_is_served_again_witness :
  ∃ w4,
    _generate_weekly_status Demo.healthy (Demo.args None)
      (_generate_weekly_status Demo.healthy (Demo.args None) Demo.fresh_world).2
    = (Val (found_existing_reply Demo.report_path
              (built_text (build_report Demo.healthy (Demo.args None)
                             Demo.fresh_world).1)), w4).
Proof.
  destruct (saved_report_is_served_again Demo.healthy (Demo.args None) Demo.fresh_world
              (built_text (build_report Demo.healthy (Demo.args None) Demo.fresh_world).1)
              "2024-01-10" "2024-01-03"
              (build_report Demo.healthy (Demo.args None) Demo.fresh_world).2
              Demo.report_path
              (save_report Demo.healthy
                 (built_text (build_report Demo.healthy (Demo.args None)
                                Demo.fresh_world).1)
                 "2024-01-10" "2024-01-03"
                 (build_report Demo.healthy (Demo.args None) Demo.fresh_world).2).2
              "2024-01-10" eq_refl eq_refl
              ltac:(vm_compute; reflexivity) ltac:(vm_compute; reflexivity) eq_refl)
    as (Hfirst & (w4 & Hsecond & _) & Hsame).
  exists w4. rewrite Hfirst. rewrite <- Hsame at 2; [exact Hsecond|].
  vm_compute. reflexivity.
Defined.

(** The temporary file cannot be removed: the loop still returns. *)
Lemma cleanup_removes_or_warns_witness :
  ∃ w',
    cleanup_temp_files Demo.sticky_temp Demo.littered_world = (Val (), w')
    ∧ (files w' !! "/tmp/jira_mcp_k3x9.yaml" = None
       ∨ ∃ msg, cleanup_warning "/tmp/jira_mcp_k3x9.yaml" msg ∈ trace w').
Proof.
  destruct (cleanup_removes_or_warns Demo.sticky_temp Demo.littered_world)
    as (w' & Hrun & Hlist & _).
  exists w'. split; [exact Hrun|].
  apply Hlist. apply list_elem_of_singleton. reflexivity.
Defined.

(** A call with no credential set. *)
Lemma reply_is_classified_witness :
  ∃ reply w',
    _generate_weekly_status Demo.healthy (Demo.args None) (Demo.world ∅ ∅)
    = (Val reply, w')
    ∧ (starts_with "Error: " reply = true
       ∨ starts_with "Error generating weekly status: " reply = true
       ∨ starts_with "**Found existing report" reply = true
       ∨ starts_with SUCCESS_HEADER reply = true).
Proof.
  exact (reply_is_classified Demo.healthy (Demo.args None) (Demo.world ∅ ∅)).
Defined.

(** The summary block on a report of one line. *)
Lemma summary_never_fills_template_witness :
  ∃ c' w',
    add_summary Demo.healthy (Demo.args None) "# Report" Demo.fresh_world = (Val c', w')
    ∧ (c' = "# Report"
       ∨ c' = "# Report" +:+ summary_section (chosen_prompt (Demo.args None)))
    ∧ files w' = files Demo.fresh_world
    ∧ (generate_summary (Demo.args None) = false → c' = "# Report" ∧ w' = Demo.fresh_world).
Proof.
  exact (summary_never_fills_template Demo.healthy (Demo.args None) "# Report"
           Demo.fresh_world).
Defined.

(** ** Configuration files for the report generators *)

Section PrepareConfig.

Variable P : Platform.

Lemma merge_config_with_defaults_unfold ov path key w :
  merge_config_with_defaults P ov path key w
  = (config ← load_defaults P path;
     match override_for key ov with
     | Some (VDict override_values) =>
         config ← lift (deep_update config override_values);
         log INFO ("Applied config overrides for " +:+ key);;
         mret config
     | _ => mret config
     end) w.
Proof.
  unfold merge_config_with_defaults, override_for, mbind, M_bind.
  destruct (load_defaults P path w) as [[config|r|ex] w1]; try reflexivity.
  destruct ov as [[|item items]|]; reflexivity.
Qed.

(** Defaults that are not a mapping cannot take an override: when the
    defaults file holds a list, a text or a number and the caller
    overrides a key of that source, [merge_config_with_defaults] raises a
    [TypeError] once the defaults are loaded. *)
Theorem merge_rejects_non_mapping_defaults ov path key w base w1 item items :
  load_defaults P path w = (Val base, w1) →
  is_dict base = false →
  override_for key ov = Some (VDict (item :: items)) →
  ∃ ex,
    merge_config_with_defaults P ov path key w = (Raise ex, w1)
    ∧ exn_cls ex = TypeError.
Proof.
  intros Hload Hbase Hov.
  rewrite merge_config_with_defaults_unfold, (bind_val _ _ _ _ _ Hload), Hov.
  destruct base; try discriminate; (eexists; split; [reflexivity|reflexivity]).
Qed.


End PrepareConfig.

(** A defaults file that holds a list. *)
Lemma merge_rejects_non_mapping_defaults_witness :
  ∃ ex,
    merge_config_with_defaults Demo.list_defaults Demo.jira_override "defaults.yaml" "jira"
      Demo.defaults_world
    = (Raise ex, (load_defaults Demo.list_defaults "defaults.yaml" Demo.defaults_world).2)
    ∧ exn_cls ex = TypeError.
Proof.
  exact (merge_rejects_non_mapping_defaults Demo.list_defaults Demo.jira_override
           "defaults.yaml" "jira" Demo.defaults_world (VList [VStr "PROJ"])
           (load_defaults Demo.list_defaults "defaults.yaml" Demo.defaults_world).2
           ("base_jql", VStr "project = TEST") []
           ltac:(vm_compute; reflexivity) eq_refl eq_refl).
Defined.


(** ** Calling a tool *)

Section CallToolFacts.

Variable P : Platform.
Variable B : JiraBackend.

Lemma init_jira_client_unfold w :
  _init_jira_client B w
  = match nonempty (environ w !! "JIRA_SERVER"), nonempty (environ w !! "JIRA_EMAIL"),
          nonempty (environ w !! "JIRA_API_TOKEN") with
    | Some server, Some _, Some api_token =>
        match token_auth_import B with
        | Some e =>
            (Raise e,
             add_event (EvLog ERROR ("Failed to initialize Jira client: " +:+ exn_msg e)) w)
        | None =>
            match JIRA B server api_token with
            | Ok client =>
                (Val client, add_event (EvLog INFO "Successfully connected to Jira") w)
            | Err e =>
                (Raise e,
                 add_event (EvLog ERROR ("Failed to initialize Jira client: "
                                         +:+ exn_msg e)) w)
            end
        end
    | _, _, _ =>
        (Raise (Exn ValueError MISSING_JIRA_ENVIRONMENT),
         add_event (EvLog ERROR ("Failed to initialize Jira client: "
                                 +:+ MISSING_JIRA_ENVIRONMENT)) w)
    end.
Proof.
  unfold _init_jira_client, try_except, mbind, M_bind, getenv, log, lift.
  destruct (nonempty (environ w !! "JIRA_SERVER")) as [server|];
    destruct (nonempty (environ w !! "JIRA_EMAIL")) as [email|];
    destruct (nonempty (environ w !! "JIRA_API_TOKEN")) as [api_token|];
    try reflexivity.
  destruct (token_auth_import B); [reflexivity|].
  destruct (JIRA B server api_token); reflexivity.
Qed.

(** Without a client and without the three Jira variables no tool can be
    called: [_init_jira_client] runs before the [try] of [call_tool], so
    its [ValueError] leaves [call_tool] as an exception, whatever the
    tool.  The weekly status tool then never gets to list the missing
    credentials, and an unknown name never gets the "Unknown tool"
    reply. *)
Theorem call_tool_needs_jira_environment name arguments w :
  nonempty (environ w !! "JIRA_SERVER") = None
  ∨ nonempty (environ w !! "JIRA_EMAIL") = None
  ∨ nonempty (environ w !! "JIRA_API_TOKEN") = None →
  call_tool P B None name arguments w
  = (Raise (Exn ValueError MISSING_JIRA_ENVIRONMENT),
     add_event (EvLog ERROR ("Failed to initialize Jira client: "
                             +:+ MISSING_JIRA_ENVIRONMENT)) w).
Proof.
  intros Hmissing. unfold call_tool. apply bind_raise.
  rewrite init_jira_client_unfold.
  destruct Hmissing as [-> | [-> | ->]];
    repeat match goal with
           | |- context [match nonempty ?x with _ => _ end] => destruct (nonempty x)
           end; reflexivity.
Qed.

(** A client that could be made leaves the weekly status tool only the
    GitHub token to miss: when [_init_jira_client] returns, the
    environment is as it was and the three Jira variables are set in it,
    so the credential check of a weekly status call made there either
    passes or replies that [GITHUB_TOKEN] is missing, and nothing else. *)
Theorem connected_client_has_jira_credentials w client w' :
  _init_jira_client B w = (Val client, w') →
  environ w' = environ w
  ∧ ∀ a reply w'',
      check_credentials a w' = (Return reply, w'') →
      reply = missing_credentials_reply ["GITHUB_TOKEN"].
Proof.
  rewrite init_jira_client_unfold.
  destruct (nonempty (environ w !! "JIRA_SERVER")) as [server|] eqn:Hs;
    [|discriminate].
  destruct (nonempty (environ w !! "JIRA_EMAIL")) as [email|] eqn:He;
    [|discriminate].
  destruct (nonempty (environ w !! "JIRA_API_TOKEN")) as [api_token|] eqn:Ht;
    [|discriminate].
  destruct (token_auth_import B); [discriminate|].
  destruct (JIRA B server api_token) as [connected|]; [|discriminate].
  intros [= <- <-]. cbn [environ add_event]. split; [done|].
  intros args reply w''. rewrite check_credentials_unfold.
  unfold missing_credentials, missing_if. cbn [environ add_event].
  rewrite Hs, He, Ht. cbn [app].
  destruct (nonempty (effective_github_token args (environ w))); [discriminate|].
  by intros [= <- <-].
Qed.

(** A call that lacks the first argument its tool reads is answered with
    the name of the argument in quotes, the text of the [KeyError]; the
    tool method is not called and the failure is logged. *)
Theorem missing_argument_reply client name key arguments w :
  (name, key) ∈ first_required_argument →
  dict_get key arguments = None →
  call_tool P B (Some client) name arguments w
  = (Val (client, "Error: " +:+ PyStr.repr key),
     add_event (EvLog ERROR ("Error calling tool " +:+ name +:+ ": " +:+ PyStr.repr key))
       w).
Proof.
  intros Hin Hkey. unfold first_required_argument in Hin.
  repeat (apply elem_of_cons in Hin as [[= -> ->]|Hin];
          [unfold call_tool, dispatch, try_except, required, mbind, M_bind;
           cbn [String.eqb Ascii.eqb Bool.eqb];
           rewrite Hkey; reflexivity|]).
  by apply elem_of_nil in Hin.
Qed.

End CallToolFacts.

(** No Jira variable is set: the weekly status tool cannot be reached. *)
Lemma call_tool_needs_jira_environment_witness :
  call_tool Demo.healthy Demo.backend None "generate_weekly_status" Demo.weekly_arguments
    (Demo.world ∅ ∅)
  = (Raise (Exn ValueError MISSING_JIRA_ENVIRONMENT),
     add_event (EvLog ERROR ("Failed to initialize Jira client: "
                             +:+ MISSING_JIRA_ENVIRONMENT)) (Demo.world ∅ ∅)).
Proof.
  exact (call_tool_needs_jira_environment Demo.healthy Demo.backend
           "generate_weekly_status" Demo.weekly_arguments (Demo.world ∅ ∅)
           (or_introl eq_refl)).
Defined.

(** The Jira variables are set and the GitHub token is not: the client
    connects, and the weekly status call reports the one token. *)
Lemma connected_client_has_jira_credentials_witness :
  outcome_reply
    (check_credentials (Demo.args None)
       (_init_jira_client Demo.backend Demo.jira_only_world).2).1
  = missing_credentials_reply ["GITHUB_TOKEN"].
Proof.
  exact (proj2 (connected_client_has_jira_credentials Demo.backend Demo.jira_only_world
                  "https://jira.example.com"
                  (_init_jira_client Demo.backend Demo.jira_only_world).2
                  ltac:(vm_compute; reflexivity))
           (Demo.args None)
           (outcome_reply
              (check_credentials (Demo.args None)
                 (_init_jira_client Demo.backend Demo.jira_only_world).2).1)
           (check_credentials (Demo.args None)
              (_init_jira_client Demo.backend Demo.jira_only_world).2).2
           ltac:(vm_compute; reflexivity)).
Defined.

(** [get_issue] called without [issue_key]. *)
Lemma missing_argument_reply_witness :
  call_tool Demo.healthy Demo.backend (Some "https://jira.example.com") "get_issue" []
    Demo.fresh_world
  = (Val ("https://jira.example.com", "Error: 'issue_key'"),
     add_event (EvLog ERROR "Error calling tool get_issue: 'issue_key'") Demo.fresh_world).
Proof.
  refine (missing_argument_reply Demo.healthy Demo.backend "https://jira.example.com"
            "get_issue" "issue_key" [] Demo.fresh_world _ eq_refl).
  apply elem_of_cons. by left.
Defined.

(** ** One generator fails *)


Section Isolation.

Variable P : Platform.

(** The aggregation stage once the configuration files are settled: both
    generators are called, the cleanup runs, and the stage returns the
    two section texts. *)
Lemma aggregate_settled a js je jt gt s e w cj cg w1 :
  prepare_configs P a (jira_config_path P) (github_config_path P) (set_cleanup [] w)
  = (Val (cj, cg), w1) →
  ∃ w',
    aggregate P a js je jt gt s e w
    = (Val (section_text jira_error_marker
              (WeeklyJiraSummary P (files w1) cj js je jt s e),
            section_text github_error_marker
              (WeeklyGitHubSummary P (files w1) cg gt s e)), w')
    ∧ collaborator_calls (trace w')
      = collaborator_calls (trace w1) ++ [EvJira cj js je jt s e; EvGitHub cg gt s e].
Proof.
  intros Hprep. rewrite aggregate_unfold. unfold try_finally.
  rewrite (bind_val _ _ _ _ _ Hprep). cbv beta iota.
  rewrite generators_run.
  set (rj := WeeklyJiraSummary P (files w1) cj js je jt s e).
  set (rg := WeeklyGitHubSummary P (files w1) cg gt s e).
  match goal with
  | |- context [cleanup_temp_files P ?w3] =>
      destruct (cleanup_loop_spec P (temp_files_to_cleanup w3) w3)
        as (w' & Hrun & He & Hd & Hc & Hfr & Hmono & Hl & t & Ht & Hcc & Htm)
  end.
  unfold cleanup_temp_files. rewrite Hrun.
  exists w'. split; [reflexivity|].
  rewrite Ht. cbn [trace add_event]. unfold collaborator_calls in *.
  rewrite !filter_app, Hcc, app_nil_r.
  destruct rj, rg; cbn; rewrite <- ?app_assoc; reflexivity.
Qed.

(** C2, as the code has it.  The run has passed its checks and settled
    the configuration files.  Both generators are then called, Jira
    first and GitHub whatever Jira did, once each.  The text of a section
    is what its generator returned, or, when the generator raised, the
    marker that carries the text of the exception; the other section is
    not affected.  The report is built from the two sections in either
    case, and the run goes on to save it: it answers with the success
    reply and the file holds the report when the save succeeds, and with
    the storage error that carries the report when the save fails. *)
Theorem collaborator_failure_is_isolated a w s e js je jt gt w0 cj cg w1 :
  before_aggregation P a w = (Val (s, e, (js, je, jt, gt)), w0) →
  prepare_configs P a (jira_config_path P) (github_config_path P) (set_cleanup [] w0)
  = (Val (cj, cg), w1) →
  ∃ jira_section github_section generated c w2,
    build_report P a w = (Val (c, s, e), w2)
    ∧ jira_section
      = match WeeklyJiraSummary P (files w1) cj js je jt s e with
        | Ok text => text
        | Err ex => "**Error generating Jira report:** " +:+ exn_msg ex
                    +:+ PyStr.newline +:+ PyStr.newline
        end
    ∧ github_section
      = match WeeklyGitHubSummary P (files w1) cg gt s e with
        | Ok text => text
        | Err ex => "**Error generating GitHub report:** " +:+ exn_msg ex
                    +:+ PyStr.newline +:+ PyStr.newline
        end
    ∧ (c = combined_text s e jira_section github_section generated
       ∨ c = combined_text s e jira_section github_section generated
             +:+ summary_section (chosen_prompt a))
    ∧ collaborator_calls (trace w2)
      = collaborator_calls (trace w1) ++ [EvJira cj js je jt s e; EvGitHub cg gt s e]
    ∧ (∀ p w3,
         save_report P c s e w2 = (Val p, w3) →
         _generate_weekly_status P a w
         = (Val (success_reply s e p c),
            add_event (EvLog INFO ("Report saved to: " +:+ p)) w3)
         ∧ files w3 !! p = Some c)
    ∧ (∀ ex w3,
         save_report P c s e w2 = (Raise ex, w3) →
         _generate_weekly_status P a w
         = (Val (save_failed_reply ex c),
            add_event (EvLog ERROR ("Failed to save report: " +:+ exn_msg ex)) w3)).
Proof.
  intros Hbefore Hprep.
  destruct (aggregate_settled a js je jt gt s e w0 cj cg w1 Hprep)
    as (w' & Hagg & Hcalls).
  set (rj := WeeklyJiraSummary P (files w1) cj js je jt s e) in *.
  set (rg := WeeklyGitHubSummary P (files w1) cg gt s e) in *.
  set (generated := Calendar.strftime_ymd_hms (clock P (ticks w'))).
  set (combined := combined_text s e (section_text jira_error_marker rj)
                     (section_text github_error_marker rg) generated).
  assert (∃ c w2,
            build_report P a w = (Val (c, s, e), w2)
            ∧ (c = combined ∨ c = combined +:+ summary_section (chosen_prompt a))
            ∧ collaborator_calls (trace w2) = collaborator_calls (trace w'))
    as (c & w2 & Hbuild & Hc & Htrace).
  { assert (combine P s e (section_text jira_error_marker rj)
              (section_text github_error_marker rg) w'
            = (Val combined, set_ticks (S (ticks w')) w')) as Hcombine by reflexivity.
    assert (∃ c w2,
              add_summary P a combined (set_ticks (S (ticks w')) w') = (Val c, w2)
              ∧ (c = combined ∨ c = combined +:+ summary_section (chosen_prompt a))
              ∧ collaborator_calls (trace w2) = collaborator_calls (trace w'))
      as (c & w2 & Hsummary & Hc & Htrace).
    { rewrite add_summary_unfold.
      destruct (generate_summary a); [destruct (str_format P (chosen_prompt a) combined)|];
        eexists _, _; (split; [reflexivity|]); split; auto;
        cbn [trace add_event set_ticks]; unfold collaborator_calls;
        rewrite ?filter_app; cbn; by rewrite ?app_nil_r. }
    exists c, w2. split; [|by split].
    unfold build_report. rewrite (bind_val _ _ _ _ _ Hbefore). cbv beta iota.
    rewrite (bind_val _ _ _ _ _ Hagg). cbv beta iota.
    rewrite (bind_val _ _ _ _ _ Hcombine).
    by rewrite (bind_val _ _ _ _ _ Hsummary). }
  exists (section_text jira_error_marker rj), (section_text github_error_marker rg),
    generated, c, w2.
  split; [exact Hbuild|].
  split; [by destruct rj|]. split; [by destruct rg|].
  split; [exact Hc|]. split; [by rewrite Htrace|].
  split.
  - intros p w3 Hsave.
    rewrite (generate_weekly_status_built P _ _ _ _ _ _ Hbuild).
    rewrite persist_unfold, Hsave.
    destruct (save_report_val P _ _ _ _ _ _ Hsave) as [-> Hfile]. by split.
  - intros ex w3 Hsave.
    rewrite (generate_weekly_status_built P _ _ _ _ _ _ Hbuild).
    by rewrite persist_unfold, Hsave.
Qed.

End Isolation.

(** Jira is down, GitHub answers, the report is saved. *)
Lemma collaborator_failure_is_isolated_witness :
  ∃ c w2,
    build_report Demo.jira_is_down (Demo.args None) Demo.fresh_world
    = (Val (c, "2024-01-10", "2024-01-03"), w2)
    ∧ (∃ generated,
         c = combined_text "2024-01-10" "2024-01-03"
               ("**Error generating Jira report:** connection refused"
                +:+ PyStr.newline +:+ PyStr.newline)
               "GitHub: 3 pull requests merged" generated
         ∨ c = combined_text "2024-01-10" "2024-01-03"
                 ("**Error generating Jira report:** connection refused"
                  +:+ PyStr.newline +:+ PyStr.newline)
                 "GitHub: 3 pull requests merged" generated
               +:+ summary_section DEFAULT_SUMMARY_PROMPT)
    ∧ collaborator_calls (trace w2)
      = [EvJira "/srv/mcp/config/jira_config.yaml" "https://jira.example.com"
           "dev@example.com" "jira-token" "2024-01-10" "2024-01-03";
         EvGitHub "/srv/mcp/config/github_config.yaml" "github-token"
           "2024-01-10" "2024-01-03"].
Proof.
  destruct (collaborator_failure_is_isolated Demo.jira_is_down (Demo.args None)
              Demo.fresh_world "2024-01-10" "2024-01-03"
              "https://jira.example.com" "dev@example.com" "jira-token" "github-token"
              (before_aggregation Demo.jira_is_down (Demo.args None) Demo.fresh_world).2
              "/srv/mcp/config/jira_config.yaml" "/srv/mcp/config/github_config.yaml"
              (set_cleanup []
                 (before_aggregation Demo.jira_is_down (Demo.args None)
                    Demo.fresh_world).2)
              ltac:(vm_compute; reflexivity) ltac:(vm_compute; reflexivity))
    as (jira_section & github_section & generated & c & w2
        & Hbuild & -> & -> & Hc & Hcalls & _).
  exists c, w2. split; [exact Hbuild|]. split; [exists generated; exact Hc|].
  exact Hcalls.
Defined.

(** C2 as stated fails.  Jira is down and GitHub answers.  The Jira
    section is the marker, in bold and with two line ends after it, so
    the text "Error generating Jira report: connection refused" is not in
    the reply; and when the report cannot be saved the run does not
    return success: it answers with the storage error. *)
Lemma failed_collaborator_run_may_not_succeed :
  (starts_with SUCCESS_HEADER
     (outcome_value EmptyString
        (_generate_weekly_status Demo.jira_is_down (Demo.args None)
           Demo.fresh_world).1) = true
   ∧ contains "**Error generating Jira report:** connection refused"
       (outcome_value EmptyString
          (_generate_weekly_status Demo.jira_is_down (Demo.args None)
             Demo.fresh_world).1) = true
   ∧ contains "Error generating Jira report: connection refused"
       (outcome_value EmptyString
          (_generate_weekly_status Demo.jira_is_down (Demo.args None)
             Demo.fresh_world).1) = false)
  ∧ (collaborator_calls
       (trace (_generate_weekly_status Demo.jira_down_disk_full (Demo.args None)
                 Demo.fresh_world).2)
     = [EvJira "/srv/mcp/config/jira_config.yaml" "https://jira.example.com"
          "dev@example.com" "jira-token" "2024-01-10" "2024-01-03";
        EvGitHub "/srv/mcp/config/github_config.yaml" "github-token"
          "2024-01-10" "2024-01-03"]
     ∧ starts_with "Error: Failed to save report: [Errno 28] No space left on device"
         (outcome_value EmptyString
            (_generate_weekly_status Demo.jira_down_disk_full (Demo.args None)
               Demo.fresh_world).1) = true
     ∧ starts_with SUCCESS_HEADER
         (outcome_value EmptyString
            (_generate_weekly_status Demo.jira_down_disk_full (Demo.args None)
               Demo.fresh_world).1) = false).
Proof.
  split.
  - split; [by vm_compute|]. split; by vm_compute.
  - split; [by vm_compute|]. split; by vm_compute.
Qed.

(** ** A temporary file that is left behind *)

(** C5.  The caller overrides the Jira configuration and the disk is
    full when the temporary file is written.  [mkstemp] has made the file
    by then; [create_temp_config_file] raises before the path is put on
    the cleanup list, so the [finally] block removes nothing: the run
    answers with the general error and the file it made is still in the
    temporary directory. *)
Lemma temp_file_left_after_failed_write :
  files Demo.fresh_world !! "/tmp/jira_mcp_k3x9.yaml" = None
  ∧ (_generate_weekly_status Demo.temp_disk_full (Demo.args Demo.jira_override)
       Demo.fresh_world).1
    = Val "Error generating weekly status: [Errno 28] No space left on device"
  ∧ temp_files_made
      (trace (_generate_weekly_status Demo.temp_disk_full (Demo.args Demo.jira_override)
                Demo.fresh_world).2)
    = [EvMkstemp "/tmp/jira_mcp_k3x9.yaml"]
  ∧ files (_generate_weekly_status Demo.temp_disk_full (Demo.args Demo.jira_override)
             Demo.fresh_world).2 !! "/tmp/jira_mcp_k3x9.yaml"
    = Some EmptyString
  ∧ EvUnlink "/tmp/jira_mcp_k3x9.yaml"
    ∉ trace (_generate_weekly_status Demo.temp_disk_full (Demo.args Demo.jira_override)
               Demo.fresh_world).2.
Proof.
  split; [by vm_compute|]. split; [by vm_compute|]. split; [by vm_compute|].
  split; [by vm_compute|].
  intros Hin. vm_compute in Hin.
  repeat (apply elem_of_cons in Hin as [Hin|Hin]; [discriminate Hin|]).
  by apply elem_of_nil in Hin.
Qed.

(** ** The summary section *)


Section SummaryClaim.

Variable P : Platform.


End SummaryClaim.


